(** * wrpMongoDB: a JSON facade over the MongoDB Go driver

    A shallow embedding of package [mongoclient]:
    - [helpers.go]: [jsonToBsonM] and [jsonToBsonD];
    - the [Client] generation of the facade ([NewMongo], [Connect],
      [Disconnect], [InsertOne], [FindOne], [FindByID],
      [FindManyFilterJSON], [FindManyFilterBSON], [walkMongoSet],
      [DeleteOne], [DeleteAll], [UpdateByID], [UpdateOne], [UpdateMany]);
    - the earlier [MoInstance] generation, method for method.

    What the package calls but does not define is modelled from the
    documentation of the library concerned:
    - [encoding/json]: [json.Unmarshal] into a [map[string]interface{}]
      and into a slice of [struct { Key string; Value interface{} }]
      (module [JSON]);
    - [context], [time], panics and the [defer] statement (module [Go]);
    - [github.com/pkg/errors]: [errors.New], [errors.Wrap], [errors.Cause];
    - the MongoDB driver, which is the environment of the facade: a record
      of answers, one function per driver method (module [Mongo]). *)

From Stdlib Require Import List ZArith NArith Lia Bool String Ascii Strings.Byte.
From Stdlib Require Import Permutation.
From Stdlib Require Import Floats.SpecFloat.
Import ListNotations.

Local Open Scope Z_scope.

(* ================================================================== *)
(** * Go values *)
(* ================================================================== *)

(** [primitive.ObjectID] is a [[12]byte]; it is read here as the 96-bit
    number its bytes spell, so that the zero value [primitive.ObjectID{}]
    is [0]. *)
Definition ObjectID := N.
Bind Scope N_scope with ObjectID.

Definition NilObjectID : ObjectID := 0%N.

(** A [float64]: IEEE 754 binary64, as the standard library specifies it
    ([prec = 53], [emax = 1024]). *)
Definition float64 := spec_float.

(** The values of type [error] that the package can meet.  Of the errors
    of [encoding/json] the kind is kept, and for a type error what did not
    fit and the type it did not fit; offsets and messages are not. *)
Inductive error :=
| SyntaxError                                   (* a json.SyntaxError *)
| UnmarshalTypeError (Value : string) (Type_ : string)
                                                (* a json.UnmarshalTypeError *)
| errorString (s : string)                      (* errors.New(s) *)
| withStack (cause : error) (message : string)  (* errors.Wrap(cause, message) *)
| ErrNoDocuments                                (* mongo.ErrNoDocuments *)
| DriverError (what : string).                  (* any other error of the driver *)

(** The dynamic values an [interface{}] holds in a document: what
    [encoding/json] decodes into, and the identifiers of the driver.  A Go
    map has no order; it is kept here as a list sorted by key, without
    repeated keys. *)
#[local] Unset Elimination Schemes.
Inductive goval :=
| VNil
| VBool (b : bool)
| VFloat64 (f : float64)
| VString (s : string)
| VSlice (elems : list goval)
| VMap (m : list (string * goval))
| VObjectID (id : ObjectID).
#[local] Set Elimination Schemes.

Definition gomap := list (string * goval).

(** [m[k] = v]. *)
Fixpoint map_set (k : string) (v : goval) (m : gomap) : gomap :=
  match m with
  | [] => [(k, v)]
  | (k', v') :: m' =>
      match String.compare k k' with
      | Lt => (k, v) :: m
      | Eq => (k, v) :: m'
      | Gt => (k', v') :: map_set k v m'
      end
  end.

(** [bson.M], that is [primitive.M], a [map[string]interface{}]; [None] is
    the nil map. *)
Definition bsonM := option gomap.

(** [bson.E], that is [primitive.E]: [struct { Key string; Value interface{} }]. *)
Record bsonE := mkE { Key : string; Value : goval }.

(** [bson.D], that is [primitive.D], a [[]E]; [None] is the nil slice. *)
Definition bsonD := option (list bsonE).

(* ================================================================== *)
(** * encoding/json *)
(* ================================================================== *)

Module JSON.

(** A Go [[]byte]. *)
Definition bytes := list byte.

(** A Go [string] is a sequence of bytes too; Rocq's [string] is one. *)
Definition bytes_of_string (s : string) : bytes := list_byte_of_string s.

Definition code (c : byte) : N := Byte.to_N c.

Definition byte_of_code (n : N) : byte :=
  match Byte.of_N n with Some b => b | None => x00 end.

Definition in_range (lo hi : N) (c : byte) : bool :=
  ((lo <=? code c) && (code c <=? hi))%N.

(** scanner.go, [isSpace]. *)
Definition isSpace (c : byte) : bool :=
  Byte.eqb c " " || Byte.eqb c x09 || Byte.eqb c x0d || Byte.eqb c x0a.

Definition isDigit (c : byte) : bool := in_range 48 57 c.

Definition digit_val (c : byte) : N := (code c - 48)%N.

Definition isHex (c : byte) : bool :=
  in_range 48 57 c || in_range 97 102 c || in_range 65 70 c.

Definition hex_val (c : byte) : N :=
  if in_range 48 57 c then (code c - 48)%N
  else if in_range 97 102 c then (code c - 87)%N
  else (code c - 55)%N.

(** ** Number literals

    A literal [-?int(.frac)?([eE][+-]?exp)?] denotes
    [(-1)^nl_neg * nl_mant * 10^nl_exp10], where [nl_mant] reads the digits
    of [int] and [frac] as one integer. *)
Record numlit := mkNum { nl_neg : bool; nl_mant : N; nl_exp10 : Z }.

(** The states of scanner.go while inside a number. *)
Inductive numstate :=
| stateBeginNum | stateNeg | state0 | state1
| stateDot | stateDot0 | stateE | stateESign | stateE0.

Record numacc := mkAcc {
  na_neg : bool; na_mant : N; na_frac : Z; na_eneg : bool; na_exp : N }.

Definition numacc0 : numacc := mkAcc false 0 0 false 0.

Definition push_digit (a : numacc) (c : byte) : numacc :=
  mkAcc (na_neg a) (na_mant a * 10 + digit_val c) (na_frac a) (na_eneg a) (na_exp a).

Definition push_frac (a : numacc) (c : byte) : numacc :=
  mkAcc (na_neg a) (na_mant a * 10 + digit_val c) (na_frac a + 1) (na_eneg a) (na_exp a).

Definition push_exp (a : numacc) (c : byte) : numacc :=
  mkAcc (na_neg a) (na_mant a) (na_frac a) (na_eneg a) (na_exp a * 10 + digit_val c).

Definition set_neg (a : numacc) : numacc :=
  mkAcc true (na_mant a) (na_frac a) (na_eneg a) (na_exp a).

Definition set_eneg (a : numacc) (b : bool) : numacc :=
  mkAcc (na_neg a) (na_mant a) (na_frac a) b (na_exp a).

Definition isE (c : byte) : bool := Byte.eqb c "e" || Byte.eqb c "E".

(** One byte of a number; [None] when the byte cannot continue it. *)
Definition num_step (st : numstate) (a : numacc) (c : byte)
  : option (numstate * numacc) :=
  match st with
  | stateBeginNum =>
      if Byte.eqb c "-" then Some (stateNeg, set_neg a)
      else if Byte.eqb c "0" then Some (state0, push_digit a c)
      else if isDigit c then Some (state1, push_digit a c)
      else None
  | stateNeg =>
      if Byte.eqb c "0" then Some (state0, push_digit a c)
      else if isDigit c then Some (state1, push_digit a c)
      else None
  | state1 =>
      if isDigit c then Some (state1, push_digit a c)
      else if Byte.eqb c "." then Some (stateDot, a)
      else if isE c then Some (stateE, a)
      else None
  | state0 =>
      if Byte.eqb c "." then Some (stateDot, a)
      else if isE c then Some (stateE, a)
      else None
  | stateDot =>
      if isDigit c then Some (stateDot0, push_frac a c) else None
  | stateDot0 =>
      if isDigit c then Some (stateDot0, push_frac a c)
      else if isE c then Some (stateE, a)
      else None
  | stateE =>
      if Byte.eqb c "+" then Some (stateESign, set_eneg a false)
      else if Byte.eqb c "-" then Some (stateESign, set_eneg a true)
      else if isDigit c then Some (stateE0, push_exp a c)
      else None
  | stateESign =>
      if isDigit c then Some (stateE0, push_exp a c) else None
  | stateE0 =>
      if isDigit c then Some (stateE0, push_exp a c) else None
  end.

(** The states in which a number may end. *)
Definition num_final (st : numstate) : bool :=
  match st with
  | state0 | state1 | stateDot0 | stateE0 => true
  | _ => false
  end.

Definition numlit_of_acc (a : numacc) : numlit :=
  mkNum (na_neg a) (na_mant a)
        ((if na_eneg a then - Z.of_N (na_exp a) else Z.of_N (na_exp a)) - na_frac a).

(** ** String literals: decode.go, [unquoteBytes]

    The scanner has already checked the escapes.  A surrogate half that is
    not followed by its other half, and a byte sequence that is not UTF-8,
    become U+FFFD. *)

Definition replacement : bytes := [xef; xbf; xbd].

(** utf8.EncodeRune. *)
Definition EncodeRune (r : N) : bytes :=
  (if r <? 128 then [byte_of_code r]
   else if r <? 2048 then
     [byte_of_code (192 + N.shiftr r 6); byte_of_code (128 + N.land r 63)]
   else if (55296 <=? r) && (r <? 57344) then replacement
   else if r <? 65536 then
     [byte_of_code (224 + N.shiftr r 12);
      byte_of_code (128 + N.land (N.shiftr r 6) 63);
      byte_of_code (128 + N.land r 63)]
   else if r <? 1114112 then
     [byte_of_code (240 + N.shiftr r 18);
      byte_of_code (128 + N.land (N.shiftr r 12) 63);
      byte_of_code (128 + N.land (N.shiftr r 6) 63);
      byte_of_code (128 + N.land r 63)]
   else replacement)%N.

Definition hex4 (a b c d : byte) : N :=
  (hex_val a * 4096 + hex_val b * 256 + hex_val c * 16 + hex_val d)%N.

(** utf16.IsSurrogate and utf16.DecodeRune. *)
Definition IsSurrogate (r : N) : bool := ((55296 <=? r) && (r <? 57344))%N.

Definition utf16_DecodeRune (r1 r2 : N) : option N :=
  (if (55296 <=? r1) && (r1 <? 56320) && (56320 <=? r2) && (r2 <? 57344)
   then Some ((r1 - 55296) * 1024 + (r2 - 56320) + 65536)
   else None)%N.

(** What follows a backslash other than [u]. *)
Definition simple_escape (c : byte) : byte :=
  if Byte.eqb c "b" then x08
  else if Byte.eqb c "f" then x0c
  else if Byte.eqb c "n" then x0a
  else if Byte.eqb c "r" then x0d
  else if Byte.eqb c "t" then x09
  else c.

(** The first-byte table of utf8.DecodeRune: the length of the sequence a
    byte starts and the range its second byte must lie in. *)
Definition utf8_first (c : byte) : option (nat * N * N) :=
  if in_range 194 223 c then Some (2%nat, 128, 191)%N
  else if in_range 224 224 c then Some (3%nat, 160, 191)%N
  else if in_range 225 236 c then Some (3%nat, 128, 191)%N
  else if in_range 237 237 c then Some (3%nat, 128, 159)%N
  else if in_range 238 239 c then Some (3%nat, 128, 191)%N
  else if in_range 240 240 c then Some (4%nat, 144, 191)%N
  else if in_range 241 243 c then Some (4%nat, 128, 191)%N
  else if in_range 244 244 c then Some (4%nat, 128, 143)%N
  else None.

Definition isCont (c : byte) : bool := in_range 128 191 c.

Fixpoint unquoteBytes (s : bytes) : bytes :=
  match s with
  | [] => []
  | c :: rest =>
    if Byte.eqb c "\" then
      match rest with
      | [] => []
      | e :: rest1 =>
        if Byte.eqb e "u" then
          match rest1 with
          | h1 :: h2 :: h3 :: h4 :: rest2 =>
            let rr := hex4 h1 h2 h3 h4 in
            if IsSurrogate rr then
              match rest2 with
              | b :: u :: l1 :: l2 :: l3 :: l4 :: rest3 =>
                if Byte.eqb b "\" && Byte.eqb u "u"
                   && isHex l1 && isHex l2 && isHex l3 && isHex l4 then
                  match utf16_DecodeRune rr (hex4 l1 l2 l3 l4) with
                  | Some dec => EncodeRune dec ++ unquoteBytes rest3
                  | None => replacement ++ unquoteBytes rest2
                  end
                else replacement ++ unquoteBytes rest2
              | _ => replacement ++ unquoteBytes rest2
              end
            else EncodeRune rr ++ unquoteBytes rest2
          | _ => []
          end
        else simple_escape e :: unquoteBytes rest1
      end
    else if (code c <? 128)%N then c :: unquoteBytes rest
    else
      match utf8_first c with
      | None => replacement ++ unquoteBytes rest
      | Some (sz, lo, hi) =>
        match rest with
        | b1 :: rest1 =>
          if in_range lo hi b1 then
            match sz with
            | 2%nat => c :: b1 :: unquoteBytes rest1
            | _ =>
              match rest1 with
              | b2 :: rest2 =>
                if isCont b2 then
                  match sz with
                  | 3%nat => c :: b1 :: b2 :: unquoteBytes rest2
                  | _ =>
                    match rest2 with
                    | b3 :: rest3 =>
                      if isCont b3
                      then c :: b1 :: b2 :: b3 :: unquoteBytes rest3
                      else replacement ++ unquoteBytes rest
                    | [] => replacement ++ unquoteBytes rest
                    end
                  end
                else replacement ++ unquoteBytes rest
              | [] => replacement ++ unquoteBytes rest
              end
            end
          else replacement ++ unquoteBytes rest
        | [] => replacement
        end
      end
  end.

Definition unquote (raw : bytes) : string :=
  string_of_list_byte (unquoteBytes raw).

(** ** Tokens: scanner.go read as a lexer

    [checkValid] walks the text one byte at a time; so does [lex], whose
    state says which token the scanner is inside of. *)
Inductive token :=
| TLBrace | TRBrace | TLBracket | TRBracket | TColon | TComma
| TString (s : string) | TNumber (n : numlit)
| TTrue | TFalse | TNull.

Inductive strmode := InString | InStringEsc | InStringEscU (k : nat).

Inductive lexstate :=
| LBegin
| LNum (st : numstate) (a : numacc)
| LStr (m : strmode) (raw : bytes)
| LLit (expect : bytes) (t : token).

Definition quote : byte := x22.

(** A byte met between two tokens. *)
Definition begin_byte (c : byte) (toks : list token)
  : option (lexstate * list token) :=
  if isSpace c then Some (LBegin, toks)
  else if Byte.eqb c "{" then Some (LBegin, TLBrace :: toks)
  else if Byte.eqb c "}" then Some (LBegin, TRBrace :: toks)
  else if Byte.eqb c "[" then Some (LBegin, TLBracket :: toks)
  else if Byte.eqb c "]" then Some (LBegin, TRBracket :: toks)
  else if Byte.eqb c ":" then Some (LBegin, TColon :: toks)
  else if Byte.eqb c "," then Some (LBegin, TComma :: toks)
  else if Byte.eqb c quote then Some (LStr InString [], toks)
  else if Byte.eqb c "t" then Some (LLit (bytes_of_string "rue") TTrue, toks)
  else if Byte.eqb c "f" then Some (LLit (bytes_of_string "alse") TFalse, toks)
  else if Byte.eqb c "n" then Some (LLit (bytes_of_string "ull") TNull, toks)
  else
    match num_step stateBeginNum numacc0 c with
    | Some (st, a) => Some (LNum st a, toks)
    | None => None
    end.

(** A byte met inside a string literal; [raw] is kept in reverse. *)
Definition string_byte (m : strmode) (raw : bytes) (c : byte) (toks : list token)
  : option (lexstate * list token) :=
  match m with
  | InString =>
      if Byte.eqb c quote then Some (LBegin, TString (unquote (rev raw)) :: toks)
      else if Byte.eqb c "\" then Some (LStr InStringEsc (c :: raw), toks)
      else if (code c <? 32)%N then None
      else Some (LStr InString (c :: raw), toks)
  | InStringEsc =>
      if Byte.eqb c "u" then Some (LStr (InStringEscU 4) (c :: raw), toks)
      else if Byte.eqb c "b" || Byte.eqb c "f" || Byte.eqb c "n"
              || Byte.eqb c "r" || Byte.eqb c "t" || Byte.eqb c "\"
              || Byte.eqb c "/" || Byte.eqb c quote
      then Some (LStr InString (c :: raw), toks)
      else None
  | InStringEscU k =>
      if isHex c then
        match k with
        | 0%nat | 1%nat => Some (LStr InString (c :: raw), toks)
        | S n => Some (LStr (InStringEscU n) (c :: raw), toks)
        end
      else None
  end.

Fixpoint lex (st : lexstate) (toks : list token) (s : bytes)
  : option (list token) :=
  match s with
  | [] =>
      match st with
      | LBegin => Some (rev toks)
      | LNum ns a =>
          if num_final ns then Some (rev (TNumber (numlit_of_acc a) :: toks))
          else None
      | LStr _ _ | LLit _ _ => None
      end
  | c :: rest =>
      match st with
      | LBegin =>
          match begin_byte c toks with
          | Some (st', toks') => lex st' toks' rest
          | None => None
          end
      | LNum ns a =>
          match num_step ns a c with
          | Some (ns', a') => lex (LNum ns' a') toks rest
          | None =>
              if num_final ns then
                match begin_byte c (TNumber (numlit_of_acc a) :: toks) with
                | Some (st', toks') => lex st' toks' rest
                | None => None
                end
              else None
          end
      | LStr m raw =>
          match string_byte m raw c toks with
          | Some (st', toks') => lex st' toks' rest
          | None => None
          end
      | LLit expect t =>
          match expect with
          | [] => None
          | e :: expect' =>
              if Byte.eqb c e then
                match expect' with
                | [] => lex LBegin (t :: toks) rest
                | _ => lex (LLit expect' t) toks rest
                end
              else None
          end
      end
  end.

(** ** Values: the parse stack of scanner.go *)
#[local] Unset Elimination Schemes.
Inductive json :=
| JNull
| JBool (b : bool)
| JNumber (n : numlit)
| JString (s : string)
| JArray (elems : list json)
| JObject (fields : list (string * json)).
#[local] Set Elimination Schemes.

(** An array or an object under construction; what it holds so far is kept
    in reverse, and an object remembers the key whose value is awaited. *)
Inductive frame :=
| FArray (elems : list json)
| FObject (fields : list (string * json)) (key : option string).

Inductive pstate :=
| PValue         (* a value must come *)
| PArrayStart    (* after [: a value or ] *)
| PObjectStart   (* after {: a key or } *)
| PObjectKey     (* after a comma in an object: a key *)
| PColon         (* after a key *)
| PEndValue      (* after a value in an array or object *)
| PDone (v : json).

(** scanner.go, [maxNestingDepth]. *)
Definition maxNestingDepth : N := 10000.

Definition end_value (v : json) (stack : list frame)
  : option (list frame * pstate) :=
  match stack with
  | [] => Some ([], PDone v)
  | FArray es :: stk => Some (FArray (v :: es) :: stk, PEndValue)
  | FObject fs (Some k) :: stk => Some (FObject ((k, v) :: fs) None :: stk, PEndValue)
  | FObject _ None :: _ => None
  end.

Definition push_frame (f : frame) (stack : list frame) (st : pstate)
  : option (list frame * pstate) :=
  if (N.of_nat (List.length stack) <? maxNestingDepth)%N
  then Some (f :: stack, st) else None.

Definition begin_value (t : token) (stack : list frame)
  : option (list frame * pstate) :=
  match t with
  | TNull => end_value JNull stack
  | TTrue => end_value (JBool true) stack
  | TFalse => end_value (JBool false) stack
  | TNumber n => end_value (JNumber n) stack
  | TString s => end_value (JString s) stack
  | TLBracket => push_frame (FArray []) stack PArrayStart
  | TLBrace => push_frame (FObject [] None) stack PObjectStart
  | _ => None
  end.

Definition set_key (k : string) (stack : list frame)
  : option (list frame * pstate) :=
  match stack with
  | FObject fs None :: stk => Some (FObject fs (Some k) :: stk, PColon)
  | _ => None
  end.

Definition parse_step (stack : list frame) (st : pstate) (t : token)
  : option (list frame * pstate) :=
  match st with
  | PValue => begin_value t stack
  | PArrayStart =>
      match t, stack with
      | TRBracket, FArray es :: stk => end_value (JArray (rev es)) stk
      | _, _ => begin_value t stack
      end
  | PObjectStart =>
      match t, stack with
      | TRBrace, FObject fs None :: stk => end_value (JObject (rev fs)) stk
      | TString k, _ => set_key k stack
      | _, _ => None
      end
  | PObjectKey =>
      match t with
      | TString k => set_key k stack
      | _ => None
      end
  | PColon =>
      match t with
      | TColon => Some (stack, PValue)
      | _ => None
      end
  | PEndValue =>
      match t, stack with
      | TComma, FArray _ :: _ => Some (stack, PValue)
      | TRBracket, FArray es :: stk => end_value (JArray (rev es)) stk
      | TComma, FObject _ None :: _ => Some (stack, PObjectKey)
      | TRBrace, FObject fs None :: stk => end_value (JObject (rev fs)) stk
      | _, _ => None
      end
  | PDone _ => None
  end.

Fixpoint parse_tokens (stack : list frame) (st : pstate) (ts : list token)
  : option json :=
  match ts with
  | [] => match st with PDone v => Some v | _ => None end
  | t :: ts' =>
      match parse_step stack st t with
      | Some (stack', st') => parse_tokens stack' st' ts'
      | None => None
      end
  end.

(** The value a text holds; [None] where [checkValid] reports a
    [SyntaxError]. *)
Definition parse (data : bytes) : option json :=
  match lex LBegin [] data with
  | Some ts => parse_tokens [] PValue ts
  | None => None
  end.

(** ** Numbers: strconv.ParseFloat(s, 64)

    The nearest [float64], ties to even; [None] where ParseFloat reports a
    range error because the nearest value is an infinity. *)
Definition ParseFloat (n : numlit) : option float64 :=
  match nl_mant n with
  | N0 => Some (S754_zero (nl_neg n))
  | Npos m =>
      let f :=
        if 0 <=? nl_exp10 n then
          binary_normalize 53 1024
            ((if nl_neg n then Z.neg m else Z.pos m) * 10 ^ nl_exp10 n) 0 false
        else
          SFdiv 53 1024 (S754_finite (nl_neg n) m 0)
                (S754_finite false (Z.to_pos (10 ^ (- nl_exp10 n))) 0) in
      match f with
      | S754_infinity _ | S754_nan => None
      | _ => Some f
      end
  end.

(** ** decode.go: decoding into an empty interface

    [d.saveError] keeps the first error and decoding goes on. *)
Definition saveError (saved new : option error) : option error :=
  match saved with Some _ => saved | None => new end.

Definition savedError (errs : list (option error)) : option error :=
  fold_left saveError errs None.

(** The key/value pairs of an object stored into a map, in order. *)
Definition store_pairs (kvs : list (string * goval)) (m : gomap) : gomap :=
  fold_left (fun acc kv => map_set (fst kv) (snd kv) acc) kvs m.

(** [valueInterface]: [literalInterface], [arrayInterface] and
    [objectInterface].  A number out of range is stored as nil and saved as
    an error, whose [Value] in Go also spells the literal. *)
Fixpoint valueInterface (j : json) : goval * option error :=
  match j with
  | JNull => (VNil, None)
  | JBool b => (VBool b, None)
  | JNumber n =>
      match ParseFloat n with
      | Some f => (VFloat64 f, None)
      | None => (VNil, Some (UnmarshalTypeError "number" "float64"))
      end
  | JString s => (VString s, None)
  | JArray elems =>
      let rs := map valueInterface elems in
      (VSlice (map fst rs), savedError (map snd rs))
  | JObject fields =>
      let rs := map (fun kv => (fst kv, valueInterface (snd kv))) fields in
      (VMap (store_pairs (map (fun r => (fst r, fst (snd r))) rs) []),
       savedError (map (fun r => snd (snd r)) rs))
  end.

(** ** json.Unmarshal(data, &v) for [v] of type [bson.M]

    The text is checked first; a map is allocated when [v] is nil and an
    object arrives; [null] sets [v] to nil and is no error; any other value
    leaves [v] alone and is an [UnmarshalTypeError]. *)
Definition Unmarshal (data : bytes) (v : bsonM) : bsonM * option error :=
  match parse data with
  | None => (v, Some SyntaxError)
  | Some (JObject fields) =>
      let rs := map (fun kv => (fst kv, valueInterface (snd kv))) fields in
      (Some (store_pairs (map (fun r => (fst r, fst (snd r))) rs)
                         (match v with Some m => m | None => [] end)),
       savedError (map (fun r => snd (snd r)) rs))
  | Some JNull => (None, None)
  | Some (JArray _) => (v, Some (UnmarshalTypeError "array" "primitive.M"))
  | Some (JString _) => (v, Some (UnmarshalTypeError "string" "primitive.M"))
  | Some (JNumber _) => (v, Some (UnmarshalTypeError "number" "primitive.M"))
  | Some (JBool _) => (v, Some (UnmarshalTypeError "bool" "primitive.M"))
  end.

(** ** json.Unmarshal(data, &v) for [v] a nil [bson.D]

    [bson.D] is a slice of the struct [bson.E], and neither has a method
    of its own for JSON: an array is decoded element by element, each
    element into a fresh [E]; [null] leaves the slice nil; any other value
    is an [UnmarshalTypeError] and leaves the slice nil too. *)

(** What a type error calls the value that did not fit. *)
Definition kindOf (j : json) : string :=
  match j with
  | JNull => "null"
  | JBool _ => "bool"
  | JNumber _ => "number"
  | JString _ => "string"
  | JArray _ => "array"
  | JObject _ => "object"
  end.

Definition toUpper (c : byte) : byte :=
  if in_range 97 122 c then byte_of_code (code c - 32) else c.

(** fold.go: a member name is matched with a field name exactly or, failing
    that, under Unicode's simple case folding.  Of the folding is kept what
    can yield an ASCII letter: the ASCII letters themselves, the Kelvin
    sign U+212A, which folds to K, and the long s U+017F, which folds to S.
    The other bytes stay, and a name that has one matches no field of
    [E]. *)
Fixpoint foldName (s : bytes) : bytes :=
  match s with
  | [] => []
  | c :: rest =>
      if Byte.eqb c xe2 then
        match rest with
        | b1 :: b2 :: rest' =>
            if Byte.eqb b1 x84 && Byte.eqb b2 xaa
            then "K"%byte :: foldName rest'
            else c :: foldName rest
        | _ => c :: foldName rest
        end
      else if Byte.eqb c xc5 then
        match rest with
        | b1 :: rest' =>
            if Byte.eqb b1 xbf
            then "S"%byte :: foldName rest'
            else c :: foldName rest
        | [] => c :: foldName rest
        end
      else toUpper c :: foldName rest
  end.

Inductive fieldE := FieldKey | FieldValue.

(** The field of [E] a member of an object goes to, if any. *)
Definition fieldOf (name : string) : option fieldE :=
  if String.eqb name "Key" then Some FieldKey
  else if String.eqb name "Value" then Some FieldValue
  else
    let folded := string_of_list_byte (foldName (bytes_of_string name)) in
    if String.eqb folded "KEY" then Some FieldKey
    else if String.eqb folded "VALUE" then Some FieldValue
    else None.

(** A value stored into [Key], a [string]: [null] changes nothing, what is
    no string is a type error and changes nothing either. *)
Definition storeKey (j : json) (e : bsonE) : bsonE * option error :=
  match j with
  | JString s => (mkE s (Value e), None)
  | JNull => (e, None)
  | _ => (e, Some (UnmarshalTypeError (kindOf j) "string"))
  end.

(** A value stored into [Value], an [interface{}]; [literalStore] leaves
    the field alone when a number is out of range. *)
Definition storeValue (j : json) (e : bsonE) : bsonE * option error :=
  match j with
  | JNumber n =>
      match ParseFloat n with
      | Some f => (mkE (Key e) (VFloat64 f), None)
      | None => (e, Some (UnmarshalTypeError "number" "float64"))
      end
  | _ => let '(v, err) := valueInterface j in (mkE (Key e) v, err)
  end.

(** One member of an object decoded into an [E]; a member that names no
    field is skipped. *)
Definition storeField (acc : bsonE * option error) (kv : string * json)
  : bsonE * option error :=
  let '(e, saved) := acc in
  match fieldOf (fst kv) with
  | Some FieldKey =>
      let '(e', err) := storeKey (snd kv) e in (e', saveError saved err)
  | Some FieldValue =>
      let '(e', err) := storeValue (snd kv) e in (e', saveError saved err)
  | None => (e, saved)
  end.

(** The zero [E] a slice grows by. *)
Definition zeroE : bsonE := mkE EmptyString VNil.

(** An element of the array decoded into a fresh [E]. *)
Definition decodeE (j : json) : bsonE * option error :=
  match j with
  | JObject fields => fold_left storeField fields (zeroE, None)
  | JNull => (zeroE, None)
  | _ => (zeroE, Some (UnmarshalTypeError (kindOf j) "primitive.E"))
  end.

Definition Unmarshal_D (data : bytes) : bsonD * option error :=
  match parse data with
  | None => (None, Some SyntaxError)
  | Some (JArray elems) =>
      let rs := map decodeE elems in
      (Some (map fst rs), savedError (map snd rs))
  | Some JNull => (None, None)
  | Some j => (None, Some (UnmarshalTypeError (kindOf j) "primitive.D"))
  end.

(** ** encode.go: the value json.Marshal writes for a document

    The text itself is not modelled, the value it holds is: what reading
    the text back gives.  Keys come out sorted.  A string that is valid
    UTF-8, as every string decoded above is, comes out as it is. *)

(** The integer a [float64] is, if it is one. *)
Definition float64_int (f : float64) : option Z :=
  match f with
  | S754_zero _ => Some 0
  | S754_finite s m e =>
      if 0 <=? e then Some (cond_Zopp s (Z.pos m * 2 ^ e))
      else if Z.pos m mod 2 ^ (- e) =? 0
           then Some (cond_Zopp s (Z.pos m / 2 ^ (- e)))
           else None
  | _ => None
  end.

Definition float64_signbit (f : float64) : bool :=
  match f with
  | S754_zero s | S754_finite s _ _ | S754_infinity s => s
  | S754_nan => false
  end.

Definition hex_digit (n : N) : byte :=
  byte_of_code (if n <? 10 then 48 + n else 87 + n)%N.

Fixpoint hex_digits (k : nat) (n : N) (acc : bytes) : bytes :=
  match k with
  | O => acc
  | S k' => hex_digits k' (n / 16)%N (hex_digit (n mod 16)%N :: acc)
  end.

(** [id.Hex()]. *)
Definition Hex (id : ObjectID) : string :=
  string_of_list_byte (hex_digits 24 id []).

Section Encode.

(** The digits strconv chooses for a [float64]: the fewest that read back
    as it.  They are computed here for the integers of magnitude at most
    2^53, which are written digit for digit; for the other values the
    routine of strconv is a parameter. *)
Variable shortest : float64 -> numlit.

(** The number written for [f]; NaN and the infinities are an error. *)
Definition FormatFloat (f : float64) : option numlit :=
  match f with
  | S754_nan | S754_infinity _ => None
  | _ =>
      match float64_int f with
      | Some n =>
          if Z.abs n <=? 2 ^ 53
          then Some (mkNum (float64_signbit f) (Z.to_N (Z.abs n)) 0)
          else Some (shortest f)
      | None => Some (shortest f)
      end
  end.

Fixpoint sequence {A} (l : list (option A)) : option (list A) :=
  match l with
  | [] => Some []
  | None :: _ => None
  | Some a :: l' =>
      match sequence l' with
      | Some r => Some (a :: r)
      | None => None
      end
  end.

Definition with_key {A} (k : string) (o : option A) : option (string * A) :=
  match o with
  | Some a => Some (k, a)
  | None => None
  end.

(** An ObjectID is written by its MarshalJSON, as the string of its
    hexadecimal digits. *)
Fixpoint marshal_value (v : goval) : option json :=
  match v with
  | VNil => Some JNull
  | VBool b => Some (JBool b)
  | VFloat64 f => option_map JNumber (FormatFloat f)
  | VString s => Some (JString s)
  | VSlice elems => option_map JArray (sequence (map marshal_value elems))
  | VMap m =>
      option_map JObject
        (sequence (map (fun kv => with_key (fst kv) (marshal_value (snd kv))) m))
  | VObjectID id => Some (JString (Hex id))
  end.

(** json.Marshal(doc) for [doc] of type [bson.M]; a nil map is written as
    [null]. *)
Definition Marshal (doc : bsonM) : option json :=
  match doc with
  | None => Some JNull
  | Some m => marshal_value (VMap m)
  end.

End Encode.

(** ** Two texts that hold the same value

    Numbers are compared by the number they denote, the fields of an
    object without regard to their order. *)
Definition scaled (n : numlit) (e : Z) : Z :=
  cond_Zopp (nl_neg n) (Z.of_N (nl_mant n) * 10 ^ (nl_exp10 n - e)).

Definition same_number (a b : numlit) : Prop :=
  scaled a (Z.min (nl_exp10 a) (nl_exp10 b))
  = scaled b (Z.min (nl_exp10 a) (nl_exp10 b)).

#[local] Unset Elimination Schemes.
Inductive same : json -> json -> Prop :=
| same_null : same JNull JNull
| same_bool b : same (JBool b) (JBool b)
| same_num a b : same_number a b -> same (JNumber a) (JNumber b)
| same_string s : same (JString s) (JString s)
| same_array l l' : Forall2 same l l' -> same (JArray l) (JArray l')
| same_object fs fs' reordered :
    Permutation fs reordered ->
    Forall2 (fun x y => fst x = fst y /\ same (snd x) (snd y)) reordered fs' ->
    same (JObject fs) (JObject fs').
#[local] Set Elimination Schemes.

(** ** Values that survive the decoding *)




(** ** The value a text denotes

    A text is read here without [encoding/json]: first as it is written,
    each string literal being kept as the bytes between its quotes, then
    as the value these literals denote.

    A string literal denotes a Unicode string, which is given in UTF-8.
    An escape stands for its character, two escapes that name a high and
    a low surrogate stand for the one character beyond U+FFFF the pair
    encodes, and a byte that is not part of an escape stands for itself.
    A literal denotes no Unicode string when an escape names a surrogate
    that is not part of such a pair, or when its bytes are not UTF-8. *)

Definition prepend (p : bytes) (o : option bytes) : option bytes :=
  option_map (app p) o.

Fixpoint denoted (s : bytes) : option bytes :=
  match s with
  | [] => Some []
  | c :: rest =>
    if Byte.eqb c "\" then
      match rest with
      | [] => None
      | e :: rest1 =>
        if Byte.eqb e "u" then
          match rest1 with
          | h1 :: h2 :: h3 :: h4 :: rest2 =>
            let rr := hex4 h1 h2 h3 h4 in
            if IsSurrogate rr then
              match rest2 with
              | b :: u :: l1 :: l2 :: l3 :: l4 :: rest3 =>
                if Byte.eqb b "\" && Byte.eqb u "u"
                   && isHex l1 && isHex l2 && isHex l3 && isHex l4 then
                  match utf16_DecodeRune rr (hex4 l1 l2 l3 l4) with
                  | Some dec => prepend (EncodeRune dec) (denoted rest3)
                  | None => None
                  end
                else None
              | _ => None
              end
            else prepend (EncodeRune rr) (denoted rest2)
          | _ => None
          end
        else prepend [simple_escape e] (denoted rest1)
      end
    else if (code c <? 128)%N then prepend [c] (denoted rest)
    else
      match utf8_first c with
      | None => None
      | Some (sz, lo, hi) =>
        match rest with
        | b1 :: rest1 =>
          if in_range lo hi b1 then
            match sz with
            | 2%nat => prepend [c; b1] (denoted rest1)
            | _ =>
              match rest1 with
              | b2 :: rest2 =>
                if isCont b2 then
                  match sz with
                  | 3%nat => prepend [c; b1; b2] (denoted rest2)
                  | _ =>
                    match rest2 with
                    | b3 :: rest3 =>
                      if isCont b3
                      then prepend [c; b1; b2; b3] (denoted rest3)
                      else None
                    | [] => None
                    end
                  end
                else None
              | [] => None
              end
            end
          else None
        | [] => None
        end
      end
  end.

Definition denotedString (literal : string) : option string :=
  option_map string_of_list_byte (denoted (list_byte_of_string literal)).

(** The scanner again, keeping each string literal as it is written. *)
Definition string_byte_written (m : strmode) (raw : bytes) (c : byte)
           (toks : list token) : option (lexstate * list token) :=
  match m with
  | InString =>
      if Byte.eqb c quote
      then Some (LBegin, TString (string_of_list_byte (rev raw)) :: toks)
      else if Byte.eqb c "\" then Some (LStr InStringEsc (c :: raw), toks)
      else if (code c <? 32)%N then None
      else Some (LStr InString (c :: raw), toks)
  | InStringEsc =>
      if Byte.eqb c "u" then Some (LStr (InStringEscU 4) (c :: raw), toks)
      else if Byte.eqb c "b" || Byte.eqb c "f" || Byte.eqb c "n"
              || Byte.eqb c "r" || Byte.eqb c "t" || Byte.eqb c "\"
              || Byte.eqb c "/" || Byte.eqb c quote
      then Some (LStr InString (c :: raw), toks)
      else None
  | InStringEscU k =>
      if isHex c then
        match k with
        | 0%nat | 1%nat => Some (LStr InString (c :: raw), toks)
        | S n => Some (LStr (InStringEscU n) (c :: raw), toks)
        end
      else None
  end.

Fixpoint lex_written (st : lexstate) (toks : list token) (s : bytes)
  : option (list token) :=
  match s with
  | [] =>
      match st with
      | LBegin => Some (rev toks)
      | LNum ns a =>
          if num_final ns then Some (rev (TNumber (numlit_of_acc a) :: toks))
          else None
      | LStr _ _ | LLit _ _ => None
      end
  | c :: rest =>
      match st with
      | LBegin =>
          match begin_byte c toks with
          | Some (st', toks') => lex_written st' toks' rest
          | None => None
          end
      | LNum ns a =>
          match num_step ns a c with
          | Some (ns', a') => lex_written (LNum ns' a') toks rest
          | None =>
              if num_final ns then
                match begin_byte c (TNumber (numlit_of_acc a) :: toks) with
                | Some (st', toks') => lex_written st' toks' rest
                | None => None
                end
              else None
          end
      | LStr m raw =>
          match string_byte_written m raw c toks with
          | Some (st', toks') => lex_written st' toks' rest
          | None => None
          end
      | LLit expect t =>
          match expect with
          | [] => None
          | e :: expect' =>
              if Byte.eqb c e then
                match expect' with
                | [] => lex_written LBegin (t :: toks) rest
                | _ => lex_written (LLit expect' t) toks rest
                end
              else None
          end
      end
  end.

(** The value of a text with its string literals as they are written. *)
Definition written (data : bytes) : option json :=
  match lex_written LBegin [] data with
  | Some ts => parse_tokens [] PValue ts
  | None => None
  end.

(** The value the written literals denote; none when a literal of a
    string or of a member name denotes no Unicode string. *)
Definition denotedMember (denote : json -> option json) (kv : string * json)
  : option (string * json) :=
  match denotedString (fst kv), denote (snd kv) with
  | Some k, Some v => Some (k, v)
  | _, _ => None
  end.

Fixpoint denote (j : json) : option json :=
  match j with
  | JString literal => option_map JString (denotedString literal)
  | JArray elems => option_map JArray (sequence (map denote elems))
  | JObject fields =>
      option_map JObject (sequence (map (denotedMember denote) fields))
  | _ => Some j
  end.









End JSON.

(* ================================================================== *)
(** * github.com/pkg/errors, time, context *)
(* ================================================================== *)

(** [errors.New]. *)
Definition errors_New (message : string) : error := errorString message.

(** [errors.Wrap] returns nil when [err] is nil. *)
Definition errors_Wrap (err : option error) (message : string) : option error :=
  match err with
  | None => None
  | Some e => Some (withStack e message)
  end.

(** [errors.Cause]: the innermost error. *)
Fixpoint errors_Cause (err : error) : error :=
  match err with
  | withStack cause _ => errors_Cause cause
  | _ => err
  end.

(** An [int64], and the conversion of an integer to it. *)
Definition wrap_int64 (z : Z) : Z := (z + 2 ^ 63) mod 2 ^ 64 - 2 ^ 63.

(** [time.Duration] counts nanoseconds in an [int64]. *)
Definition Duration := Z.

Definition time_Second : Duration := 1000000000.

(** [time.Duration(n) * time.Second], for [n] of type [uint]. *)
Definition seconds (n : N) : Duration :=
  wrap_int64 (wrap_int64 (Z.of_N n) * time_Second).

(** A [context.Context]: the background, a context the caller built, or
    one derived by [context.WithTimeout]. *)
Inductive Context :=
| Background
| CallerContext (name : string)
| TimeoutContext (parent : Context) (timeout : Duration).

(* ================================================================== *)
(** * The MongoDB driver *)
(* ================================================================== *)

Module Mongo.

(** [*mongo.Client], as [mongo.Connect] and [mongo.NewClient] build it. *)
Record Client := mkClient { ClientURI : string }.

(** [*mongo.Collection], reached through [Database(..).Collection(..)]. *)
Record Collection := mkCollection {
  CollClient : Client; CollDatabase : string; CollName : string }.

(** [client.Database(db).Collection(coll)]: both allocate a handle and do
    not talk to the server; neither returns nil. *)
Definition Database_Collection (c : Client) (db coll : string)
  : option Collection := Some (mkCollection c db coll).

Record InsertOneResult := mkInsertOneResult { InsertedID : goval }.

Record DeleteResult := mkDeleteResult { DeletedCount : Z }.

Record UpdateResult := mkUpdateResult {
  MatchedCount : Z; ModifiedCount : Z; UpsertedCount : Z; UpsertedID : goval }.

(** [*mongo.SingleResult]: what [Decode] will find. *)
Inductive SingleResult :=
| SingleDocument (doc : bsonM)
| SingleNoDocuments
| SingleError (e : error).

(** [Decode(&v)] on a [SingleResult]. *)
Definition Decode (r : SingleResult) (v : bsonM) : bsonM * option error :=
  match r with
  | SingleDocument doc => (doc, None)
  | SingleNoDocuments => (v, Some ErrNoDocuments)
  | SingleError e => (v, Some e)
  end.

(** A document of a cursor decodes into a [bson.M], or does not. *)
Inductive Item :=
| Decodable (doc : bsonM)
| Undecodable (e : error).

(** [*mongo.Cursor]: the documents [Next] will step through, and the
    error [Err] reports once [Next] has returned false. *)
Record Cursor := mkCursor { Items : list Item; CursorErr : option error }.

(** [Decode(&buf)] on the current document of a cursor. *)
Definition CursorDecode (it : Item) (buf : bsonM) : bsonM * option error :=
  match it with
  | Decodable doc => (doc, None)
  | Undecodable e => (buf, Some e)
  end.

(** The methods of the driver the package invokes. *)
Inductive Call :=
| Connect (ctx : Context) (uri : string)
| Ping (ctx : Context)
| NewClient (uri : string)
| ClientConnect (ctx : Context)
| ClientDisconnect (ctx : Context)
| InsertOne (c : Collection) (ctx : Context) (document : bsonM)
| FindOne (c : Collection) (ctx : Context) (filter : bsonM)
| Find (c : Collection) (ctx : Context) (filter : bsonM)
| DeleteOne (c : Collection) (ctx : Context) (filter : bsonM)
| DeleteMany (c : Collection) (ctx : Context) (filter : bsonM)
| UpdateOne (c : Collection) (ctx : Context) (filter update : bsonM)
| UpdateMany (c : Collection) (ctx : Context) (filter update : bsonM)
| CursorNext (ctx : Context)
| CursorClose (ctx : Context).

(** The operations of a collection, one of which every method of the
    facade dispatches. *)
Definition is_operation (c : Call) : bool :=
  match c with
  | InsertOne _ _ _ | FindOne _ _ _ | Find _ _ _ | DeleteOne _ _ _
  | DeleteMany _ _ _ | UpdateOne _ _ _ _ | UpdateMany _ _ _ _ => true
  | _ => false
  end.

(** The driver and the server behind it are the environment: a driver is
    given by what each method answers. *)
Record Driver := mkDriver {
  doConnect : Context -> string -> option Client * option error;
  doPing : Client -> Context -> option error;
  doNewClient : string -> option Client * option error;
  doClientConnect : Client -> Context -> option error;
  doClientDisconnect : Client -> Context -> option error;
  doInsertOne : Collection -> Context -> bsonM
                -> option InsertOneResult * option error;
  doFindOne : Collection -> Context -> bsonM -> SingleResult;
  doFind : Collection -> Context -> bsonM -> option Cursor * option error;
  doDeleteOne : Collection -> Context -> bsonM
                -> option DeleteResult * option error;
  doDeleteMany : Collection -> Context -> bsonM
                 -> option DeleteResult * option error;
  doUpdateOne : Collection -> Context -> bsonM -> bsonM
                -> option UpdateResult * option error;
  doUpdateMany : Collection -> Context -> bsonM -> bsonM
                 -> option UpdateResult * option error
}.

End Mongo.

(* ================================================================== *)
(** * Running Go code: effects, panics and [defer] *)
(* ================================================================== *)

Module Go.

(** What an execution does that can be observed from outside. *)
Inductive Event :=
| EvWithTimeout (parent : Context) (timeout : Duration)
| EvCancel (ctx : Context)
| EvDriver (c : Mongo.Call)
| EvLog (message : string).

(** A call a [defer] statement has registered. *)
Inductive Deferred :=
| DeferCancel (ctx : Context)
| DeferCursorClose (cursor : option Mongo.Cursor) (ctx : Context).

Inductive Outcome (A : Type) :=
| Return (a : A)
| Panic (message : string).
Arguments Return {A} a.
Arguments Panic {A} message.

Record State := mkState { trace : list Event; deferred : list Deferred }.

Definition M (A : Type) : Type := State -> Outcome A * State.

Definition ret {A} (a : A) : M A := fun st => (Return a, st).

Definition bind {A B} (m : M A) (k : A -> M B) : M B :=
  fun st =>
    match m st with
    | (Return a, st') => k a st'
    | (Panic msg, st') => (Panic msg, st')
    end.

Definition panic {A} (message : string) : M A :=
  fun st => (Panic message, st).

Definition emit (e : Event) : M unit :=
  fun st => (Return tt, mkState (trace st ++ [e]) (deferred st)).

(** The [defer] statement: the call is pushed on the stack of the
    function that runs. *)
Definition defer (d : Deferred) : M unit :=
  fun st => (Return tt, mkState (trace st) (d :: deferred st)).

Definition nilDereference : string :=
  "invalid memory address or nil pointer dereference".

(** The deferred calls run last in, first out, whether the function returns
    or panics; a deferred call that panics does not stop the ones left. *)
Fixpoint run_deferred {A} (ds : list Deferred) (r : Outcome A) (tr : list Event)
  : Outcome A * list Event :=
  match ds with
  | [] => (r, tr)
  | DeferCancel ctx :: ds' => run_deferred ds' r (tr ++ [EvCancel ctx])
  | DeferCursorClose (Some _) ctx :: ds' =>
      run_deferred ds' r (tr ++ [EvDriver (Mongo.CursorClose ctx)])
  | DeferCursorClose None _ :: ds' =>
      run_deferred ds' (Panic nilDereference) tr
  end.

(** A function body: it starts with no deferred call of its own and runs
    those it has registered when it is left. *)
Definition func {A} (body : M A) : M A :=
  fun st =>
    let '(r, st') := body (mkState (trace st) []) in
    let '(r', tr') := run_deferred (deferred st') r (trace st') in
    (r', mkState tr' (deferred st)).

Definition fmap {A B} (f : A -> B) (m : M A) : M B :=
  bind m (fun a => ret (f a)).

(** A whole execution: the outcome and the events, oldest first. *)
Definition run {A} (m : M A) : Outcome A * list Event :=
  let '(r, st) := m (mkState [] []) in (r, trace st).

(** [context.WithTimeout(parent, timeout)]; the cancel function it returns
    is the one of the context it returns. *)
Definition context_WithTimeout (parent : Context) (timeout : Duration)
  : M Context :=
  bind (emit (EvWithTimeout parent timeout))
       (fun _ => ret (TimeoutContext parent timeout)).

(** A method of the driver is called: the call is seen and [answer] comes
    back. *)
Definition driver {A} (c : Mongo.Call) (answer : A) : M A :=
  bind (emit (EvDriver c)) (fun _ => ret answer).

(** A computation grows the state: it adds events after those already
    there and pushes deferred calls on those already there. *)
Definition grows {A} (m : M A) : Prop :=
  forall st, exists evs ds,
    snd (m st) = mkState (trace st ++ evs) (ds ++ deferred st).

End Go.

Declare Scope go_scope.
Delimit Scope go_scope with go.
Notation "x <- m ;; k" := (Go.bind m (fun x => k))
  (at level 61, m at next level, right associativity) : go_scope.
Notation "' p <- m ;; k" := (Go.bind m (fun x => let p := x in k))
  (at level 61, p pattern, m at next level, right associativity) : go_scope.
Notation "m ;; k" := (Go.bind m (fun _ => k))
  (at level 61, right associativity) : go_scope.

Local Open Scope go_scope.

(* ================================================================== *)
(** * Package mongoclient *)
(* ================================================================== *)

(** ** helpers.go *)

(** [var result bson.M; return result, json.Unmarshal(jsonRaw, &result)].
    Go does not fix whether [result] is read before or after the call; the
    gc compiler makes the call first, and the tests of the package insert
    what they marshalled, so [result] is read after it. *)
Definition jsonToBsonM (jsonRaw : JSON.bytes) : bsonM * option error :=
  let result : bsonM := None in
  JSON.Unmarshal jsonRaw result.

(** [var result bson.D; return result, json.Unmarshal(jsonRaw, &result)]:
    the slice the decoding starts from is nil, and [result] is read after
    the call, as in [jsonToBsonM]. *)
Definition jsonToBsonD (jsonRaw : JSON.bytes) : bsonD * option error :=
  JSON.Unmarshal_D jsonRaw.

(** What the methods return as [any] (earlier: [interface{}]): nil, a
    [bson.M], or the pointer the driver returned, which may be nil. *)
Inductive any :=
| any_nil
| any_M (m : bsonM)
| any_DeleteResult (r : option Mongo.DeleteResult)
| any_UpdateResult (r : option Mongo.UpdateResult).

Definition interfaceConversion : string :=
  "interface conversion: interface {} is not primitive.ObjectID".

(** [v.(primitive.ObjectID)]. *)
Definition assert_ObjectID (v : goval) : Go.M ObjectID :=
  match v with
  | VObjectID id => Go.ret id
  | _ => Go.panic interfaceConversion
  end.

(** [walkMongoSet]; the loop [for cursor.Next(ctx)] runs over the documents
    the cursor still holds. *)
Fixpoint walk (ctx : Context) (items : list Mongo.Item)
         (cursorErr : option error) (result : list bsonM)
  : Go.M (list bsonM * option error) :=
  Go.driver (Mongo.CursorNext ctx) tt ;;
  match items with
  | it :: rest =>
      let buf : bsonM := None in
      let '(buf, errDecode) := Mongo.CursorDecode it buf in
      match errDecode with
      | Some _ =>
          Go.ret ([], errors_Wrap errDecode "could not decode into buffer")
      | None => walk ctx rest cursorErr (result ++ [buf])
      end
  | [] =>
      let errCursor := cursorErr in
      match errCursor with
      | Some _ => Go.ret ([], errors_Wrap errCursor "cursor error")
      | None => Go.ret (result, None)
      end
  end.

Definition walkMongoSet (ctx : Context) (cursor : option Mongo.Cursor)
  : Go.M (list bsonM * option error) :=
  Go.func
    match cursor with
    | None => Go.panic Go.nilDereference
    | Some c => walk ctx (Mongo.Items c) (Mongo.CursorErr c) []
    end.

(** [bson.M{"_id": bson.M{"$eq": id}}]. *)
Definition filterByID (id : ObjectID) : bsonM :=
  Some [("_id"%string, VMap [("$eq"%string, VObjectID id)])].

(** ** The [Client] generation *)

Module ClientGen.

Record Cfg := mkCfg {
  URL : string;
  Database : string;
  Collection : string;
  SecondsTimeoutExecution : N
}.

(** [Client] embeds a [*Cfg], which [NewMongo] leaves non-nil. *)
Record Client := mkClient { cfg : Cfg; client : Mongo.Client }.

Section Facade.

Variable drv : Mongo.Driver.

(** [m.client.Database(m.Database).Collection(m.Collection)], on which a
    method is called at once. *)
Definition collectionOf (m : Client) : Go.M Mongo.Collection :=
  match Mongo.Database_Collection (client m) (Database (cfg m)) (Collection (cfg m)) with
  | Some c => Go.ret c
  | None => Go.panic Go.nilDereference
  end.

Definition timeout (m : Client) : Duration :=
  seconds (SecondsTimeoutExecution (cfg m)).

Definition NewMongo (config : option Cfg) : Go.M (option Client * option error) :=
  Go.func
    (* if config == nil { } *)
    match config with
    | None => Go.panic Go.nilDereference
    | Some config =>
      ctx <- Go.context_WithTimeout Background
               (seconds (SecondsTimeoutExecution config)) ;;
      Go.defer (Go.DeferCancel ctx) ;;
      '(instance, errConnect) <-
        Go.driver (Mongo.Connect ctx (URL config))
                  (Mongo.doConnect drv ctx (URL config)) ;;
      match errConnect with
      | Some _ => Go.ret (None, errConnect)
      | None =>
        match instance with
        | None => Go.panic Go.nilDereference
        | Some instance =>
          errPing <- Go.driver (Mongo.Ping ctx) (Mongo.doPing drv instance ctx) ;;
          match errPing with
          | Some _ => Go.ret (None, errPing)
          | None =>
            '(result, errClient) <-
              Go.driver (Mongo.NewClient (URL config))
                        (Mongo.doNewClient drv (URL config)) ;;
            match errClient, result with
            | Some _, _ | _, None => Go.ret (None, errClient)
            | None, Some result => Go.ret (Some (mkClient config result), None)
            end
          end
        end
      end
    end.

Definition Connect (m : Client) (ctx : Context) : Go.M (option error) :=
  Go.func (Go.driver (Mongo.ClientConnect ctx)
                     (Mongo.doClientConnect drv (client m) ctx)).

Definition Disconnect (m : Client) (ctx : Context) : Go.M (option error) :=
  Go.func (Go.driver (Mongo.ClientDisconnect ctx)
                     (Mongo.doClientDisconnect drv (client m) ctx)).

Definition InsertOne (m : Client) (ctx : Context) (data : JSON.bytes)
  : Go.M (ObjectID * option error) :=
  Go.func (
    ctxLocal <- Go.context_WithTimeout ctx (timeout m) ;;
    Go.defer (Go.DeferCancel ctxLocal) ;;
    let '(dataM, errConv) := jsonToBsonM data in
    match errConv with
    | Some _ => Go.ret (NilObjectID, errConv)
    | None =>
      match Mongo.Database_Collection (client m) (Database (cfg m)) (Collection (cfg m)) with
      | None => Go.ret (NilObjectID, Some (errors_New "collection is nil"))
      | Some collection =>
        '(result, errInsert) <-
          Go.driver (Mongo.InsertOne collection ctxLocal dataM)
                    (Mongo.doInsertOne drv collection ctxLocal dataM) ;;
        match errInsert, result with
        | Some _, _ | _, None => Go.ret (NilObjectID, errInsert)
        | None, Some result =>
          id <- assert_ObjectID (Mongo.InsertedID result) ;;
          Go.ret (id, None)
        end
      end
    end).

Definition FindOne (m : Client) (ctx : Context) (filter : JSON.bytes)
  : Go.M (any * option error) :=
  Go.func (
    ctxLocal <- Go.context_WithTimeout ctx (timeout m) ;;
    Go.defer (Go.DeferCancel ctxLocal) ;;
    let '(bsonFilter, errConv) := jsonToBsonM filter in
    match errConv with
    | Some _ => Go.ret (any_nil, errConv)
    | None =>
      let result : bsonM := None in
      collection <- collectionOf m ;;
      single <- Go.driver (Mongo.FindOne collection ctxLocal bsonFilter)
                          (Mongo.doFindOne drv collection ctxLocal bsonFilter) ;;
      let '(result, errFind) := Mongo.Decode single result in
      match errFind with
      | Some _ => Go.ret (any_nil, errFind)
      | None => Go.ret (any_M result, None)
      end
    end).

Definition FindByID (m : Client) (ctx : Context) (objectID : ObjectID)
  : Go.M (any * option error) :=
  Go.func (
    ctxLocal <- Go.context_WithTimeout ctx (timeout m) ;;
    Go.defer (Go.DeferCancel ctxLocal) ;;
    let bsonFilter := filterByID objectID in
    let result : bsonM := None in
    collection <- collectionOf m ;;
    single <- Go.driver (Mongo.FindOne collection ctxLocal bsonFilter)
                        (Mongo.doFindOne drv collection ctxLocal bsonFilter) ;;
    let '(result, errFind) := Mongo.Decode single result in
    match errFind with
    | Some _ => Go.ret (any_nil, errFind)
    | None => Go.ret (any_M result, None)
    end).

Definition FindManyFilterBSON (m : Client) (ctx : Context) (filterBSON : bsonM)
  : Go.M (list bsonM * option error) :=
  Go.func (
    ctxLocal <- Go.context_WithTimeout ctx (timeout m) ;;
    Go.defer (Go.DeferCancel ctxLocal) ;;
    collection <- collectionOf m ;;
    '(cursor, errFind) <-
      Go.driver (Mongo.Find collection ctxLocal filterBSON)
                (Mongo.doFind drv collection ctxLocal filterBSON) ;;
    match errFind with
    | Some _ => Go.ret ([], errFind)
    | None =>
      Go.defer (Go.DeferCursorClose cursor ctxLocal) ;;
      walkMongoSet ctxLocal cursor
    end).

Definition FindManyFilterJSON (m : Client) (ctx : Context) (filterJSON : JSON.bytes)
  : Go.M (list bsonM * option error) :=
  Go.func (
    ctxLocal <- Go.context_WithTimeout ctx (timeout m) ;;
    Go.defer (Go.DeferCancel ctxLocal) ;;
    let '(bsonFilter, errConv) := jsonToBsonM filterJSON in
    match errConv with
    | Some _ => Go.ret ([], errConv)
    | None =>
      collection <- collectionOf m ;;
      '(cursor, errFind) <-
        Go.driver (Mongo.Find collection ctxLocal bsonFilter)
                  (Mongo.doFind drv collection ctxLocal bsonFilter) ;;
      match errFind with
      | Some _ => Go.ret ([], errFind)
      | None =>
        Go.defer (Go.DeferCursorClose cursor ctxLocal) ;;
        walkMongoSet ctxLocal cursor
      end
    end).

Definition DeleteOne (m : Client) (ctx : Context) (filter : JSON.bytes)
  : Go.M (any * option error) :=
  Go.func (
    ctxLocal <- Go.context_WithTimeout ctx (timeout m) ;;
    Go.defer (Go.DeferCancel ctxLocal) ;;
    let '(bsonFilter, errConv) := jsonToBsonM filter in
    match errConv with
    | Some _ => Go.ret (any_nil, errConv)
    | None =>
      collection <- collectionOf m ;;
      '(r, err) <- Go.driver (Mongo.DeleteOne collection ctxLocal bsonFilter)
                             (Mongo.doDeleteOne drv collection ctxLocal bsonFilter) ;;
      Go.ret (any_DeleteResult r, err)
    end).

Definition DeleteAll (m : Client) (ctx : Context) (filter : JSON.bytes)
  : Go.M (any * option error) :=
  Go.func (
    ctxLocal <- Go.context_WithTimeout ctx (timeout m) ;;
    Go.defer (Go.DeferCancel ctxLocal) ;;
    let '(bsonFilter, errConv) := jsonToBsonM filter in
    match errConv with
    | Some _ => Go.ret (any_nil, errConv)
    | None =>
      collection <- collectionOf m ;;
      '(r, err) <- Go.driver (Mongo.DeleteMany collection ctxLocal bsonFilter)
                             (Mongo.doDeleteMany drv collection ctxLocal bsonFilter) ;;
      Go.ret (any_DeleteResult r, err)
    end).

Definition UpdateByID (m : Client) (ctx : Context) (id : ObjectID) (newValue : bsonM)
  : Go.M (any * option error) :=
  Go.func (
    ctxLocal <- Go.context_WithTimeout ctx (timeout m) ;;
    Go.defer (Go.DeferCancel ctxLocal) ;;
    collection <- collectionOf m ;;
    '(r, err) <- Go.driver (Mongo.UpdateOne collection ctxLocal (filterByID id) newValue)
                           (Mongo.doUpdateOne drv collection ctxLocal (filterByID id) newValue) ;;
    Go.ret (any_UpdateResult r, err)).

Definition UpdateOne (m : Client) (ctx : Context) (filter newValue : bsonM)
  : Go.M (any * option error) :=
  Go.func (
    ctxLocal <- Go.context_WithTimeout ctx (timeout m) ;;
    Go.defer (Go.DeferCancel ctxLocal) ;;
    collection <- collectionOf m ;;
    '(r, err) <- Go.driver (Mongo.UpdateOne collection ctxLocal filter newValue)
                           (Mongo.doUpdateOne drv collection ctxLocal filter newValue) ;;
    Go.ret (any_UpdateResult r, err)).

Definition UpdateMany (m : Client) (ctx : Context) (filter : JSON.bytes) (newValue : bsonM)
  : Go.M (any * option error) :=
  Go.func (
    ctxLocal <- Go.context_WithTimeout ctx (timeout m) ;;
    Go.defer (Go.DeferCancel ctxLocal) ;;
    let '(bsonFilter, errConv) := jsonToBsonM filter in
    match errConv with
    | Some _ => Go.ret (any_nil, errConv)
    | None =>
      collection <- collectionOf m ;;
      '(r, err) <- Go.driver (Mongo.UpdateMany collection ctxLocal bsonFilter newValue)
                             (Mongo.doUpdateMany drv collection ctxLocal bsonFilter newValue) ;;
      Go.ret (any_UpdateResult r, err)
    end).

(** The methods that take the caller's context, as one function of a
    request. *)
Inductive Request :=
| ReqInsertOne (data : JSON.bytes)
| ReqFindOne (filter : JSON.bytes)
| ReqFindByID (objectID : ObjectID)
| ReqFindManyFilterJSON (filterJSON : JSON.bytes)
| ReqFindManyFilterBSON (filterBSON : bsonM)
| ReqDeleteOne (filter : JSON.bytes)
| ReqDeleteAll (filter : JSON.bytes)
| ReqUpdateByID (id : ObjectID) (newValue : bsonM)
| ReqUpdateOne (filter newValue : bsonM)
| ReqUpdateMany (filter : JSON.bytes) (newValue : bsonM).

Inductive Response :=
| RespID (id : ObjectID) (err : option error)
| RespAny (a : any) (err : option error)
| RespMany (docs : list bsonM) (err : option error).

Definition respID (r : ObjectID * option error) := RespID (fst r) (snd r).
Definition respAny (r : any * option error) := RespAny (fst r) (snd r).
Definition respMany (r : list bsonM * option error) := RespMany (fst r) (snd r).

Definition call (m : Client) (ctx : Context) (req : Request) : Go.M Response :=
  match req with
  | ReqInsertOne data => Go.fmap respID (InsertOne m ctx data)
  | ReqFindOne filter => Go.fmap respAny (FindOne m ctx filter)
  | ReqFindByID objectID => Go.fmap respAny (FindByID m ctx objectID)
  | ReqFindManyFilterJSON f => Go.fmap respMany (FindManyFilterJSON m ctx f)
  | ReqFindManyFilterBSON f => Go.fmap respMany (FindManyFilterBSON m ctx f)
  | ReqDeleteOne filter => Go.fmap respAny (DeleteOne m ctx filter)
  | ReqDeleteAll filter => Go.fmap respAny (DeleteAll m ctx filter)
  | ReqUpdateByID id v => Go.fmap respAny (UpdateByID m ctx id v)
  | ReqUpdateOne f v => Go.fmap respAny (UpdateOne m ctx f v)
  | ReqUpdateMany f v => Go.fmap respAny (UpdateMany m ctx f v)
  end.

Definition perform (m : Client) (ctx : Context) (req : Request)
  : Go.Outcome Response * list Go.Event :=
  Go.run (call m ctx req).

End Facade.

(** The JSON text a request carries, if it carries one. *)
Definition payload (req : Request) : option JSON.bytes :=
  match req with
  | ReqInsertOne d | ReqFindOne d | ReqFindManyFilterJSON d
  | ReqDeleteOne d | ReqDeleteAll d | ReqUpdateMany d _ => Some d
  | _ => None
  end.

Definition responseError (r : Response) : option error :=
  match r with
  | RespID _ err | RespAny _ err | RespMany _ err => err
  end.

(** A response that carries nothing but the error: the zero identifier, a
    nil [any], no document. *)
Definition carriesNothing (r : Response) : bool :=
  match r with
  | RespID id _ => N.eqb id NilObjectID
  | RespAny any_nil _ => true
  | RespAny _ _ => false
  | RespMany [] _ => true
  | RespMany _ _ => false
  end.

End ClientGen.

(** ** The [MoInstance] generation

    Its logger comes from package [github.com/TudorHulban/log]; [Debug] is
    taken to write its line and return. *)

Module MoInstanceGen.

Record Cfg := mkCfg {
  TimeoutSecs : N;
  URL : string;
  Database : string;
  Collection : string
}.

Record MoInstance := mkMoInstance { cfg : Cfg; client : Mongo.Client }.

(** [l.Debug(..)]; of the arguments the leading text is kept. *)
Definition Debug (message : string) : Go.M unit := Go.emit (Go.EvLog message).

Section Facade.

Variable drv : Mongo.Driver.

Definition NewMongo (c : option Cfg) : Go.M (option MoInstance * option error) :=
  Go.func
    (* if c == nil { } *)
    match c with
    | None => Go.panic Go.nilDereference
    | Some c =>
      ctx <- Go.context_WithTimeout Background (seconds (TimeoutSecs c)) ;;
      Go.defer (Go.DeferCancel ctx) ;;
      '(instance, errConnect) <-
        Go.driver (Mongo.Connect ctx (URL c)) (Mongo.doConnect drv ctx (URL c)) ;;
      match errConnect with
      | Some _ => Go.ret (None, errConnect)
      | None =>
        match instance with
        | None => Go.panic Go.nilDereference
        | Some instance =>
          errPing <- Go.driver (Mongo.Ping ctx) (Mongo.doPing drv instance ctx) ;;
          match errPing with
          | Some _ =>
            Debug "database did not respond" ;;
            Go.ret (None, errPing)
          | None =>
            Debug "database did respond to ping" ;;
            '(result, _) <-
              Go.driver (Mongo.NewClient (URL c)) (Mongo.doNewClient drv (URL c)) ;;
            match result with
            | None =>
              Debug "result is nil" ;;
              Go.ret (None, Some (errors_New "?"))
            | Some result => Go.ret (Some (mkMoInstance c result), None)
            end
          end
        end
      end
    end.

Definition InsertOne (m : MoInstance) (ctx : Context) (data : JSON.bytes)
  : Go.M (ObjectID * option error) :=
  Go.func (
    ctxLocal <- Go.context_WithTimeout ctx (seconds (TimeoutSecs (cfg m))) ;;
    Go.defer (Go.DeferCancel ctxLocal) ;;
    let '(dataM, errConv) := jsonToBsonM data in
    match errConv with
    | Some _ => Go.ret (NilObjectID, errConv)
    | None =>
      Debug "Bison format data to insert: " ;;
      match Mongo.Database_Collection (client m) (Database (cfg m)) (Collection (cfg m)) with
      | None => Go.ret (NilObjectID, Some (errors_New "collection is nil"))
      | Some collection =>
        Debug "collection returned: " ;;
        '(result, errInsert) <-
          Go.driver (Mongo.InsertOne collection ctxLocal dataM)
                    (Mongo.doInsertOne drv collection ctxLocal dataM) ;;
        Debug "result: " ;;
        match result with
        | None => Go.ret (NilObjectID, errInsert)
        | Some result =>
          id <- assert_ObjectID (Mongo.InsertedID result) ;;
          Go.ret (id, errInsert)
        end
      end
    end).

Definition collectionOf (m : MoInstance) : Go.M Mongo.Collection :=
  match Mongo.Database_Collection (client m) (Database (cfg m)) (Collection (cfg m)) with
  | Some c => Go.ret c
  | None => Go.panic Go.nilDereference
  end.

Definition timeout (m : MoInstance) : Duration := seconds (TimeoutSecs (cfg m)).

Definition Connect (m : MoInstance) (ctx : Context) : Go.M (option error) :=
  Go.func (Go.driver (Mongo.ClientConnect ctx)
                     (Mongo.doClientConnect drv (client m) ctx)).

Definition Disconnect (m : MoInstance) (ctx : Context) : Go.M (option error) :=
  Go.func (Go.driver (Mongo.ClientDisconnect ctx)
                     (Mongo.doClientDisconnect drv (client m) ctx)).

Definition FindOne (m : MoInstance) (ctx : Context) (filter : JSON.bytes)
  : Go.M (any * option error) :=
  Go.func (
    ctxLocal <- Go.context_WithTimeout ctx (timeout m) ;;
    Go.defer (Go.DeferCancel ctxLocal) ;;
    let '(bsonFilter, errConv) := jsonToBsonM filter in
    match errConv with
    | Some _ => Go.ret (any_nil, errConv)
    | None =>
      let result : bsonM := None in
      collection <- collectionOf m ;;
      single <- Go.driver (Mongo.FindOne collection ctxLocal bsonFilter)
                          (Mongo.doFindOne drv collection ctxLocal bsonFilter) ;;
      let '(result, errFind) := Mongo.Decode single result in
      match errFind with
      | Some _ => Go.ret (any_nil, errFind)
      | None => Go.ret (any_M result, None)
      end
    end).

Definition FindByID (m : MoInstance) (ctx : Context) (id : ObjectID)
  : Go.M (any * option error) :=
  Go.func (
    ctxLocal <- Go.context_WithTimeout ctx (timeout m) ;;
    Go.defer (Go.DeferCancel ctxLocal) ;;
    let bsonFilter := filterByID id in
    Debug "Bison format data to find: " ;;
    let result : bsonM := None in
    collection <- collectionOf m ;;
    single <- Go.driver (Mongo.FindOne collection ctxLocal bsonFilter)
                        (Mongo.doFindOne drv collection ctxLocal bsonFilter) ;;
    let '(result, errFind) := Mongo.Decode single result in
    match errFind with
    | Some _ => Go.ret (any_nil, errFind)
    | None => Go.ret (any_M result, None)
    end).

Definition FindManyFilterJSON (m : MoInstance) (ctx : Context)
           (filterJSON : JSON.bytes)
  : Go.M (list bsonM * option error) :=
  Go.func (
    ctxLocal <- Go.context_WithTimeout ctx (timeout m) ;;
    Go.defer (Go.DeferCancel ctxLocal) ;;
    let '(bsonFilter, errConv) := jsonToBsonM filterJSON in
    match errConv with
    | Some _ => Go.ret ([], errConv)
    | None =>
      collection <- collectionOf m ;;
      '(cursor, errFind) <-
        Go.driver (Mongo.Find collection ctxLocal bsonFilter)
                  (Mongo.doFind drv collection ctxLocal bsonFilter) ;;
      match errFind with
      | Some _ => Go.ret ([], errFind)
      | None =>
        Go.defer (Go.DeferCursorClose cursor ctxLocal) ;;
        walkMongoSet ctxLocal cursor
      end
    end).

Definition FindManyFilterBSON (m : MoInstance) (ctx : Context)
           (filterBSON : bsonM)
  : Go.M (list bsonM * option error) :=
  Go.func (
    ctxLocal <- Go.context_WithTimeout ctx (timeout m) ;;
    Go.defer (Go.DeferCancel ctxLocal) ;;
    collection <- collectionOf m ;;
    '(cursor, errFind) <-
      Go.driver (Mongo.Find collection ctxLocal filterBSON)
                (Mongo.doFind drv collection ctxLocal filterBSON) ;;
    match errFind with
    | Some _ => Go.ret ([], errFind)
    | None =>
      Go.defer (Go.DeferCursorClose cursor ctxLocal) ;;
      walkMongoSet ctxLocal cursor
    end).

Definition DeleteOne (m : MoInstance) (ctx : Context) (filter : JSON.bytes)
  : Go.M (any * option error) :=
  Go.func (
    ctxLocal <- Go.context_WithTimeout ctx (timeout m) ;;
    Go.defer (Go.DeferCancel ctxLocal) ;;
    let '(bsonFilter, errConv) := jsonToBsonM filter in
    match errConv with
    | Some _ => Go.ret (any_nil, errConv)
    | None =>
      collection <- collectionOf m ;;
      '(r, err) <- Go.driver (Mongo.DeleteOne collection ctxLocal bsonFilter)
                             (Mongo.doDeleteOne drv collection ctxLocal bsonFilter) ;;
      Go.ret (any_DeleteResult r, err)
    end).

Definition DeleteAll (m : MoInstance) (ctx : Context) (filter : JSON.bytes)
  : Go.M (any * option error) :=
  Go.func (
    ctxLocal <- Go.context_WithTimeout ctx (timeout m) ;;
    Go.defer (Go.DeferCancel ctxLocal) ;;
    let '(bsonFilter, errConv) := jsonToBsonM filter in
    match errConv with
    | Some _ => Go.ret (any_nil, errConv)
    | None =>
      collection <- collectionOf m ;;
      '(r, err) <- Go.driver (Mongo.DeleteMany collection ctxLocal bsonFilter)
                             (Mongo.doDeleteMany drv collection ctxLocal bsonFilter) ;;
      Go.ret (any_DeleteResult r, err)
    end).

Definition UpdateByID (m : MoInstance) (ctx : Context) (id : ObjectID)
           (newValue : bsonM)
  : Go.M (any * option error) :=
  Go.func (
    ctxLocal <- Go.context_WithTimeout ctx (timeout m) ;;
    Go.defer (Go.DeferCancel ctxLocal) ;;
    let bsonFilter := filterByID id in
    collection <- collectionOf m ;;
    '(r, err) <- Go.driver (Mongo.UpdateOne collection ctxLocal bsonFilter newValue)
                           (Mongo.doUpdateOne drv collection ctxLocal bsonFilter newValue) ;;
    Go.ret (any_UpdateResult r, err)).

Definition UpdateOne (m : MoInstance) (ctx : Context) (filter newValue : bsonM)
  : Go.M (any * option error) :=
  Go.func (
    ctxLocal <- Go.context_WithTimeout ctx (timeout m) ;;
    Go.defer (Go.DeferCancel ctxLocal) ;;
    collection <- collectionOf m ;;
    '(r, err) <- Go.driver (Mongo.UpdateOne collection ctxLocal filter newValue)
                           (Mongo.doUpdateOne drv collection ctxLocal filter newValue) ;;
    Go.ret (any_UpdateResult r, err)).

Definition UpdateMany (m : MoInstance) (ctx : Context) (filter : JSON.bytes)
           (newValue : bsonM)
  : Go.M (any * option error) :=
  Go.func (
    ctxLocal <- Go.context_WithTimeout ctx (timeout m) ;;
    Go.defer (Go.DeferCancel ctxLocal) ;;
    let '(bsonFilter, errConv) := jsonToBsonM filter in
    match errConv with
    | Some _ => Go.ret (any_nil, errConv)
    | None =>
      collection <- collectionOf m ;;
      '(r, err) <- Go.driver (Mongo.UpdateMany collection ctxLocal bsonFilter newValue)
                             (Mongo.doUpdateMany drv collection ctxLocal bsonFilter newValue) ;;
      Go.ret (any_UpdateResult r, err)
    end).

(** The methods that take the caller's context, as one function of a
    request; the requests are those of the later generation, whose methods
    have the same names and parameters. *)
Definition call (m : MoInstance) (ctx : Context) (req : ClientGen.Request)
  : Go.M ClientGen.Response :=
  match req with
  | ClientGen.ReqInsertOne data =>
      Go.fmap ClientGen.respID (InsertOne m ctx data)
  | ClientGen.ReqFindOne filter =>
      Go.fmap ClientGen.respAny (FindOne m ctx filter)
  | ClientGen.ReqFindByID id =>
      Go.fmap ClientGen.respAny (FindByID m ctx id)
  | ClientGen.ReqFindManyFilterJSON f =>
      Go.fmap ClientGen.respMany (FindManyFilterJSON m ctx f)
  | ClientGen.ReqFindManyFilterBSON f =>
      Go.fmap ClientGen.respMany (FindManyFilterBSON m ctx f)
  | ClientGen.ReqDeleteOne filter =>
      Go.fmap ClientGen.respAny (DeleteOne m ctx filter)
  | ClientGen.ReqDeleteAll filter =>
      Go.fmap ClientGen.respAny (DeleteAll m ctx filter)
  | ClientGen.ReqUpdateByID id v =>
      Go.fmap ClientGen.respAny (UpdateByID m ctx id v)
  | ClientGen.ReqUpdateOne f v =>
      Go.fmap ClientGen.respAny (UpdateOne m ctx f v)
  | ClientGen.ReqUpdateMany f v =>
      Go.fmap ClientGen.respAny (UpdateMany m ctx f v)
  end.

Definition perform (m : MoInstance) (ctx : Context) (req : ClientGen.Request)
  : Go.Outcome ClientGen.Response * list Go.Event :=
  Go.run (call m ctx req).

End Facade.

End MoInstanceGen.

(* ================================================================== *)
(** * The vocabulary of the properties *)
(* ================================================================== *)

Import Go.

(** The taxonomy of the specification, read on the error values of the
    code.  [MalformedPayload]: what [json.Unmarshal] returned. *)
Definition MalformedPayload (e : error) : Prop :=
  match e with
  | SyntaxError | UnmarshalTypeError _ _ => True
  | _ => False
  end.

(** [NotFound]: the [ErrNoDocuments] of the driver, which is returned as it
    is. *)
Definition NotFound (e : error) : Prop := e = ErrNoDocuments.

(** [StoreOperationFailed]: the error of the driver, as it is or wrapped. *)
Definition StoreOperationFailed (cause e : error) : Prop :=
  e = cause \/ exists message, e = withStack cause message.

(** [CursorIteration]: the decoding error, wrapped by [walkMongoSet]. *)
Definition CursorIteration (cause e : error) : Prop :=
  e = withStack cause "could not decode into buffer".

Definition holdsObject (data : JSON.bytes) : Prop :=
  exists fields, JSON.parse data = Some (JSON.JObject fields).

Definition holdsNull (data : JSON.bytes) : Prop :=
  JSON.parse data = Some JSON.JNull.

(** The methods of the driver an execution has called. *)
Definition driverCalls (tr : list Event) : list Mongo.Call :=
  flat_map (fun e => match e with EvDriver c => [c] | _ => [] end) tr.

(** The operations among them. *)
Definition operations (tr : list Event) : list Mongo.Call :=
  filter Mongo.is_operation (driverCalls tr).

(** The document or filter an operation carries. *)
Definition carried (c : Mongo.Call) : option bsonM :=
  match c with
  | Mongo.InsertOne _ _ d | Mongo.FindOne _ _ d | Mongo.Find _ _ d
  | Mongo.DeleteOne _ _ d | Mongo.DeleteMany _ _ d
  | Mongo.UpdateOne _ _ d _ | Mongo.UpdateMany _ _ d _ => Some d
  | _ => None
  end.

(** The conclusion of the claim on malformed payloads. *)
Definition rejectedUnsent (drv : Mongo.Driver) (m : ClientGen.Client)
           (ctx : Context) (req : ClientGen.Request) : Prop :=
  exists resp e tr,
    ClientGen.perform drv m ctx req = (Return resp, tr)
    /\ ClientGen.responseError resp = Some e
    /\ MalformedPayload e
    /\ ClientGen.carriesNothing resp = true
    /\ driverCalls tr = [].

(** The collection and the context a method hands to the driver. *)
Definition collectionFor (m : ClientGen.Client) : Mongo.Collection :=
  Mongo.mkCollection (ClientGen.client m) (ClientGen.Database (ClientGen.cfg m))
                     (ClientGen.Collection (ClientGen.cfg m)).

Definition localContext (m : ClientGen.Client) (ctx : Context) : Context :=
  TimeoutContext ctx (ClientGen.timeout m).

(** The filter of a single-record lookup: the converted text of FindOne,
    the identifier filter of FindByID. *)
Definition lookupFilter (req : ClientGen.Request) : option bsonM :=
  match req with
  | ClientGen.ReqFindOne filter =>
      match jsonToBsonM filter with
      | (f, None) => Some f
      | (_, Some _) => None
      end
  | ClientGen.ReqFindByID objectID => Some (filterByID objectID)
  | _ => None
  end.

(** The filter of a multi-record find: the converted text of
    FindManyFilterJSON, the filter of FindManyFilterBSON as it is. *)
Definition manyFilter (req : ClientGen.Request) : option bsonM :=
  match req with
  | ClientGen.ReqFindManyFilterJSON filterJSON =>
      match jsonToBsonM filterJSON with
      | (f, None) => Some f
      | (_, Some _) => None
      end
  | ClientGen.ReqFindManyFilterBSON filterBSON => Some filterBSON
  | _ => None
  end.

(** What [walkMongoSet] returns, and how often it calls [Next]. *)
Fixpoint walked (items : list Mongo.Item) (cursorErr : option error)
         (result : list bsonM) : list bsonM * option error :=
  match items with
  | Mongo.Decodable doc :: rest => walked rest cursorErr (result ++ [doc])
  | Mongo.Undecodable e :: _ =>
      ([], Some (withStack e "could not decode into buffer"))
  | [] =>
      match cursorErr with
      | Some e => ([], Some (withStack e "cursor error"))
      | None => (result, None)
      end
  end.

Fixpoint steps (items : list Mongo.Item) : nat :=
  match items with
  | Mongo.Decodable _ :: rest => S (steps rest)
  | _ => 1
  end.

Definition nexts (ctx : Context) (items : list Mongo.Item) : list Event :=
  repeat (EvDriver (Mongo.CursorNext ctx)) (steps items).

(** What a find returns, for each answer of the driver. *)
Definition findManyRun (drv : Mongo.Driver) (m : ClientGen.Client)
           (ctx : Context) (f : bsonM)
  : Outcome ClientGen.Response * list Event :=
  match Mongo.doFind drv (collectionFor m) (localContext m ctx) f with
  | (_, Some e) =>
      (Return (ClientGen.RespMany [] (Some e)),
       [EvWithTimeout ctx (ClientGen.timeout m);
        EvDriver (Mongo.Find (collectionFor m) (localContext m ctx) f);
        EvCancel (localContext m ctx)])
  | (Some cur, None) =>
      (Return (ClientGen.respMany
                 (walked (Mongo.Items cur) (Mongo.CursorErr cur) [])),
       [EvWithTimeout ctx (ClientGen.timeout m);
        EvDriver (Mongo.Find (collectionFor m) (localContext m ctx) f)]
       ++ nexts (localContext m ctx) (Mongo.Items cur)
       ++ [EvDriver (Mongo.CursorClose (localContext m ctx));
           EvCancel (localContext m ctx)])
  | (None, None) =>
      (Panic nilDereference,
       [EvWithTimeout ctx (ClientGen.timeout m);
        EvDriver (Mongo.Find (collectionFor m) (localContext m ctx) f);
        EvCancel (localContext m ctx)])
  end.

Definition allDecodable (items : list Mongo.Item) : bool :=
  forallb (fun it => match it with Mongo.Decodable _ => true | _ => false end)
          items.

(** The error with which the driver fails an operation, if it fails it.
    For a find this is the error of the call or, when all its documents
    decode, the error its cursor ends with. *)
Definition failure (drv : Mongo.Driver) (c : Mongo.Call) : option error :=
  match c with
  | Mongo.InsertOne coll ctx doc => snd (Mongo.doInsertOne drv coll ctx doc)
  | Mongo.FindOne coll ctx f =>
      match Mongo.doFindOne drv coll ctx f with
      | Mongo.SingleError e => Some e
      | _ => None
      end
  | Mongo.Find coll ctx f =>
      match Mongo.doFind drv coll ctx f with
      | (_, Some e) => Some e
      | (Some cur, None) =>
          if allDecodable (Mongo.Items cur) then Mongo.CursorErr cur else None
      | (None, None) => None
      end
  | Mongo.DeleteOne coll ctx f => snd (Mongo.doDeleteOne drv coll ctx f)
  | Mongo.DeleteMany coll ctx f => snd (Mongo.doDeleteMany drv coll ctx f)
  | Mongo.UpdateOne coll ctx f u => snd (Mongo.doUpdateOne drv coll ctx f u)
  | Mongo.UpdateMany coll ctx f u => snd (Mongo.doUpdateMany drv coll ctx f u)
  | _ => None
  end.

Definition isObjectID (v : goval) : bool :=
  match v with VObjectID _ => true | _ => false end.

Definition oldCollectionFor (m : MoInstanceGen.MoInstance) : Mongo.Collection :=
  Mongo.mkCollection (MoInstanceGen.client m)
                     (MoInstanceGen.Database (MoInstanceGen.cfg m))
                     (MoInstanceGen.Collection (MoInstanceGen.cfg m)).

Definition oldLocalContext (m : MoInstanceGen.MoInstance) (ctx : Context)
  : Context :=
  TimeoutContext ctx (seconds (MoInstanceGen.TimeoutSecs (MoInstanceGen.cfg m))).

(** The facade of the later generation with the settings of one of the
    earlier. *)
Definition upgrade (old : MoInstanceGen.MoInstance) : ClientGen.Client :=
  ClientGen.mkClient
    (ClientGen.mkCfg (MoInstanceGen.URL (MoInstanceGen.cfg old))
                     (MoInstanceGen.Database (MoInstanceGen.cfg old))
                     (MoInstanceGen.Collection (MoInstanceGen.cfg old))
                     (MoInstanceGen.TimeoutSecs (MoInstanceGen.cfg old)))
    (MoInstanceGen.client old).

(** The payload [P] holds an object whose text denotes the members
    [fields]; it converts to a document, and the document is written back
    as an object with these members: the names and the values that the
    text of [P] denotes, not those its decoding has made of them. *)
Definition roundTrips (shortest : float64 -> JSON.numlit) (P : JSON.bytes) : Prop :=
  exists text fields doc out,
    JSON.written P = Some text
    /\ JSON.denote text = Some (JSON.JObject fields)
    /\ jsonToBsonM P = (doc, None)
    /\ JSON.Marshal shortest doc = Some out
    /\ JSON.same (JSON.JObject fields) out.



(** ** Sample drivers and inputs *)

Module Samples.

Definition sampleCfg : ClientGen.Cfg :=
  ClientGen.mkCfg "mongodb://localhost:27017" "testing" "persons" 3.

Definition sampleClient : ClientGen.Client :=
  ClientGen.mkClient sampleCfg (Mongo.mkClient "mongodb://localhost:27017").

Definition sampleCollection : Mongo.Collection :=
  Mongo.mkCollection (Mongo.mkClient "mongodb://localhost:27017") "testing" "persons".

Definition caller : Context := CallerContext "test".

Definition callerLocal : Context := TimeoutContext caller 3000000000.

Definition refused : error := DriverError "connection refused".

(** A server with an empty collection, which accepts everything and gives
    [id] to what is inserted. *)
Definition emptyStore (id : goval) : Mongo.Driver := {|
  Mongo.doConnect := fun _ uri => (Some (Mongo.mkClient uri), None);
  Mongo.doPing := fun _ _ => None;
  Mongo.doNewClient := fun uri => (Some (Mongo.mkClient uri), None);
  Mongo.doClientConnect := fun _ _ => None;
  Mongo.doClientDisconnect := fun _ _ => None;
  Mongo.doInsertOne := fun _ _ _ => (Some (Mongo.mkInsertOneResult id), None);
  Mongo.doFindOne := fun _ _ _ => Mongo.SingleNoDocuments;
  Mongo.doFind := fun _ _ _ => (Some (Mongo.mkCursor [] None), None);
  Mongo.doDeleteOne := fun _ _ _ => (Some (Mongo.mkDeleteResult 0), None);
  Mongo.doDeleteMany := fun _ _ _ => (Some (Mongo.mkDeleteResult 0), None);
  Mongo.doUpdateOne := fun _ _ _ _ => (Some (Mongo.mkUpdateResult 0 0 0 VNil), None);
  Mongo.doUpdateMany := fun _ _ _ _ => (Some (Mongo.mkUpdateResult 0 0 0 VNil), None)
|}.

(** A server that cannot be reached. *)
Definition unreachable : Mongo.Driver := {|
  Mongo.doConnect := fun _ _ => (None, Some refused);
  Mongo.doPing := fun _ _ => Some refused;
  Mongo.doNewClient := fun uri => (Some (Mongo.mkClient uri), None);
  Mongo.doClientConnect := fun _ _ => Some refused;
  Mongo.doClientDisconnect := fun _ _ => Some refused;
  Mongo.doInsertOne := fun _ _ _ => (None, Some refused);
  Mongo.doFindOne := fun _ _ _ => Mongo.SingleError refused;
  Mongo.doFind := fun _ _ _ => (None, Some refused);
  Mongo.doDeleteOne := fun _ _ _ => (None, Some refused);
  Mongo.doDeleteMany := fun _ _ _ => (None, Some refused);
  Mongo.doUpdateOne := fun _ _ _ _ => (None, Some refused);
  Mongo.doUpdateMany := fun _ _ _ _ => (None, Some refused)
|}.

(** A server whose finds answer with the cursor [cur]. *)
Definition finding (cur : Mongo.Cursor) : Mongo.Driver := {|
  Mongo.doConnect := fun _ uri => (Some (Mongo.mkClient uri), None);
  Mongo.doPing := fun _ _ => None;
  Mongo.doNewClient := fun uri => (Some (Mongo.mkClient uri), None);
  Mongo.doClientConnect := fun _ _ => None;
  Mongo.doClientDisconnect := fun _ _ => None;
  Mongo.doInsertOne := fun _ _ _ => (Some (Mongo.mkInsertOneResult (VObjectID 1)), None);
  Mongo.doFindOne := fun _ _ _ => Mongo.SingleNoDocuments;
  Mongo.doFind := fun _ _ _ => (Some cur, None);
  Mongo.doDeleteOne := fun _ _ _ => (Some (Mongo.mkDeleteResult 1), None);
  Mongo.doDeleteMany := fun _ _ _ => (Some (Mongo.mkDeleteResult 1), None);
  Mongo.doUpdateOne := fun _ _ _ _ => (Some (Mongo.mkUpdateResult 1 1 0 VNil), None);
  Mongo.doUpdateMany := fun _ _ _ _ => (Some (Mongo.mkUpdateResult 1 1 0 VNil), None)
|}.


(** The bytes of [s], where an apostrophe stands for the double quote. *)
Definition text (s : string) : JSON.bytes :=
  map (fun c => if Byte.eqb c "'" then JSON.quote else c)
      (JSON.bytes_of_string s).

End Samples.

Definition sampleOld : MoInstanceGen.MoInstance :=
  MoInstanceGen.mkMoInstance
    (MoInstanceGen.mkCfg 3 "mongodb://localhost:27017" "testing" "persons")
    (Mongo.mkClient "mongodb://localhost:27017").


(** The record the tests of the package insert. *)
Definition john : JSON.bytes :=
  Samples.text "{'Name':'john','Gender':'male','Age':44}".

(** ** Conversions, dispatch and the two generations *)

(** [v, ok := m[k]]. *)
Fixpoint map_get (k : string) (m : gomap) : option goval :=
  match m with
  | [] => None
  | (k', v) :: m' => if String.eqb k k' then Some v else map_get k m'
  end.

(** The value of the last member of an object that is named [k]. *)
Definition lastMember (k : string) (fields : list (string * JSON.json))
  : option JSON.json :=
  option_map snd (find (fun kv => String.eqb k (fst kv)) (rev fields)).

(** A value all of whose numbers [strconv.ParseFloat] accepts: none is so
    large that the nearest [float64] is an infinity. *)
Fixpoint representable (j : JSON.json) : bool :=
  match j with
  | JSON.JNumber n =>
      match JSON.ParseFloat n with Some _ => true | None => false end
  | JSON.JArray elems => forallb representable elems
  | JSON.JObject fields => forallb (fun kv => representable (snd kv)) fields
  | _ => true
  end.

(** The error of a number out of the range of a [float64]. *)
Definition outOfRange : error := UnmarshalTypeError "number" "float64".

(** The object [{"Key": k, "Value": j}]. *)
Definition pairObject (kv : string * JSON.json) : JSON.json :=
  JSON.JObject [("Key"%string, JSON.JString (fst kv)); ("Value"%string, snd kv)].

(** The context a call of the driver is handed, and the collection it is
    made on. *)
Definition callContext (c : Mongo.Call) : option Context :=
  match c with
  | Mongo.Connect ctx _ | Mongo.Ping ctx
  | Mongo.ClientConnect ctx | Mongo.ClientDisconnect ctx
  | Mongo.InsertOne _ ctx _ | Mongo.FindOne _ ctx _ | Mongo.Find _ ctx _
  | Mongo.DeleteOne _ ctx _ | Mongo.DeleteMany _ ctx _
  | Mongo.UpdateOne _ ctx _ _ | Mongo.UpdateMany _ ctx _ _
  | Mongo.CursorNext ctx | Mongo.CursorClose ctx => Some ctx
  | Mongo.NewClient _ => None
  end.

Definition callCollection (c : Mongo.Call) : option Mongo.Collection :=
  match c with
  | Mongo.InsertOne coll _ _ | Mongo.FindOne coll _ _ | Mongo.Find coll _ _
  | Mongo.DeleteOne coll _ _ | Mongo.DeleteMany coll _ _
  | Mongo.UpdateOne coll _ _ _ | Mongo.UpdateMany coll _ _ _ => Some coll
  | _ => None
  end.

(** A call that walks a cursor or closes it, in the context [ctxLocal]. *)
Definition cursorCall (ctxLocal : Context) (c : Mongo.Call) : Prop :=
  c = Mongo.CursorNext ctxLocal \/ c = Mongo.CursorClose ctxLocal.

(** The document a text converts to, when it converts. *)
Definition converted (data : JSON.bytes) : option bsonM :=
  match jsonToBsonM data with
  | (d, None) => Some d
  | (_, Some _) => None
  end.

(** The operation a request stands for: the method of the collection its
    name says, on what its text converted to; none when the text does not
    convert. *)
Definition operationOf (m : ClientGen.Client) (ctx : Context)
           (req : ClientGen.Request) : option Mongo.Call :=
  let coll := collectionFor m in
  let ctxLocal := localContext m ctx in
  match req with
  | ClientGen.ReqInsertOne data =>
      option_map (Mongo.InsertOne coll ctxLocal) (converted data)
  | ClientGen.ReqFindOne filter =>
      option_map (Mongo.FindOne coll ctxLocal) (converted filter)
  | ClientGen.ReqFindByID objectID =>
      Some (Mongo.FindOne coll ctxLocal (filterByID objectID))
  | ClientGen.ReqFindManyFilterJSON filterJSON =>
      option_map (Mongo.Find coll ctxLocal) (converted filterJSON)
  | ClientGen.ReqFindManyFilterBSON filterBSON =>
      Some (Mongo.Find coll ctxLocal filterBSON)
  | ClientGen.ReqDeleteOne filter =>
      option_map (Mongo.DeleteOne coll ctxLocal) (converted filter)
  | ClientGen.ReqDeleteAll filter =>
      option_map (Mongo.DeleteMany coll ctxLocal) (converted filter)
  | ClientGen.ReqUpdateByID id newValue =>
      Some (Mongo.UpdateOne coll ctxLocal (filterByID id) newValue)
  | ClientGen.ReqUpdateOne filter newValue =>
      Some (Mongo.UpdateOne coll ctxLocal filter newValue)
  | ClientGen.ReqUpdateMany filter newValue =>
      option_map (fun f => Mongo.UpdateMany coll ctxLocal f newValue)
                 (converted filter)
  end.

(** What the driver answers a delete or an update, as the [any] and the
    error the method passes on. *)
Definition summary (drv : Mongo.Driver) (c : Mongo.Call)
  : option (any * option error) :=
  match c with
  | Mongo.DeleteOne coll ctx f =>
      let '(r, err) := Mongo.doDeleteOne drv coll ctx f in
      Some (any_DeleteResult r, err)
  | Mongo.DeleteMany coll ctx f =>
      let '(r, err) := Mongo.doDeleteMany drv coll ctx f in
      Some (any_DeleteResult r, err)
  | Mongo.UpdateOne coll ctx f u =>
      let '(r, err) := Mongo.doUpdateOne drv coll ctx f u in
      Some (any_UpdateResult r, err)
  | Mongo.UpdateMany coll ctx f u =>
      let '(r, err) := Mongo.doUpdateMany drv coll ctx f u in
      Some (any_UpdateResult r, err)
  | _ => None
  end.

(** The requests that return a summary: the deletes and the updates. *)
Definition returnsSummary (req : ClientGen.Request) : bool :=
  match req with
  | ClientGen.ReqDeleteOne _ | ClientGen.ReqDeleteAll _
  | ClientGen.ReqUpdateByID _ _ | ClientGen.ReqUpdateOne _ _
  | ClientGen.ReqUpdateMany _ _ => true
  | _ => false
  end.

Definition isInsertOne (req : ClientGen.Request) : bool :=
  match req with ClientGen.ReqInsertOne _ => true | _ => false end.

(** An execution without the lines it logged. *)
Definition unlogged (tr : list Event) : list Event :=
  filter (fun e => match e with EvLog _ => false | _ => true end) tr.

(** The settings of the earlier generation as settings of the later. *)
Definition upgradeCfg (c : MoInstanceGen.Cfg) : ClientGen.Cfg :=
  ClientGen.mkCfg (MoInstanceGen.URL c) (MoInstanceGen.Database c)
                  (MoInstanceGen.Collection c) (MoInstanceGen.TimeoutSecs c).

(** What the earlier constructor returned, read as a result of the later. *)
Definition upgraded (r : Outcome (option MoInstanceGen.MoInstance * option error))
  : Outcome (option ClientGen.Client * option error) :=
  match r with
  | Return (instance, err) => Return (option_map upgrade instance, err)
  | Panic message => Panic message
  end.

(** The context in which a constructor connects and pings. *)
Definition dialContext (secs : N) : Context :=
  TimeoutContext Background (seconds secs).

(** A value that holds an ObjectID, at any depth. *)
Fixpoint holdsObjectID (v : goval) : bool :=
  match v with
  | VObjectID _ => true
  | VSlice elems => existsb holdsObjectID elems
  | VMap m => existsb (fun kv => holdsObjectID (snd kv)) m
  | _ => false
  end.

Definition documentHoldsObjectID (d : bsonM) : bool :=
  match d with
  | Some m => holdsObjectID (VMap m)
  | None => false
  end.

(** A server that is reached and pinged, and whose NewClient answers with
    [answer]. *)
Definition building (answer : option Mongo.Client * option error)
  : Mongo.Driver := {|
  Mongo.doConnect := fun _ uri => (Some (Mongo.mkClient uri), None);
  Mongo.doPing := fun _ _ => None;
  Mongo.doNewClient := fun _ => answer;
  Mongo.doClientConnect := fun _ _ => None;
  Mongo.doClientDisconnect := fun _ _ => None;
  Mongo.doInsertOne := fun _ _ _ => (Some (Mongo.mkInsertOneResult (VObjectID 1)), None);
  Mongo.doFindOne := fun _ _ _ => Mongo.SingleNoDocuments;
  Mongo.doFind := fun _ _ _ => (Some (Mongo.mkCursor [] None), None);
  Mongo.doDeleteOne := fun _ _ _ => (Some (Mongo.mkDeleteResult 0), None);
  Mongo.doDeleteMany := fun _ _ _ => (Some (Mongo.mkDeleteResult 0), None);
  Mongo.doUpdateOne := fun _ _ _ _ => (Some (Mongo.mkUpdateResult 0 0 0 VNil), None);
  Mongo.doUpdateMany := fun _ _ _ _ => (Some (Mongo.mkUpdateResult 0 0 0 VNil), None)
|}.

(* ================================================================== *)
(** * Facts about executions *)
(* ================================================================== *)

Module GoFacts.
Import Go.

Lemma grows_ret {A} (a : A) : grows (ret a).
Proof. intros st. exists [], []. destruct st. simpl. now rewrite app_nil_r. Qed.

Lemma grows_panic {A} (msg : string) : grows (@panic A msg).
Proof. intros st. exists [], []. destruct st. simpl. now rewrite app_nil_r. Qed.

Lemma grows_emit (e : Event) : grows (emit e).
Proof. intros st. exists [e], []. reflexivity. Qed.

Lemma grows_defer (d : Deferred) : grows (defer d).
Proof. intros st. exists [], [d]. simpl. now rewrite app_nil_r. Qed.

Lemma grows_bind {A B} (m : M A) (k : A -> M B) :
  grows m -> (forall a, grows (k a)) -> grows (bind m k).
Proof.
  intros Hm Hk st. unfold bind.
  destruct (Hm st) as (evs & ds & E).
  destruct (m st) as [[a|msg] st']; simpl in E; subst st'.
  - destruct (Hk a (mkState (trace st ++ evs) (ds ++ deferred st)))
      as (evs' & ds' & E').
    exists (evs ++ evs'), (ds' ++ ds). rewrite E'. simpl.
    now rewrite !app_assoc.
  - exists evs, ds. reflexivity.
Qed.

Lemma grows_driver {A} (c : Mongo.Call) (answer : A) : grows (driver c answer).
Proof. apply grows_bind; [apply grows_emit | intros; apply grows_ret]. Qed.

Lemma grows_fmap {A B} (f : A -> B) (m : M A) : grows m -> grows (fmap f m).
Proof. intros H. apply grows_bind; [exact H | intros; apply grows_ret]. Qed.

Lemma grows_WithTimeout parent d : grows (context_WithTimeout parent d).
Proof. apply grows_bind; [apply grows_emit | intros; apply grows_ret]. Qed.

(** The deferred calls only add events. *)
Lemma run_deferred_extends {A} (ds : list Deferred) :
  forall (r : Outcome A) tr, exists evs, snd (run_deferred ds r tr) = tr ++ evs.
Proof.
  induction ds as [|[ctx|[cur|] ctx] ds IH]; intros r tr; simpl.
  - exists []. now rewrite app_nil_r.
  - destruct (IH r (tr ++ [EvCancel ctx])) as [evs E].
    exists (EvCancel ctx :: evs). rewrite E, <- app_assoc. reflexivity.
  - destruct (IH r (tr ++ [EvDriver (Mongo.CursorClose ctx)])) as [evs E].
    exists (EvDriver (Mongo.CursorClose ctx) :: evs).
    rewrite E, <- app_assoc. reflexivity.
  - apply IH.
Qed.

(** The call deferred first runs last. *)
Lemma run_deferred_bottom {A} (ds : list Deferred) ctx :
  forall (r : Outcome A) tr,
    snd (run_deferred (ds ++ [DeferCancel ctx]) r tr)
    = snd (run_deferred ds r tr) ++ [EvCancel ctx].
Proof.
  induction ds as [|[c|[cur|] c] ds IH]; intros r tr; simpl; auto.
Qed.

Lemma grows_func {A} (body : M A) : grows body -> grows (func body).
Proof.
  intros H st. unfold func.
  destruct (H (mkState (trace st) [])) as (evs & ds & E).
  destruct (body (mkState (trace st) [])) as [r st']. simpl in E. subst st'.
  simpl.
  destruct (run_deferred_extends (ds ++ []) r (trace st ++ evs)) as [evs' E'].
  destruct (run_deferred (ds ++ []) r (trace st ++ evs)) as [r' tr'].
  simpl in E'. subst tr'.
  exists (evs ++ evs'), []. simpl. now rewrite app_assoc.
Qed.

Lemma snd_run_fmap {A B} (f : A -> B) (m : M A) :
  snd (run (fmap f m)) = snd (run m).
Proof.
  unfold run, fmap, bind, ret. destruct (m (mkState [] [])) as [[a|msg] st]; reflexivity.
Qed.

(** A function that derives a context, defers its cancel function and goes
    on in any way that grows the state: its events start with the
    derivation and end with the cancellation, however it is left. *)
Lemma timeout_guard {A} parent d (rest : Context -> M A) :
  (forall c, grows (rest c)) ->
  exists mid,
    snd (run (func (bind (context_WithTimeout parent d) (fun ctxLocal =>
                    bind (defer (DeferCancel ctxLocal)) (fun _ =>
                    rest ctxLocal)))))
    = EvWithTimeout parent d :: mid ++ [EvCancel (TimeoutContext parent d)].
Proof.
  intros H. unfold run, func, bind, context_WithTimeout, emit, defer, ret. simpl.
  set (c := TimeoutContext parent d).
  destruct (H c (mkState [EvWithTimeout parent d] [DeferCancel c]))
    as (evs & ds & E).
  destruct (rest c (mkState [EvWithTimeout parent d] [DeferCancel c]))
    as [r st']. simpl in E. subst st'. simpl.
  assert (E := run_deferred_bottom ds c r (EvWithTimeout parent d :: evs)).
  destruct (run_deferred_extends ds r (EvWithTimeout parent d :: evs)) as [evs' E'].
  destruct (run_deferred (ds ++ [DeferCancel c]) r (EvWithTimeout parent d :: evs))
    as [r' tr']. simpl in *. subst tr'. rewrite E'.
  exists (evs ++ evs'). reflexivity.
Qed.

End GoFacts.

(* ================================================================== *)
(** * The facade: what its methods do *)
(* ================================================================== *)

Import GoFacts.

Create HintDb grows.
#[export] Hint Resolve grows_ret grows_panic grows_emit grows_defer
  grows_driver grows_WithTimeout : grows.

Ltac grows_step :=
  match goal with
  | |- grows (bind _ _) => apply grows_bind; [| intro]
  | |- grows (fmap _ _) => apply grows_fmap
  | |- grows (func _) => apply grows_func
  | |- grows (match ?x with _ => _ end) => destruct x
  | |- grows (let _ := _ in _) => cbv zeta
  | |- grows _ => solve [auto with grows]
  end.

Lemma grows_walk ctx items cursorErr :
  forall result, grows (walk ctx items cursorErr result).
Proof.
  induction items as [|[doc|e] rest IH]; intros result; simpl;
    repeat grows_step.
Qed.
#[export] Hint Resolve grows_walk : grows.

Lemma grows_walkMongoSet ctx cursor : grows (walkMongoSet ctx cursor).
Proof. unfold walkMongoSet. repeat grows_step. Qed.
#[export] Hint Resolve grows_walkMongoSet : grows.

Lemma grows_assert_ObjectID v : grows (assert_ObjectID v).
Proof. unfold assert_ObjectID. repeat grows_step. Qed.
#[export] Hint Resolve grows_assert_ObjectID : grows.

Lemma grows_collectionOf m : grows (ClientGen.collectionOf m).
Proof. unfold ClientGen.collectionOf. repeat grows_step. Qed.
#[export] Hint Resolve grows_collectionOf : grows.

(** C7. Every method of the facade that takes the caller's context derives
    its timeout context first and cancels it last, on every way out: after
    a result, after a conversion error, after an error of the driver, and
    when it panics. *)
Theorem cancel_on_every_exit (drv : Mongo.Driver) (m : ClientGen.Client)
        (ctx : Context) (req : ClientGen.Request) :
  exists mid,
    snd (ClientGen.perform drv m ctx req)
    = EvWithTimeout ctx (ClientGen.timeout m)
      :: mid ++ [EvCancel (TimeoutContext ctx (ClientGen.timeout m))].
Proof.
  unfold ClientGen.perform. destruct req; simpl; rewrite snd_run_fmap;
    apply timeout_guard; intros c; repeat grows_step.
Qed.

(** ** The conversion *)

(** What is neither an object nor [null] makes [jsonToBsonM] fail, and
    leaves the document nil. *)
Lemma jsonToBsonM_malformed (data : JSON.bytes) :
  ~ holdsObject data -> ~ holdsNull data ->
  exists e, MalformedPayload e /\ jsonToBsonM data = (None, Some e).
Proof.
  unfold holdsObject, holdsNull, jsonToBsonM, JSON.Unmarshal.
  intros Hobj Hnull.
  destruct (JSON.parse data) as [[| | | | |fields]|];
    try (eexists; split; [|reflexivity]; exact I).
  - now contradiction Hnull.
  - contradiction Hobj. now exists fields.
Qed.

(** [null] is no error: the document is nil. *)
Lemma jsonToBsonM_null (data : JSON.bytes) :
  holdsNull data -> jsonToBsonM data = (None, None).
Proof.
  unfold holdsNull, jsonToBsonM, JSON.Unmarshal. now intros ->.
Qed.

Ltac unfold_methods :=
  unfold ClientGen.perform, ClientGen.call,
    ClientGen.InsertOne, ClientGen.FindOne, ClientGen.FindByID,
    ClientGen.FindManyFilterJSON, ClientGen.FindManyFilterBSON,
    ClientGen.DeleteOne, ClientGen.DeleteAll, ClientGen.UpdateByID,
    ClientGen.UpdateOne, ClientGen.UpdateMany.

(** A request whose text does not convert: the error comes back with
    nothing else, and between the derivation of the context and its
    cancellation nothing happens. *)
Lemma perform_conversion_error drv m ctx req data d e :
  ClientGen.payload req = Some data ->
  jsonToBsonM data = (d, Some e) ->
  exists resp,
    ClientGen.perform drv m ctx req
    = (Return resp,
       [EvWithTimeout ctx (ClientGen.timeout m);
        EvCancel (TimeoutContext ctx (ClientGen.timeout m))])
    /\ ClientGen.responseError resp = Some e
    /\ ClientGen.carriesNothing resp = true.
Proof.
  intros Hp Hconv.
  destruct req; simpl in Hp; try discriminate; injection Hp as ->;
    unfold_methods; rewrite Hconv; eexists; (split; [reflexivity|]);
    split; reflexivity.
Qed.

(** ** Single-record lookups *)

(** What a lookup returns, for each answer of the driver. *)
Lemma perform_lookup drv m ctx req f :
  lookupFilter req = Some f ->
  ClientGen.perform drv m ctx req
  = (Return
       match Mongo.doFindOne drv (collectionFor m) (localContext m ctx) f with
       | Mongo.SingleDocument doc => ClientGen.RespAny (any_M doc) None
       | Mongo.SingleNoDocuments => ClientGen.RespAny any_nil (Some ErrNoDocuments)
       | Mongo.SingleError e => ClientGen.RespAny any_nil (Some e)
       end,
     [EvWithTimeout ctx (ClientGen.timeout m);
      EvDriver (Mongo.FindOne (collectionFor m) (localContext m ctx) f);
      EvCancel (localContext m ctx)]).
Proof.
  intros Hf. destruct req; simpl in Hf; try discriminate.
  - destruct (jsonToBsonM filter) as [f' [e|]] eqn:Hconv; [discriminate|].
    injection Hf as ->. unfold_methods. rewrite Hconv.
    unfold collectionFor, localContext.
    cbv [run fmap func bind ret emit defer driver context_WithTimeout
         ClientGen.collectionOf Mongo.Database_Collection trace deferred].
    simpl.
    destruct (Mongo.doFindOne drv _ _ f); reflexivity.
  - injection Hf as <-. unfold_methods.
    unfold collectionFor, localContext.
    cbv [run fmap func bind ret emit defer driver context_WithTimeout
         ClientGen.collectionOf Mongo.Database_Collection trace deferred].
    simpl.
    destruct (Mongo.doFindOne drv _ _ (filterByID objectID)); reflexivity.
Qed.

(** C2. When FindOne (with a filter that converts) or FindByID matches no
    document, it returns no document and the NotFound error, which is not
    the error of any other failure of the store. *)
Theorem lookup_of_nothing_is_not_found (drv : Mongo.Driver)
        (m : ClientGen.Client) (ctx : Context) (req : ClientGen.Request)
        (f : bsonM) :
  lookupFilter req = Some f ->
  Mongo.doFindOne drv (collectionFor m) (localContext m ctx) f
  = Mongo.SingleNoDocuments ->
  exists e,
    fst (ClientGen.perform drv m ctx req)
    = Return (ClientGen.RespAny any_nil (Some e))
    /\ NotFound e
    /\ forall cause, ~ NotFound cause -> ~ StoreOperationFailed cause e.
Proof.
  intros Hf Hnone. rewrite (perform_lookup drv m ctx req f Hf), Hnone.
  exists ErrNoDocuments. split; [reflexivity|]. split; [reflexivity|].
  intros cause Hcause [H|[msg H]]; [|discriminate].
  apply Hcause. now rewrite <- H.
Qed.

Lemma lookup_of_nothing_is_not_found_witness :
  exists e,
    fst (ClientGen.perform (Samples.emptyStore VNil) Samples.sampleClient
           Samples.caller (ClientGen.ReqFindByID 5))
    = Return (ClientGen.RespAny any_nil (Some e))
    /\ NotFound e
    /\ forall cause, ~ NotFound cause -> ~ StoreOperationFailed cause e.
Proof.
  apply (lookup_of_nothing_is_not_found _ _ _ _ (filterByID 5)); reflexivity.
Defined.

(** A lookup the store fails returns the error of the driver itself, so a
    failure other than NotFound is seen as such. *)
Lemma lookup_failure_is_not_not_found drv m ctx req f cause :
  lookupFilter req = Some f ->
  Mongo.doFindOne drv (collectionFor m) (localContext m ctx) f
  = Mongo.SingleError cause ->
  ~ NotFound cause ->
  exists e,
    fst (ClientGen.perform drv m ctx req)
    = Return (ClientGen.RespAny any_nil (Some e))
    /\ StoreOperationFailed cause e /\ ~ NotFound e.
Proof.
  intros Hf Herr Hcause. rewrite (perform_lookup drv m ctx req f Hf), Herr.
  exists cause. split; [reflexivity|]. split; [now left | exact Hcause].
Qed.

(** ** Multi-record finds *)

Lemma walk_spec ctx items cursorErr :
  forall result st,
    walk ctx items cursorErr result st
    = (Return (walked items cursorErr result),
       mkState (trace st ++ nexts ctx items) (deferred st)).
Proof.
  unfold nexts.
  induction items as [|[doc|e] rest IH]; intros result st; simpl;
    unfold driver, bind, emit, ret; simpl.
  - destruct cursorErr; reflexivity.
  - rewrite IH. simpl. now rewrite <- app_assoc.
  - reflexivity.
Qed.

Lemma operations_app tr1 tr2 :
  operations (tr1 ++ tr2) = operations tr1 ++ operations tr2.
Proof.
  unfold operations, driverCalls. now rewrite flat_map_app, filter_app.
Qed.

Lemma operations_nexts ctx items : operations (nexts ctx items) = [].
Proof.
  unfold nexts, operations, driverCalls.
  induction (steps items) as [|n IH]; simpl; auto.
Qed.

Ltac run_method :=
  unfold_methods; unfold collectionFor, localContext in *;
  cbv [run fmap func bind ret emit defer driver context_WithTimeout
       ClientGen.collectionOf Mongo.Database_Collection trace deferred
       ClientGen.respID ClientGen.respAny ClientGen.respMany];
  simpl.

Lemma perform_find_many_bson drv m ctx f :
  ClientGen.perform drv m ctx (ClientGen.ReqFindManyFilterBSON f)
  = findManyRun drv m ctx f.
Proof.
  unfold findManyRun. run_method.
  destruct (Mongo.doFind drv _ _ f) as [[cur|] [e|]]; simpl; try reflexivity.
  unfold walkMongoSet, func. rewrite walk_spec. simpl.
  rewrite <- !app_assoc. reflexivity.
Qed.

Lemma perform_find_many drv m ctx req f :
  manyFilter req = Some f ->
  ClientGen.perform drv m ctx req = findManyRun drv m ctx f.
Proof.
  intros Hf. destruct req; simpl in Hf; try discriminate.
  - destruct (jsonToBsonM filterJSON) as [f' [e|]] eqn:Hconv; [discriminate|].
    injection Hf as ->. rewrite <- perform_find_many_bson.
    unfold_methods. now rewrite Hconv.
  - injection Hf as ->. apply perform_find_many_bson.
Qed.

Lemma walked_undecodable before cause after cursorErr :
  forall result,
    walked (map Mongo.Decodable before ++ Mongo.Undecodable cause :: after)
           cursorErr result
    = ([], Some (withStack cause "could not decode into buffer")).
Proof. induction before as [|doc before IH]; intros result; simpl; auto. Qed.

Lemma walked_decodable docs cursorErr :
  forall result,
    walked (map Mongo.Decodable docs) cursorErr result
    = match cursorErr with
      | Some e => ([], Some (withStack e "cursor error"))
      | None => (result ++ docs, None)
      end.
Proof.
  induction docs as [|doc docs IH]; intros result; simpl.
  - destruct cursorErr; [reflexivity | now rewrite app_nil_r].
  - rewrite IH. destruct cursorErr; [reflexivity | now rewrite <- app_assoc].
Qed.

(** C5. A find (FindManyFilterJSON with a filter that converts,
    FindManyFilterBSON) whose filter matches no document, so that the
    cursor of the driver holds none and ends without error, returns the
    empty sequence and a nil error. *)
Theorem find_of_nothing_is_empty (drv : Mongo.Driver) (m : ClientGen.Client)
        (ctx : Context) (req : ClientGen.Request) (f : bsonM)
        (cur : Mongo.Cursor) :
  manyFilter req = Some f ->
  Mongo.doFind drv (collectionFor m) (localContext m ctx) f = (Some cur, None) ->
  Mongo.Items cur = [] ->
  Mongo.CursorErr cur = None ->
  fst (ClientGen.perform drv m ctx req) = Return (ClientGen.RespMany [] None).
Proof.
  intros Hf Hfind Hitems Herr.
  rewrite (perform_find_many drv m ctx req f Hf). unfold findManyRun.
  rewrite Hfind, Hitems, Herr. reflexivity.
Qed.

Lemma find_of_nothing_is_empty_witness :
  fst (ClientGen.perform (Samples.emptyStore VNil) Samples.sampleClient
         Samples.caller
         (ClientGen.ReqFindManyFilterJSON (Samples.text "{ }")))
  = Return (ClientGen.RespMany [] None).
Proof.
  apply (find_of_nothing_is_empty _ _ _ _ (Some []) (Mongo.mkCursor [] None));
    reflexivity.
Defined.

(** C6. A find in which a document fails to decode, after any number of
    documents that decoded, returns the CursorIteration error and no
    document. *)
Theorem decode_failure_discards_documents (drv : Mongo.Driver)
        (m : ClientGen.Client) (ctx : Context) (req : ClientGen.Request)
        (f : bsonM) (cur : Mongo.Cursor) (before : list bsonM)
        (cause : error) (after : list Mongo.Item) :
  manyFilter req = Some f ->
  Mongo.doFind drv (collectionFor m) (localContext m ctx) f = (Some cur, None) ->
  Mongo.Items cur
  = map Mongo.Decodable before ++ Mongo.Undecodable cause :: after ->
  exists e,
    fst (ClientGen.perform drv m ctx req)
    = Return (ClientGen.RespMany [] (Some e))
    /\ CursorIteration cause e.
Proof.
  intros Hf Hfind Hitems.
  rewrite (perform_find_many drv m ctx req f Hf). unfold findManyRun.
  rewrite Hfind, Hitems, walked_undecodable.
  eexists. split; reflexivity.
Qed.

Lemma decode_failure_discards_documents_witness :
  exists e,
    fst (ClientGen.perform
           (Samples.finding
              (Mongo.mkCursor
                 [Mongo.Decodable (Some [("Name"%string, VString "mary")]);
                  Mongo.Undecodable (DriverError "unexpected end of document");
                  Mongo.Decodable (Some [])] None))
           Samples.sampleClient Samples.caller
           (ClientGen.ReqFindManyFilterBSON (Some [])))
    = Return (ClientGen.RespMany [] (Some e))
    /\ CursorIteration (DriverError "unexpected end of document") e.
Proof.
  apply (decode_failure_discards_documents _ _ _ _ (Some [])
           (Mongo.mkCursor
              [Mongo.Decodable (Some [("Name"%string, VString "mary")]);
               Mongo.Undecodable (DriverError "unexpected end of document");
               Mongo.Decodable (Some [])] None)
           [Some [("Name"%string, VString "mary")]] _
           [Mongo.Decodable (Some [])]); reflexivity.
Defined.

(** ** Failures of the driver *)

Lemma walked_allDecodable items cursorErr cause :
  allDecodable items = true -> cursorErr = Some cause ->
  forall result,
    walked items cursorErr result = ([], Some (withStack cause "cursor error")).
Proof.
  intros Hall ->. induction items as [|[doc|e] rest IH]; intros result;
    simpl in *; try discriminate; auto.
Qed.

(** What InsertOne returns when its text converts, for each answer of the
    driver. *)
Lemma run_InsertOne drv m ctx data dataM :
  jsonToBsonM data = (dataM, None) ->
  run (ClientGen.InsertOne drv m ctx data)
  = (match Mongo.doInsertOne drv (collectionFor m) (localContext m ctx) dataM with
     | (_, Some e) => Return (NilObjectID, Some e)
     | (None, None) => Return (NilObjectID, None)
     | (Some result, None) =>
         match Mongo.InsertedID result with
         | VObjectID id => Return (id, None)
         | _ => Panic interfaceConversion
         end
     end,
     [EvWithTimeout ctx (ClientGen.timeout m);
      EvDriver (Mongo.InsertOne (collectionFor m) (localContext m ctx) dataM);
      EvCancel (localContext m ctx)]).
Proof.
  intros Hconv. run_method. rewrite Hconv. simpl.
  destruct (Mongo.doInsertOne drv _ _ dataM) as [[[id]|] [e|]]; simpl;
    try reflexivity.
  destruct id; reflexivity.
Qed.

(** [errors.Cause] finds in such an error what it finds in the error of
    the driver. *)
Lemma StoreOperationFailed_Cause cause e :
  StoreOperationFailed cause e -> errors_Cause e = errors_Cause cause.
Proof. intros [->|[message ->]]; reflexivity. Qed.

(** When the driver fails an operation that a method has dispatched, the
    method returns an error that is the error of the driver or wraps it,
    and the operation has been dispatched once. *)
Lemma dispatched_failure_is_returned (drv : Mongo.Driver) (m : ClientGen.Client)
        (ctx : Context) (req : ClientGen.Request) (c : Mongo.Call)
        (cause : error) :
  In c (operations (snd (ClientGen.perform drv m ctx req))) ->
  failure drv c = Some cause ->
  exists resp e,
    fst (ClientGen.perform drv m ctx req) = Return resp
    /\ ClientGen.responseError resp = Some e
    /\ StoreOperationFailed cause e
    /\ operations (snd (ClientGen.perform drv m ctx req)) = [c].
Proof.
  assert (Hconv_err : forall data d e,
             ClientGen.payload req = Some data ->
             jsonToBsonM data = (d, Some e) ->
             ~ In c (operations (snd (ClientGen.perform drv m ctx req)))).
  { intros data d e Hp Hconv.
    destruct (perform_conversion_error drv m ctx req data d e Hp Hconv)
      as (resp & Hrun & _).
    rewrite Hrun. simpl. tauto. }
  assert (Hmany : forall f, manyFilter req = Some f ->
             In c (operations (snd (ClientGen.perform drv m ctx req))) ->
             failure drv c = Some cause ->
             exists resp e,
               fst (ClientGen.perform drv m ctx req) = Return resp
               /\ ClientGen.responseError resp = Some e
               /\ StoreOperationFailed cause e
               /\ operations (snd (ClientGen.perform drv m ctx req)) = [c]).
  { intros f Hf. rewrite (perform_find_many drv m ctx req f Hf).
    unfold findManyRun.
    destruct (Mongo.doFind drv _ _ f) as [[cur|] [e|]] eqn:Hfind; cbv [fst snd].
    - simpl. intros [<-|[]]. simpl. rewrite Hfind. intros [= <-].
      do 2 eexists. repeat split. now left.
    - rewrite !operations_app, operations_nexts. simpl.
      intros [<-|[]]. simpl. rewrite Hfind.
      destruct (allDecodable (Mongo.Items cur)) eqn:Hall; [|discriminate].
      intros Herr. rewrite (walked_allDecodable _ _ cause Hall Herr).
      do 2 eexists. repeat split. right. now eexists.
    - simpl. intros [<-|[]]. simpl. rewrite Hfind. intros [= <-].
      do 2 eexists. repeat split. now left.
    - simpl. intros [<-|[]]. simpl. rewrite Hfind. discriminate. }
  assert (Hlookup : forall f, lookupFilter req = Some f ->
             In c (operations (snd (ClientGen.perform drv m ctx req))) ->
             failure drv c = Some cause ->
             exists resp e,
               fst (ClientGen.perform drv m ctx req) = Return resp
               /\ ClientGen.responseError resp = Some e
               /\ StoreOperationFailed cause e
               /\ operations (snd (ClientGen.perform drv m ctx req)) = [c]).
  { intros f Hf. rewrite (perform_lookup drv m ctx req f Hf). simpl.
    intros [<-|[]]. simpl.
    destruct (Mongo.doFindOne drv _ _ f); try discriminate.
    intros [= <-]. do 2 eexists. repeat split. now left. }
  intros Hin Hfail.
  pose proof (fun data d e Hp Hc => Hconv_err data d e Hp Hc Hin) as Hconv_ok.
  destruct req.
  - (* InsertOne *)
    destruct (jsonToBsonM data) as [d [e|]] eqn:Hconv;
      [now destruct (Hconv_ok data d e)|].
    revert Hin. unfold ClientGen.perform, ClientGen.call.
    unfold run, fmap, bind.
    generalize (run_InsertOne drv m ctx data d Hconv). unfold run.
    destruct (ClientGen.InsertOne drv m ctx data (mkState [] [])) as [r st].
    intros [= -> Htr].
    destruct (Mongo.doInsertOne drv _ _ d) as [[result|] [e|]] eqn:Hans;
      simpl; rewrite ?Htr; simpl.
    all: try (intros [<-|[]]; simpl in Hfail; rewrite Hans in Hfail;
              simpl in Hfail; try discriminate; injection Hfail as <-;
              do 2 eexists; repeat split; now left).
    destruct (Mongo.InsertedID result); simpl; rewrite ?Htr; simpl;
      intros [<-|[]]; simpl in Hfail; rewrite Hans in Hfail; discriminate.
  - destruct (jsonToBsonM filter) as [d [e|]] eqn:Hconv;
      [now destruct (Hconv_ok filter d e)|].
    apply (Hlookup d); [simpl; now rewrite Hconv | |]; assumption.
  - apply (Hlookup (filterByID objectID)); [reflexivity | |]; assumption.
  - destruct (jsonToBsonM filterJSON) as [d [e|]] eqn:Hconv;
      [now destruct (Hconv_ok filterJSON d e)|].
    apply (Hmany d); [simpl; now rewrite Hconv | |]; assumption.
  - apply (Hmany filterBSON); [reflexivity | |]; assumption.
  - destruct (jsonToBsonM filter) as [d [e|]] eqn:Hconv;
      [now destruct (Hconv_ok filter d e)|].
    revert Hin. run_method. rewrite Hconv. simpl.
    destruct (Mongo.doDeleteOne drv _ _ d) as [r [e|]] eqn:Hans; simpl;
      intros [<-|[]]; simpl in Hfail; rewrite Hans in Hfail;
      [injection Hfail as <- | discriminate].
    do 2 eexists. repeat split. now left.
  - destruct (jsonToBsonM filter) as [d [e|]] eqn:Hconv;
      [now destruct (Hconv_ok filter d e)|].
    revert Hin. run_method. rewrite Hconv. simpl.
    destruct (Mongo.doDeleteMany drv _ _ d) as [r [e|]] eqn:Hans; simpl;
      intros [<-|[]]; simpl in Hfail; rewrite Hans in Hfail;
      [injection Hfail as <- | discriminate].
    do 2 eexists. repeat split. now left.
  - revert Hin. run_method.
    destruct (Mongo.doUpdateOne drv _ _ (filterByID id) newValue)
      as [r [e|]] eqn:Hans; simpl;
      intros [<-|[]]; simpl in Hfail; rewrite Hans in Hfail;
      [injection Hfail as <- | discriminate].
    do 2 eexists. repeat split. now left.
  - revert Hin. run_method.
    destruct (Mongo.doUpdateOne drv _ _ filter newValue)
      as [r [e|]] eqn:Hans; simpl;
      intros [<-|[]]; simpl in Hfail; rewrite Hans in Hfail;
      [injection Hfail as <- | discriminate].
    do 2 eexists. repeat split. now left.
  - destruct (jsonToBsonM filter) as [d [e|]] eqn:Hconv;
      [now destruct (Hconv_ok filter d e)|].
    revert Hin. run_method. rewrite Hconv. simpl.
    destruct (Mongo.doUpdateMany drv _ _ d newValue) as [r [e|]] eqn:Hans;
      simpl; intros [<-|[]]; simpl in Hfail; rewrite Hans in Hfail;
      [injection Hfail as <- | discriminate].
    do 2 eexists. repeat split. now left.
Qed.

(** ** What is sent *)

(** A text that converts is sent, as the document it converted to, in the
    one operation the method dispatches. *)
Lemma converted_payload_is_sent drv m ctx req data d :
  ClientGen.payload req = Some data ->
  jsonToBsonM data = (d, None) ->
  exists c,
    operations (snd (ClientGen.perform drv m ctx req)) = [c]
    /\ carried c = Some d.
Proof.
  intros Hp Hconv.
  destruct req; simpl in Hp; try discriminate; injection Hp as ->.
  - unfold ClientGen.perform, ClientGen.call. rewrite snd_run_fmap.
    rewrite (run_InsertOne drv m ctx data d Hconv). eexists. split; reflexivity.
  - rewrite (perform_lookup drv m ctx _ d) by (simpl; now rewrite Hconv).
    eexists. split; reflexivity.
  - rewrite (perform_find_many drv m ctx _ d) by (simpl; now rewrite Hconv).
    unfold findManyRun.
    destruct (Mongo.doFind drv _ _ d) as [[cur|] [e|]]; cbv [snd];
      rewrite ?operations_app, ?operations_nexts;
      eexists; split; reflexivity.
  - run_method. rewrite Hconv. simpl.
    destruct (Mongo.doDeleteOne drv _ _ d) as [r e]. eexists. split; reflexivity.
  - run_method. rewrite Hconv. simpl.
    destruct (Mongo.doDeleteMany drv _ _ d) as [r e]. eexists. split; reflexivity.
  - run_method. rewrite Hconv. simpl.
    destruct (Mongo.doUpdateMany drv _ _ d newValue) as [r e].
    eexists. split; reflexivity.
Qed.

(** So is [null], as the nil document. *)
Lemma null_payload_is_sent drv m ctx req data :
  ClientGen.payload req = Some data ->
  holdsNull data ->
  exists c,
    operations (snd (ClientGen.perform drv m ctx req)) = [c]
    /\ carried c = Some None.
Proof.
  intros Hp Hnull.
  apply (converted_payload_is_sent drv m ctx req data None Hp).
  now apply jsonToBsonM_null.
Qed.

(** ** Conversion errors *)

(** C1, as the code has it.  A text that is not valid JSON, or whose value
    is neither an object nor [null], makes each of InsertOne, FindOne,
    FindManyFilterJSON, DeleteOne, DeleteAll and UpdateMany return the
    error of the conversion, and nothing else, without calling the driver.
    The text [null] converts, to the nil document, and the method
    dispatches its operation with it. *)
Theorem malformed_payload_rejected (drv : Mongo.Driver) (m : ClientGen.Client)
        (ctx : Context) (req : ClientGen.Request) (data : JSON.bytes) :
  ClientGen.payload req = Some data ->
  ~ holdsObject data ->
  (~ holdsNull data -> rejectedUnsent drv m ctx req)
  /\ (holdsNull data ->
      exists c,
        operations (snd (ClientGen.perform drv m ctx req)) = [c]
        /\ carried c = Some None).
Proof.
  intros Hp Hobj. split.
  - intros Hnull.
    destruct (jsonToBsonM_malformed data Hobj Hnull) as (e & He & Hconv).
    destruct (perform_conversion_error drv m ctx req data None e Hp Hconv)
      as (resp & Hrun & Herr & Hzero).
    exists resp, e. eexists. repeat split; eauto.
  - intros Hnull. now apply (null_payload_is_sent drv m ctx req data).
Qed.

Lemma malformed_payload_rejected_witness :
  rejectedUnsent Samples.unreachable Samples.sampleClient Samples.caller
    (ClientGen.ReqFindOne (Samples.text "[1, 2]")).
Proof.
  apply (malformed_payload_rejected _ _ _ _ (Samples.text "[1, 2]")).
  - reflexivity.
  - intros [fields H]. vm_compute in H. discriminate.
  - intros H. vm_compute in H. discriminate.
Defined.

(** C1 as it is stated fails on [null], which is not an object: DeleteAll
    on it returns no error and has called DeleteMany with a nil filter. *)
Lemma null_payload_reaches_driver :
  let data := Samples.text "null" in
  let req := ClientGen.ReqDeleteAll data in
  ClientGen.payload req = Some data
  /\ ~ holdsObject data
  /\ ClientGen.perform (Samples.emptyStore (VObjectID 1)) Samples.sampleClient
       Samples.caller req
     = (Return (ClientGen.RespAny
                  (any_DeleteResult (Some (Mongo.mkDeleteResult 0))) None),
        [EvWithTimeout Samples.caller 3000000000;
         EvDriver (Mongo.DeleteMany Samples.sampleCollection Samples.callerLocal None);
         EvCancel Samples.callerLocal])
  /\ ~ rejectedUnsent (Samples.emptyStore (VObjectID 1)) Samples.sampleClient
         Samples.caller req.
Proof.
  cbv zeta. split; [reflexivity|]. split.
  - intros [fields H]. vm_compute in H. discriminate.
  - split; [vm_compute; reflexivity|].
    intros (resp & e & tr & Hrun & Herr & _).
    vm_compute in Hrun. injection Hrun as <- <-. discriminate.
Qed.

(** ** The identifier of an insert *)

(** What the earlier InsertOne returns when its text converts, for each
    answer of the driver. *)
Lemma run_old_InsertOne drv m ctx data dataM :
  jsonToBsonM data = (dataM, None) ->
  fst (run (MoInstanceGen.InsertOne drv m ctx data))
  = match Mongo.doInsertOne drv (oldCollectionFor m) (oldLocalContext m ctx) dataM with
    | (None, errInsert) => Return (NilObjectID, errInsert)
    | (Some result, errInsert) =>
        match Mongo.InsertedID result with
        | VObjectID id => Return (id, errInsert)
        | _ => Panic interfaceConversion
        end
    end.
Proof.
  intros Hconv. unfold MoInstanceGen.InsertOne, oldCollectionFor, oldLocalContext.
  cbv [run fmap func bind ret emit defer driver context_WithTimeout
       MoInstanceGen.Debug Mongo.Database_Collection trace deferred].
  simpl. rewrite Hconv. simpl.
  destruct (Mongo.doInsertOne drv _ _ dataM) as [[[id]|] e]; simpl;
    try reflexivity.
  destruct id; reflexivity.
Qed.

(** C8. When the text converts and the driver reports a successful insert,
    the identifier it reports decides: if it is no ObjectID, InsertOne
    returns nothing, no error either, and panics on the type assertion,
    after the insert was sent; if it is one, InsertOne returns it.  The
    earlier InsertOne does the same. *)
Theorem insert_panics_unless_ObjectID (drv : Mongo.Driver)
        (m : ClientGen.Client) (old : MoInstanceGen.MoInstance)
        (ctx : Context) (data : JSON.bytes) (dataM : bsonM)
        (result : Mongo.InsertOneResult) :
  jsonToBsonM data = (dataM, None) ->
  Mongo.doInsertOne drv (collectionFor m) (localContext m ctx) dataM
  = (Some result, None) ->
  Mongo.doInsertOne drv (oldCollectionFor old) (oldLocalContext old ctx) dataM
  = (Some result, None) ->
  (isObjectID (Mongo.InsertedID result) = false ->
   run (ClientGen.InsertOne drv m ctx data)
   = (Panic interfaceConversion,
      [EvWithTimeout ctx (ClientGen.timeout m);
       EvDriver (Mongo.InsertOne (collectionFor m) (localContext m ctx) dataM);
       EvCancel (localContext m ctx)])
   /\ fst (run (MoInstanceGen.InsertOne drv old ctx data))
      = Panic interfaceConversion)
  /\ (forall id, Mongo.InsertedID result = VObjectID id ->
      fst (run (ClientGen.InsertOne drv m ctx data)) = Return (id, None)
      /\ fst (run (MoInstanceGen.InsertOne drv old ctx data)) = Return (id, None)).
Proof.
  intros Hconv Hnew Hold.
  rewrite (run_InsertOne drv m ctx data dataM Hconv), Hnew.
  rewrite (run_old_InsertOne drv old ctx data dataM Hconv), Hold.
  split.
  - intros Hid. destruct (Mongo.InsertedID result); try discriminate;
      split; reflexivity.
  - intros id ->. split; reflexivity.
Qed.

(** The caller's document brings its own [_id], a string. *)
Lemma insert_panics_unless_ObjectID_witness :
  fst (run (ClientGen.InsertOne (Samples.emptyStore (VString "k1"))
              Samples.sampleClient Samples.caller
              (Samples.text "{ '_id' : 'k1' }")))
  = Panic interfaceConversion.
Proof.
  assert (Hconv : jsonToBsonM (Samples.text "{ '_id' : 'k1' }")
                  = (Some [("_id"%string, VString "k1")], None))
    by (vm_compute; reflexivity).
  destruct (insert_panics_unless_ObjectID
              (Samples.emptyStore (VString "k1")) Samples.sampleClient
              sampleOld Samples.caller _ _
              (Mongo.mkInsertOneResult (VString "k1"))
              Hconv eq_refl eq_refl)
    as [H _].
  destruct (H eq_refl) as [Hnew _]. now rewrite Hnew.
Defined.




(** ** The constructor *)

(** C9. Given a nil configuration, NewMongo of either generation returns
    nothing, no error either: the empty nil check lets it through and
    reading the timeout panics, before any context is derived.  Given a
    configuration, it panics only if the driver's Connect returned neither
    a client nor an error. *)
Theorem NewMongo_nil_config_panics (drv : Mongo.Driver) :
  run (ClientGen.NewMongo drv None) = (Panic nilDereference, [])
  /\ run (MoInstanceGen.NewMongo drv None) = (Panic nilDereference, [])
  /\ (forall config message,
         fst (run (ClientGen.NewMongo drv (Some config))) = Panic message ->
         Mongo.doConnect drv
           (TimeoutContext Background
              (seconds (ClientGen.SecondsTimeoutExecution config)))
           (ClientGen.URL config)
         = (None, None))
  /\ (forall config message,
         fst (run (MoInstanceGen.NewMongo drv (Some config))) = Panic message ->
         Mongo.doConnect drv
           (TimeoutContext Background (seconds (MoInstanceGen.TimeoutSecs config)))
           (MoInstanceGen.URL config)
         = (None, None)).
Proof.
  split; [reflexivity|]. split; [reflexivity|]. split.
  - intros config message. unfold ClientGen.NewMongo.
    cbv [run fmap func bind ret emit defer driver context_WithTimeout
         trace deferred].
    simpl.
    destruct (Mongo.doConnect drv _ _) as [[instance|] [e|]]; simpl;
      try discriminate; try reflexivity.
    destruct (Mongo.doPing drv instance _); simpl; try discriminate.
    destruct (Mongo.doNewClient drv _) as [[result|] [e|]]; discriminate.
  - intros config message. unfold MoInstanceGen.NewMongo.
    cbv [run fmap func bind ret emit defer driver context_WithTimeout
         MoInstanceGen.Debug trace deferred].
    simpl.
    destruct (Mongo.doConnect drv _ _) as [[instance|] [e|]]; simpl;
      try discriminate; try reflexivity.
    destruct (Mongo.doPing drv instance _); simpl; try discriminate.
    destruct (Mongo.doNewClient drv _) as [[result|] e]; discriminate.
Qed.

(* ================================================================== *)
(** * Conversion and back *)
(* ================================================================== *)

(** ** Integers that a [float64] holds exactly *)

Module Float64Facts.








End Float64Facts.

(** ** The round trip of a payload *)

Module RoundTrip.
Import JSON.

(** Structural induction on a value, with the property at hand for the
    elements of an array and the values of an object. *)
Lemma json_induction (P : json -> Prop) :
  P JNull ->
  (forall b, P (JBool b)) ->
  (forall n, P (JNumber n)) ->
  (forall s, P (JString s)) ->
  (forall elems, Forall P elems -> P (JArray elems)) ->
  (forall fields, Forall (fun kv => P (snd kv)) fields -> P (JObject fields)) ->
  forall j, P j.
Proof.
  intros Hnull Hbool Hnumber Hstring Harray Hobject.
  fix IH 1. intros [|b|n|s|elems|fields].
  - exact Hnull.
  - apply Hbool.
  - apply Hnumber.
  - apply Hstring.
  - apply Harray. induction elems as [|j elems IHelems]; constructor.
    + apply IH.
    + exact IHelems.
  - apply Hobject. induction fields as [|[k j] fields IHfields]; constructor.
    + apply IH.
    + exact IHfields.
Qed.





Section Lossless.

Variable shortest : float64 -> numlit.






End Lossless.

(** ** What the decoding makes of the text *)





(** ** The scanner and the written text *)




(** ** The parser and the written text *)













(** A key that comes twice keeps its last value only. *)
Lemma round_trip_drops_repeated_key :
  let P := Samples.text "{ 'a' : 1, 'a' : 2 }" in
  jsonToBsonM P
  = (Some [("a"%string, VFloat64 (S754_finite false 4503599627370496 (-51)))], None)
  /\ forall shortest, ~ roundTrips shortest P.
Proof.
  cbv zeta. split; [vm_compute; reflexivity|].
  intros shortest (text & fields & doc & out & Hp & Hd & Hc & Hm & Hs).
  vm_compute in Hp. injection Hp as <-.
  vm_compute in Hd. injection Hd as <-.
  vm_compute in Hc. injection Hc as <-.
  vm_compute in Hm. injection Hm as <-.
  inversion Hs as [| | | | |fs fs' reordered Hperm Hall]; subst.
  apply Permutation_length in Hperm. apply Forall2_length in Hall.
  simpl in *. congruence.
Qed.

(** An escape that names a surrogate without its pair denotes no Unicode
    string: the decoding puts U+FFFD in its place, as if the text had
    named that character, and the payload does not come back. *)
Lemma round_trip_replaces_surrogate :
  let P := Samples.text "{'a':'\ud800'}" in
  jsonToBsonM P
  = (Some [("a"%string, VString (string_of_list_byte [xef; xbf; xbd]))], None)
  /\ jsonToBsonM P = jsonToBsonM (Samples.text "{'a':'\ufffd'}")
  /\ forall shortest, ~ roundTrips shortest P.
Proof.
  cbv zeta. split; [vm_compute; reflexivity|]. split; [vm_compute; reflexivity|].
  intros shortest (text & fields & doc & out & Hp & Hd & _).
  vm_compute in Hp. injection Hp as <-.
  vm_compute in Hd. discriminate.
Qed.

(** So does it with a byte that is not UTF-8. *)
Lemma round_trip_replaces_invalid_bytes :
  let P := Samples.text "{'a':'" ++ [xff] ++ Samples.text "'}" in
  jsonToBsonM P
  = (Some [("a"%string, VString (string_of_list_byte [xef; xbf; xbd]))], None)
  /\ forall shortest, ~ roundTrips shortest P.
Proof.
  cbv zeta. split; [vm_compute; reflexivity|].
  intros shortest (text & fields & doc & out & Hp & Hd & _).
  vm_compute in Hp. injection Hp as <-.
  vm_compute in Hd. discriminate.
Qed.

End RoundTrip.

(* ================================================================== *)
(** * The conversions *)
(* ================================================================== *)

Module Conversion.
Import JSON.

(** ** Reading a map *)

Lemma map_get_set_same k v (m : gomap) : map_get k (map_set k v m) = Some v.
Proof.
  induction m as [|[k' v'] m IH]; simpl.
  - now rewrite String.eqb_refl.
  - destruct (String.compare k k') eqn:Hc; simpl.
    + now rewrite String.eqb_refl.
    + now rewrite String.eqb_refl.
    + destruct (String.eqb k k') eqn:He; [|exact IH].
      apply String.eqb_eq in He. subst k'.
      pose proof (String.compare_antisym k k) as Ha. rewrite Hc in Ha.
      discriminate.
Qed.

Lemma map_get_set_other k k' v (m : gomap) :
  k <> k' -> map_get k (map_set k' v m) = map_get k m.
Proof.
  intros Hne. apply String.eqb_neq in Hne.
  induction m as [|[k'' v''] m IH]; simpl.
  - now rewrite Hne.
  - destruct (String.compare k' k'') eqn:Hc; simpl.
    + apply String.compare_eq_iff in Hc. subst k''. now rewrite Hne.
    + now rewrite Hne.
    + now rewrite IH.
Qed.

Lemma find_app_first {A} (p : A -> bool) (l1 l2 : list A) :
  find p (l1 ++ l2)
  = match find p l1 with Some x => Some x | None => find p l2 end.
Proof.
  induction l1 as [|x l1 IH]; simpl; [reflexivity|]. now destruct (p x).
Qed.

(** What a map holds after the members of an object were stored in it, one
    after the other. *)
Lemma store_pairs_get k (kvs : list (string * goval)) :
  forall m,
    map_get k (store_pairs kvs m)
    = match find (fun kv => String.eqb k (fst kv)) (rev kvs) with
      | Some kv => Some (snd kv)
      | None => map_get k m
      end.
Proof.
  unfold store_pairs.
  induction kvs as [|[k' v'] kvs IH]; intros m; simpl; [reflexivity|].
  rewrite IH, find_app_first.
  destruct (find _ (rev kvs)) as [kv|]; [reflexivity|]. simpl.
  destruct (String.eqb k k') eqn:He.
  - apply String.eqb_eq in He. subst k'. apply map_get_set_same.
  - apply String.eqb_neq in He. now apply map_get_set_other.
Qed.

Lemma find_map_snd {A B} (p : string -> bool) (f : A -> B)
      (l : list (string * A)) :
  find (fun kv => p (fst kv)) (map (fun kv => (fst kv, f (snd kv))) l)
  = option_map (fun kv => (fst kv, f (snd kv))) (find (fun kv => p (fst kv)) l).
Proof.
  induction l as [|[k a] l IH]; simpl; [reflexivity|].
  destruct (p k); [reflexivity | exact IH].
Qed.

(** The document of an object, member by member. *)
Lemma document_get (fields : list (string * json)) (k : string) :
  map_get k
    (store_pairs
       (map (fun r => (fst r, fst (snd r)))
            (map (fun kv => (fst kv, valueInterface (snd kv))) fields)) [])
  = option_map (fun j => fst (valueInterface j)) (lastMember k fields).
Proof.
  rewrite store_pairs_get, map_map. simpl.
  rewrite <- map_rev.
  rewrite (find_map_snd (String.eqb k) (fun j => fst (valueInterface j))).
  unfold lastMember.
  destruct (find _ (rev fields)) as [[k' j]|]; reflexivity.
Qed.

(** ** The errors of a decoding *)

Lemma savedError_from (errs : list (option error)) :
  forall e, fold_left saveError errs (Some e) = Some e.
Proof. induction errs as [|x errs IH]; intros e; simpl; auto. Qed.

Lemma savedError_cons (x : option error) (errs : list (option error)) :
  savedError (x :: errs)
  = match x with Some e => Some e | None => savedError errs end.
Proof.
  unfold savedError. simpl. destruct x as [e|]; [apply savedError_from | reflexivity].
Qed.

(** Decoding into an [interface{}] fails on a number out of range and on
    nothing else. *)
Lemma valueInterface_error (j : json) :
  snd (valueInterface j) = if representable j then None else Some outOfRange.
Proof.
  induction j as [| | | |elems IH|fields IH] using RoundTrip.json_induction;
    try reflexivity.
  - simpl. now destruct (ParseFloat n).
  - simpl. induction IH as [|j elems Hj _ IHl]; [reflexivity|].
    simpl map. rewrite savedError_cons, Hj. simpl.
    destruct (representable j); [exact IHl | reflexivity].
  - simpl. induction IH as [|[k j] fields Hj _ IHl]; [reflexivity|].
    simpl map. rewrite savedError_cons. simpl in Hj |- *. rewrite Hj.
    destruct (representable j); [exact IHl | reflexivity].
Qed.

(** Nor does it ever yield an ObjectID. *)
Lemma valueInterface_no_ObjectID (j : json) :
  isObjectID (fst (valueInterface j)) = false.
Proof. destruct j; simpl; try reflexivity. now destruct (ParseFloat n). Qed.

Lemma jsonToBsonM_object (data : bytes) (fields : list (string * json)) :
  parse data = Some (JObject fields) ->
  jsonToBsonM data
  = (Some (store_pairs
             (map (fun r => (fst r, fst (snd r)))
                  (map (fun kv => (fst kv, valueInterface (snd kv))) fields)) []),
     if representable (JObject fields) then None else Some outOfRange).
Proof.
  intros Hp. unfold jsonToBsonM, Unmarshal. rewrite Hp. f_equal.
  exact (valueInterface_error (JObject fields)).
Qed.

Lemma jsonToBsonM_document (data : bytes) (doc : gomap) (err : option error) :
  jsonToBsonM data = (Some doc, err) -> holdsObject data.
Proof.
  unfold jsonToBsonM, Unmarshal, holdsObject.
  destruct (parse data) as [[| | | | |fields]|]; try discriminate.
  intros _. now exists fields.
Qed.

End Conversion.

(** ** Which texts convert *)

(** X1.  A text converts to a document without error exactly when it holds
    [null], or an object none of whose numbers, at any depth, is out of the
    range of a [float64]. *)
Theorem conversion_accepts (data : JSON.bytes) :
  snd (jsonToBsonM data) = None
  <-> holdsNull data
      \/ exists fields,
           JSON.parse data = Some (JSON.JObject fields)
           /\ representable (JSON.JObject fields) = true.
Proof.
  unfold holdsNull. split.
  - destruct (JSON.parse data) as [j|] eqn:Hp.
    + destruct j as [| | | | |fields];
        try (unfold jsonToBsonM, JSON.Unmarshal; rewrite Hp; discriminate).
      * now left.
      * rewrite (Conversion.jsonToBsonM_object data fields Hp). cbn [snd].
        destruct (representable (JSON.JObject fields)) eqn:Hr; [|discriminate].
        intros _. right. now exists fields.
    + unfold jsonToBsonM, JSON.Unmarshal. rewrite Hp. discriminate.
  - intros [Hnull|(fields & Hp & Hr)].
    + now rewrite (jsonToBsonM_null data Hnull).
    + rewrite (Conversion.jsonToBsonM_object data fields Hp), Hr. reflexivity.
Qed.

(** X2.  An object that holds a number out of the range of a [float64] is
    valid JSON and yet does not convert: the conversion returns the
    document it built together with a type error, and each method that
    takes a text returns that error, and nothing else, without calling the
    driver. *)
Theorem unrepresentable_number_rejected (drv : Mongo.Driver)
        (m : ClientGen.Client) (ctx : Context) (req : ClientGen.Request)
        (data : JSON.bytes) (fields : list (string * JSON.json)) :
  ClientGen.payload req = Some data ->
  JSON.parse data = Some (JSON.JObject fields) ->
  representable (JSON.JObject fields) = false ->
  (exists doc,
      jsonToBsonM data
      = (Some doc, Some (UnmarshalTypeError "number" "float64")))
  /\ rejectedUnsent drv m ctx req.
Proof.
  intros Hreq Hp Hr.
  pose proof (Conversion.jsonToBsonM_object data fields Hp) as Hconv.
  rewrite Hr in Hconv. split; [eexists; exact Hconv|].
  destruct (perform_conversion_error drv m ctx req data _ _ Hreq Hconv)
    as (resp & Hrun & Herr & Hzero).
  exists resp, outOfRange. eexists.
  repeat split; eauto.
Qed.

Lemma unrepresentable_number_rejected_witness :
  rejectedUnsent Samples.unreachable Samples.sampleClient Samples.caller
    (ClientGen.ReqInsertOne (Samples.text "{'Name':'john','Age':1e999}")).
Proof.
  assert (Hp : JSON.parse (Samples.text "{'Name':'john','Age':1e999}")
               = Some (JSON.JObject
                         [("Name"%string, JSON.JString "john");
                          ("Age"%string, JSON.JNumber (JSON.mkNum false 1 999))]))
    by (vm_compute; reflexivity).
  refine (proj2 (unrepresentable_number_rejected
                   Samples.unreachable Samples.sampleClient Samples.caller
                   (ClientGen.ReqInsertOne
                      (Samples.text "{'Name':'john','Age':1e999}"))
                   _ _ eq_refl Hp _)).
  vm_compute. reflexivity.
Defined.

(** ** Repeated member names *)

(** X3.  The document of an object holds, under each name, what the last member
    of that name decodes to, and nothing under a name the object does not
    have: of members that share a name the last one wins. *)
Theorem last_member_wins (data : JSON.bytes)
        (fields : list (string * JSON.json)) :
  JSON.parse data = Some (JSON.JObject fields) ->
  exists doc,
    fst (jsonToBsonM data) = Some doc
    /\ forall k,
         map_get k doc
         = option_map (fun j => fst (JSON.valueInterface j)) (lastMember k fields).
Proof.
  intros Hp. rewrite (Conversion.jsonToBsonM_object data fields Hp).
  eexists. split; [reflexivity|]. intros k. apply Conversion.document_get.
Qed.

Lemma last_member_wins_witness :
  exists doc,
    fst (jsonToBsonM (Samples.text "{'Age':44,'Name':'john','Age':'old'}"))
    = Some doc
    /\ map_get "Age" doc = Some (VString "old").
Proof.
  destruct (last_member_wins
              (Samples.text "{'Age':44,'Name':'john','Age':'old'}")
              [("Age"%string, JSON.JNumber (JSON.mkNum false 44 0));
               ("Name"%string, JSON.JString "john");
               ("Age"%string, JSON.JString "old")])
    as (doc & Hdoc & Hget); [vm_compute; reflexivity|].
  exists doc. split; [exact Hdoc|]. now rewrite Hget.
Defined.

(** ** A document that brings its own identifier *)

(** X4.  No text converts to a document whose [_id] is an ObjectID.  So when a
    text brings its own [_id] and the driver, having inserted the document,
    reports that [_id] as the identifier, InsertOne panics on the type
    assertion: the insert has been sent and the context is cancelled, but
    neither an identifier nor an error comes back. *)
Theorem insert_with_own_id_panics (drv : Mongo.Driver) (m : ClientGen.Client)
        (ctx : Context) (data : JSON.bytes) (doc : gomap) (id : goval) :
  jsonToBsonM data = (Some doc, None) ->
  map_get "_id" doc = Some id ->
  Mongo.doInsertOne drv (collectionFor m) (localContext m ctx) (Some doc)
  = (Some (Mongo.mkInsertOneResult id), None) ->
  run (ClientGen.InsertOne drv m ctx data)
  = (Panic interfaceConversion,
     [EvWithTimeout ctx (ClientGen.timeout m);
      EvDriver (Mongo.InsertOne (collectionFor m) (localContext m ctx) (Some doc));
      EvCancel (localContext m ctx)]).
Proof.
  intros Hconv Hid Hans.
  assert (Hno : isObjectID id = false).
  { destruct (Conversion.jsonToBsonM_document data doc None Hconv) as [fields Hp].
    pose proof (Conversion.jsonToBsonM_object data fields Hp) as Hobj.
    rewrite Hconv in Hobj. injection Hobj as Hdoc _. subst doc.
    rewrite Conversion.document_get in Hid.
    destruct (lastMember "_id" fields) as [j|]; [|discriminate].
    injection Hid as <-. apply Conversion.valueInterface_no_ObjectID. }
  rewrite (run_InsertOne drv m ctx data (Some doc) Hconv), Hans. simpl.
  destruct id; try reflexivity. discriminate.
Qed.

Lemma insert_with_own_id_panics_witness :
  fst (run (ClientGen.InsertOne (Samples.emptyStore (VFloat64 (S754_zero false)))
              Samples.sampleClient Samples.caller
              (Samples.text "{'_id':0,'Name':'john'}")))
  = Panic interfaceConversion.
Proof.
  rewrite (insert_with_own_id_panics
             (Samples.emptyStore (VFloat64 (S754_zero false)))
             Samples.sampleClient Samples.caller
             (Samples.text "{'_id':0,'Name':'john'}")
             [("Name"%string, VString "john");
              ("_id"%string, VFloat64 (S754_zero false))]
             (VFloat64 (S754_zero false))).
  - reflexivity.
  - vm_compute. reflexivity.
  - reflexivity.
  - reflexivity.
Defined.

(** ** The conversion to an ordered document *)

(** X5.  [jsonToBsonD] and [jsonToBsonM] accept no text in common but [null]:
    an object, the one value [jsonToBsonM] makes a document of, is a type
    error for [jsonToBsonD], which returns a nil slice with it. *)
Theorem converters_share_only_null (data : JSON.bytes) :
  (holdsObject data ->
   jsonToBsonD data = (None, Some (UnmarshalTypeError "object" "primitive.D")))
  /\ (snd (jsonToBsonM data) = None -> snd (jsonToBsonD data) = None ->
      holdsNull data).
Proof.
  unfold holdsObject, holdsNull, jsonToBsonD, jsonToBsonM,
    JSON.Unmarshal_D, JSON.Unmarshal.
  split.
  - intros [fields ->]. reflexivity.
  - destruct (JSON.parse data) as [[| | | | |fields]|]; simpl;
      try discriminate; auto.
Qed.

Lemma converters_share_only_null_witness :
  jsonToBsonD john = (None, Some (UnmarshalTypeError "object" "primitive.D")).
Proof.
  apply (proj1 (converters_share_only_null john)).
  eexists. vm_compute. reflexivity.
Defined.

Lemma storeValue_representable (j : JSON.json) (e : bsonE) :
  representable j = true ->
  JSON.storeValue j e = (mkE (Key e) (fst (JSON.valueInterface j)), None).
Proof.
  intros Hr.
  pose proof (Conversion.valueInterface_error j) as He. rewrite Hr in He.
  destruct j as [|b|n|s|elems|fields].
  1, 2, 4: reflexivity.
  - simpl in *. now destruct (JSON.ParseFloat n).
  - unfold JSON.storeValue.
    destruct (JSON.valueInterface (JSON.JArray elems)) as [v err].
    simpl in He. now subst err.
  - unfold JSON.storeValue.
    destruct (JSON.valueInterface (JSON.JObject fields)) as [v err].
    simpl in He. now subst err.
Qed.

Lemma decodeE_pairObject (kv : string * JSON.json) :
  representable (snd kv) = true ->
  JSON.decodeE (pairObject kv)
  = (mkE (fst kv) (fst (JSON.valueInterface (snd kv))), None).
Proof.
  destruct kv as [k j]. cbn [fst snd]. intros Hr.
  unfold JSON.decodeE, pairObject. cbn [fst snd fold_left].
  change (JSON.storeField (JSON.zeroE, None) ("Key"%string, JSON.JString k))
    with (mkE k VNil, @None error).
  unfold JSON.storeField. cbn [fst snd].
  change (JSON.fieldOf "Value") with (Some JSON.FieldValue).
  now rewrite (storeValue_representable j _ Hr).
Qed.

(** X6.  An array of objects [{"Key": k, "Value": v}] converts to the pairs of
    its elements, one for each, in the order of the text; a key that comes
    twice is kept twice. *)
Theorem jsonToBsonD_keeps_order (data : JSON.bytes)
        (pairs : list (string * JSON.json)) :
  JSON.parse data = Some (JSON.JArray (map pairObject pairs)) ->
  forallb (fun kv => representable (snd kv)) pairs = true ->
  jsonToBsonD data
  = (Some (map (fun kv => mkE (fst kv) (fst (JSON.valueInterface (snd kv))))
               pairs),
     None).
Proof.
  intros Hp Hr. unfold jsonToBsonD, JSON.Unmarshal_D. rewrite Hp.
  rewrite !map_map. apply f_equal2.
  - apply f_equal. apply map_ext_in. intros kv Hin.
    rewrite forallb_forall in Hr. now rewrite decodeE_pairObject by auto.
  - clear Hp. induction pairs as [|kv pairs IH]; [reflexivity|].
    simpl in Hr. apply andb_prop in Hr as [Hkv Hrest].
    cbn [map]. rewrite Conversion.savedError_cons, decodeE_pairObject by exact Hkv.
    now apply IH.
Qed.

Lemma jsonToBsonD_keeps_order_witness :
  jsonToBsonD
    (Samples.text
       "[{'Key':'b','Value':true},{'Key':'a','Value':null},{'Key':'b','Value':'x'}]")
  = (Some [mkE "b" (VBool true); mkE "a" VNil; mkE "b" (VString "x")], None).
Proof.
  apply (jsonToBsonD_keeps_order _
           [("b"%string, JSON.JBool true); ("a"%string, JSON.JNull);
            ("b"%string, JSON.JString "x")]).
  - vm_compute. reflexivity.
  - reflexivity.
Defined.

(* ================================================================== *)
(** * The timeout of a derived context *)
(* ================================================================== *)

(** X7.  [time.Duration(n) * time.Second], for [n] a [uint] of 64 bits, is
    [n] seconds in nanoseconds as long as [n] is at most 9223372036; zero
    seconds give the zero timeout.  From 9223372037 seconds on the product
    leaves the range of an [int64]: up to 18446744073 seconds it wraps to
    a negative timeout, with which [context.WithTimeout] returns a context
    whose deadline has passed. *)
Theorem timeout_in_nanoseconds (n : N) :
  ((n <= 9223372036)%N -> seconds n = Z.of_N n * 1000000000)
  /\ ((9223372036 < n <= 18446744073)%N ->
      seconds n = Z.of_N n * 1000000000 - 2 ^ 64 /\ seconds n < 0).
Proof.
  unfold seconds, wrap_int64, time_Second.
  change (2 ^ 63) with 9223372036854775808.
  change (2 ^ 64) with 18446744073709551616.
  split.
  - intros Hn.
    rewrite (Z.mod_small (Z.of_N n + _)) by lia.
    rewrite Z.mod_small by lia. lia.
  - intros Hn.
    rewrite (Z.mod_small (Z.of_N n + _)) by lia.
    replace (Z.of_N n + 9223372036854775808 - 9223372036854775808)
      with (Z.of_N n) by lia.
    assert (E : (Z.of_N n * 1000000000 + 9223372036854775808)
                mod 18446744073709551616
                = Z.of_N n * 1000000000 + 9223372036854775808
                  - 18446744073709551616).
    { symmetry. apply (Z.mod_unique_pos _ _ 1); lia. }
    rewrite E. lia.
Qed.

Lemma timeout_in_nanoseconds_witness :
  ClientGen.timeout Samples.sampleClient = 3000000000
  /\ seconds 9223372037 < 0.
Proof.
  split.
  - apply (proj1 (timeout_in_nanoseconds 3)). vm_compute. discriminate.
  - apply (proj2 (timeout_in_nanoseconds 9223372037)).
    split; vm_compute; [reflexivity | discriminate].
Defined.

(* ================================================================== *)
(** * The constructors *)
(* ================================================================== *)

Ltac run_constructor :=
  unfold ClientGen.NewMongo, MoInstanceGen.NewMongo, dialContext, upgradeCfg;
  cbv [run fmap func bind ret emit defer driver context_WithTimeout
       MoInstanceGen.Debug trace deferred];
  simpl.

(** X8.  When NewMongo returns a client, it returns no error with it; it has
    connected and pinged under a context with the configured timeout, which
    it has cancelled; and the client it returns is the one NewClient
    built, with the configuration given.  It has connected a client and
    built another: the one it connected it neither returns nor
    disconnects, the one it returns it has not connected. *)
Theorem NewMongo_client_is_unconnected (drv : Mongo.Driver)
        (config : ClientGen.Cfg) (c : ClientGen.Client) (err : option error) :
  fst (run (ClientGen.NewMongo drv (Some config))) = Return (Some c, err) ->
  err = None
  /\ ClientGen.cfg c = config
  /\ (exists instance,
         Mongo.doConnect drv
           (dialContext (ClientGen.SecondsTimeoutExecution config))
           (ClientGen.URL config)
         = (Some instance, None)
         /\ Mongo.doPing drv instance
              (dialContext (ClientGen.SecondsTimeoutExecution config))
            = None)
  /\ Mongo.doNewClient drv (ClientGen.URL config)
     = (Some (ClientGen.client c), None)
  /\ snd (run (ClientGen.NewMongo drv (Some config)))
     = [EvWithTimeout Background
          (seconds (ClientGen.SecondsTimeoutExecution config));
        EvDriver (Mongo.Connect
                    (dialContext (ClientGen.SecondsTimeoutExecution config))
                    (ClientGen.URL config));
        EvDriver (Mongo.Ping
                    (dialContext (ClientGen.SecondsTimeoutExecution config)));
        EvDriver (Mongo.NewClient (ClientGen.URL config));
        EvCancel (dialContext (ClientGen.SecondsTimeoutExecution config))].
Proof.
  run_constructor.
  destruct (Mongo.doConnect drv _ _) as [[instance|] [e|]]; simpl;
    try discriminate.
  destruct (Mongo.doPing drv instance _) eqn:Hping; simpl; try discriminate.
  destruct (Mongo.doNewClient drv _) as [[result|] [e|]]; simpl;
    try discriminate.
  intros [= <- <-]. repeat split. now exists instance.
Qed.

Lemma NewMongo_client_is_unconnected_witness :
  Mongo.doNewClient (Samples.emptyStore VNil) "mongodb://localhost:27017"
  = (Some (Mongo.mkClient "mongodb://localhost:27017"), None).
Proof.
  apply (NewMongo_client_is_unconnected (Samples.emptyStore VNil)
           Samples.sampleCfg Samples.sampleClient None).
  reflexivity.
Defined.

(** X9.  The two constructors call the driver alike.  They return alike, the
    earlier an instance where the later returns a client, whenever
    NewClient answers with a client and no error. *)
Theorem NewMongo_generations_agree (drv : Mongo.Driver) (c : MoInstanceGen.Cfg) :
  unlogged (snd (run (MoInstanceGen.NewMongo drv (Some c))))
  = snd (run (ClientGen.NewMongo drv (Some (upgradeCfg c))))
  /\ ((exists result,
          Mongo.doNewClient drv (MoInstanceGen.URL c) = (Some result, None)) ->
      upgraded (fst (run (MoInstanceGen.NewMongo drv (Some c))))
      = fst (run (ClientGen.NewMongo drv (Some (upgradeCfg c))))).
Proof.
  split.
  - run_constructor.
    destruct (Mongo.doConnect drv _ _) as [[instance|] [e|]]; simpl;
      try reflexivity.
    destruct (Mongo.doPing drv instance _); simpl; try reflexivity.
    destruct (Mongo.doNewClient drv _) as [[result|] [e|]]; reflexivity.
  - intros [result Hnew]. run_constructor.
    destruct (Mongo.doConnect drv _ _) as [[instance|] [e|]]; simpl;
      try reflexivity.
    destruct (Mongo.doPing drv instance _); simpl; try reflexivity.
    rewrite Hnew. reflexivity.
Qed.

Lemma NewMongo_generations_agree_witness :
  upgraded (fst (run (MoInstanceGen.NewMongo (Samples.emptyStore VNil)
                        (Some (MoInstanceGen.cfg sampleOld)))))
  = Return (Some Samples.sampleClient, None).
Proof.
  rewrite (proj2 (NewMongo_generations_agree (Samples.emptyStore VNil)
                    (MoInstanceGen.cfg sampleOld))).
  - reflexivity.
  - eexists. reflexivity.
Defined.

(** X10.  They part when NewClient, reached after a ping that succeeded, does
    not answer with a client and no error.  The later constructor returns
    no client and the error of NewClient, which is no error at all when
    NewClient returned none.  The earlier one does not look at that error:
    given a client it returns it, given none it returns the error [?]. *)
Theorem NewMongo_without_client (drv : Mongo.Driver) (c : MoInstanceGen.Cfg)
        (instance : Mongo.Client) (result : option Mongo.Client)
        (errClient : option error) :
  Mongo.doConnect drv (dialContext (MoInstanceGen.TimeoutSecs c))
    (MoInstanceGen.URL c) = (Some instance, None) ->
  Mongo.doPing drv instance (dialContext (MoInstanceGen.TimeoutSecs c)) = None ->
  Mongo.doNewClient drv (MoInstanceGen.URL c) = (result, errClient) ->
  result = None \/ errClient <> None ->
  fst (run (ClientGen.NewMongo drv (Some (upgradeCfg c))))
  = Return (None, errClient)
  /\ fst (run (MoInstanceGen.NewMongo drv (Some c)))
     = Return match result with
              | Some r => (Some (MoInstanceGen.mkMoInstance c r), None)
              | None => (None, Some (errors_New "?"))
              end.
Proof.
  intros Hconnect Hping Hnew Hcase. run_constructor.
  unfold dialContext in *. rewrite Hconnect. simpl. rewrite Hping. simpl.
  rewrite Hnew.
  destruct result as [r|], errClient as [e|]; simpl; split; try reflexivity.
  destruct Hcase as [H|H]; [discriminate | now contradiction H].
Qed.

Lemma NewMongo_without_client_witness :
  fst (run (ClientGen.NewMongo (building (None, None)) (Some Samples.sampleCfg)))
  = Return (None, None).
Proof.
  refine (proj1 (NewMongo_without_client (building (None, None))
                   (MoInstanceGen.cfg sampleOld)
                   (Mongo.mkClient "mongodb://localhost:27017") None None
                   eq_refl eq_refl eq_refl (or_introl eq_refl))).
Defined.

(* ================================================================== *)
(** * The two generations of the methods *)
(* ================================================================== *)

Ltac unfold_old_methods :=
  unfold MoInstanceGen.perform, MoInstanceGen.call,
    MoInstanceGen.InsertOne, MoInstanceGen.FindOne, MoInstanceGen.FindByID,
    MoInstanceGen.FindManyFilterJSON, MoInstanceGen.FindManyFilterBSON,
    MoInstanceGen.DeleteOne, MoInstanceGen.DeleteAll, MoInstanceGen.UpdateByID,
    MoInstanceGen.UpdateOne, MoInstanceGen.UpdateMany.

Ltac run_both :=
  unfold_old_methods; unfold_methods;
  cbv [run fmap func bind ret emit defer driver context_WithTimeout
       ClientGen.collectionOf MoInstanceGen.collectionOf
       MoInstanceGen.Debug Mongo.Database_Collection trace deferred
       ClientGen.respID ClientGen.respAny ClientGen.respMany
       ClientGen.timeout MoInstanceGen.timeout upgrade
       ClientGen.cfg ClientGen.client ClientGen.SecondsTimeoutExecution
       ClientGen.Database ClientGen.Collection];
  simpl.

Lemma unlogged_app tr1 tr2 : unlogged (tr1 ++ tr2) = unlogged tr1 ++ unlogged tr2.
Proof. apply filter_app. Qed.

Lemma unlogged_nexts ctx items : unlogged (nexts ctx items) = nexts ctx items.
Proof.
  unfold nexts. induction (steps items) as [|n IH]; simpl; [reflexivity|].
  f_equal. exact IH.
Qed.

(** What an earlier find does once its filter is there: what the later
    find does. *)
Lemma old_find_many drv (old : MoInstanceGen.MoInstance) ctx f :
  MoInstanceGen.perform drv old ctx (ClientGen.ReqFindManyFilterBSON f)
  = findManyRun drv (upgrade old) ctx f.
Proof.
  unfold findManyRun, collectionFor, localContext. run_both.
  destruct (Mongo.doFind drv _ _ f) as [[cur|] [e|]]; simpl; try reflexivity.
  unfold walkMongoSet, func. rewrite walk_spec. simpl.
  rewrite <- !app_assoc. reflexivity.
Qed.

(** X11.  What the later generation does, the earlier one did: with the same
    settings and against the same driver, every method of the two makes
    the same calls in the same contexts, the only difference in what they
    do being the lines the earlier one logs; and every method but
    InsertOne returns the same. *)
Theorem later_generation_agrees (drv : Mongo.Driver)
        (old : MoInstanceGen.MoInstance) (ctx : Context)
        (req : ClientGen.Request) :
  unlogged (snd (MoInstanceGen.perform drv old ctx req))
  = snd (ClientGen.perform drv (upgrade old) ctx req)
  /\ (isInsertOne req = false ->
      fst (MoInstanceGen.perform drv old ctx req)
      = fst (ClientGen.perform drv (upgrade old) ctx req)).
Proof.
  destruct req.
  - (* InsertOne *)
    split; [|discriminate]. run_both.
    destruct (jsonToBsonM data) as [d [e|]]; simpl; [reflexivity|].
    destruct (Mongo.doInsertOne drv _ _ d) as [[[id]|] [e|]]; simpl;
      try reflexivity; destruct id; reflexivity.
  - run_both. destruct (jsonToBsonM filter) as [d [e|]]; simpl;
      [split; reflexivity|].
    destruct (Mongo.doFindOne drv _ _ d); split; reflexivity.
  - run_both.
    destruct (Mongo.doFindOne drv _ _ (filterByID objectID)); split; reflexivity.
  - destruct (jsonToBsonM filterJSON) as [d [e|]] eqn:Hconv.
    + run_both. rewrite Hconv. split; reflexivity.
    + replace (MoInstanceGen.perform drv old ctx
                 (ClientGen.ReqFindManyFilterJSON filterJSON))
        with (MoInstanceGen.perform drv old ctx (ClientGen.ReqFindManyFilterBSON d))
        by (unfold_old_methods; now rewrite Hconv).
      rewrite old_find_many.
      rewrite (perform_find_many drv (upgrade old) ctx _ d)
        by (simpl; now rewrite Hconv).
      split; [|reflexivity]. unfold findManyRun.
      destruct (Mongo.doFind drv _ _ d) as [[cur|] [e|]]; try reflexivity.
      cbv [snd]. rewrite !unlogged_app, unlogged_nexts. reflexivity.
  - rewrite old_find_many, perform_find_many_bson.
    split; [|reflexivity]. unfold findManyRun.
    destruct (Mongo.doFind drv _ _ filterBSON) as [[cur|] [e|]]; try reflexivity.
    cbv [snd]. rewrite !unlogged_app, unlogged_nexts. reflexivity.
  - run_both. destruct (jsonToBsonM filter) as [d [e|]]; simpl;
      [split; reflexivity|].
    destruct (Mongo.doDeleteOne drv _ _ d); split; reflexivity.
  - run_both. destruct (jsonToBsonM filter) as [d [e|]]; simpl;
      [split; reflexivity|].
    destruct (Mongo.doDeleteMany drv _ _ d); split; reflexivity.
  - run_both.
    destruct (Mongo.doUpdateOne drv _ _ (filterByID id) newValue);
      split; reflexivity.
  - run_both.
    destruct (Mongo.doUpdateOne drv _ _ filter newValue); split; reflexivity.
  - run_both. destruct (jsonToBsonM filter) as [d [e|]]; simpl;
      [split; reflexivity|].
    destruct (Mongo.doUpdateMany drv _ _ d newValue); split; reflexivity.
Qed.

Lemma later_generation_agrees_witness :
  fst (MoInstanceGen.perform (Samples.emptyStore VNil) sampleOld Samples.caller
         (ClientGen.ReqFindByID 5))
  = Return (ClientGen.RespAny any_nil (Some ErrNoDocuments)).
Proof.
  rewrite (proj2 (later_generation_agrees (Samples.emptyStore VNil) sampleOld
                    Samples.caller (ClientGen.ReqFindByID 5)) eq_refl).
  reflexivity.
Defined.

(* ================================================================== *)
(** * What every method does *)
(* ================================================================== *)

Lemma driverCalls_app tr1 tr2 :
  driverCalls (tr1 ++ tr2) = driverCalls tr1 ++ driverCalls tr2.
Proof. unfold driverCalls. apply flat_map_app. Qed.

Lemma driverCalls_nexts ctx items :
  driverCalls (nexts ctx items) = repeat (Mongo.CursorNext ctx) (steps items).
Proof.
  unfold nexts. induction (steps items) as [|n IH]; simpl; [reflexivity|].
  f_equal. exact IH.
Qed.

Lemma steps_decodable docs : steps (map Mongo.Decodable docs) = S (List.length docs).
Proof. induction docs as [|d docs IH]; simpl; [reflexivity | now rewrite IH]. Qed.

Lemma steps_undecodable before cause after :
  steps (map Mongo.Decodable before ++ Mongo.Undecodable cause :: after)
  = S (List.length before).
Proof. induction before as [|d docs IH]; simpl; [reflexivity | now rewrite IH]. Qed.

Lemma steps_bounds items : (1 <= steps items <= S (List.length items))%nat.
Proof. induction items as [|[d|e] items IH]; simpl; lia. Qed.

(** What a delete or an update does and returns, for each answer of the
    driver. *)
Lemma perform_summary drv m ctx req c :
  returnsSummary req = true ->
  operationOf m ctx req = Some c ->
  exists a err,
    summary drv c = Some (a, err)
    /\ a <> any_nil
    /\ ClientGen.perform drv m ctx req
       = (Return (ClientGen.RespAny a err),
          [EvWithTimeout ctx (ClientGen.timeout m); EvDriver c;
           EvCancel (localContext m ctx)]).
Proof.
  intros Hreq Hop. destruct req; try discriminate; simpl in Hop;
    unfold converted in Hop.
  - destruct (jsonToBsonM filter) as [d [e|]] eqn:Hconv; [discriminate|].
    injection Hop as <-. run_method. rewrite Hconv. simpl.
    destruct (Mongo.doDeleteOne drv _ _ d) as [r err].
    do 2 eexists. repeat split. discriminate.
  - destruct (jsonToBsonM filter) as [d [e|]] eqn:Hconv; [discriminate|].
    injection Hop as <-. run_method. rewrite Hconv. simpl.
    destruct (Mongo.doDeleteMany drv _ _ d) as [r err].
    do 2 eexists. repeat split. discriminate.
  - injection Hop as <-. run_method.
    destruct (Mongo.doUpdateOne drv _ _ (filterByID id) newValue) as [r err].
    do 2 eexists. repeat split. discriminate.
  - injection Hop as <-. run_method.
    destruct (Mongo.doUpdateOne drv _ _ filter newValue) as [r err].
    do 2 eexists. repeat split. discriminate.
  - destruct (jsonToBsonM filter) as [d [e|]] eqn:Hconv; [discriminate|].
    injection Hop as <-. run_method. rewrite Hconv. simpl.
    destruct (Mongo.doUpdateMany drv _ _ d newValue) as [r err].
    do 2 eexists. repeat split. discriminate.
Qed.

Lemma Forall_cursorCall_nexts ctxLocal n :
  Forall (cursorCall ctxLocal) (repeat (Mongo.CursorNext ctxLocal) n).
Proof. induction n; simpl; constructor; auto. now left. Qed.

Lemma findManyRun_calls drv m ctx f :
  exists cursorCalls,
    driverCalls (snd (findManyRun drv m ctx f))
    = Mongo.Find (collectionFor m) (localContext m ctx) f :: cursorCalls
    /\ Forall (cursorCall (localContext m ctx)) cursorCalls.
Proof.
  unfold findManyRun.
  destruct (Mongo.doFind drv _ _ f) as [[cur|] [e|]]; cbv [snd];
    try (exists []; split; [reflexivity | constructor]).
  exists (repeat (Mongo.CursorNext (localContext m ctx)) (steps (Mongo.Items cur))
          ++ [Mongo.CursorClose (localContext m ctx)]).
  split.
  - rewrite !driverCalls_app, driverCalls_nexts. reflexivity.
  - apply Forall_app. split; [apply Forall_cursorCall_nexts|].
    constructor; [now right | constructor].
Qed.

(** The calls a method makes: the operation of its request, and after a
    find the calls that walk the cursor and close it. *)
Lemma perform_calls drv m ctx req :
  exists cursorCalls,
    driverCalls (snd (ClientGen.perform drv m ctx req))
    = match operationOf m ctx req with
      | Some c => c :: cursorCalls
      | None => []
      end
    /\ Forall (cursorCall (localContext m ctx)) cursorCalls.
Proof.
  assert (Hconv_err : forall data d e,
             ClientGen.payload req = Some data ->
             jsonToBsonM data = (d, Some e) ->
             driverCalls (snd (ClientGen.perform drv m ctx req)) = []).
  { intros data d e Hp Hconv.
    destruct (perform_conversion_error drv m ctx req data d e Hp Hconv)
      as (resp & Hrun & _).
    now rewrite Hrun. }
  assert (Hsummary : forall c,
             returnsSummary req = true -> operationOf m ctx req = Some c ->
             driverCalls (snd (ClientGen.perform drv m ctx req)) = [c]).
  { intros c Hreq Hop.
    destruct (perform_summary drv m ctx req c Hreq Hop)
      as (a & err & _ & _ & Hrun).
    now rewrite Hrun. }
  destruct req; simpl operationOf; unfold converted.
  - destruct (jsonToBsonM data) as [d [e|]] eqn:Hconv.
    + exists []. split; [|constructor]. now apply (Hconv_err data d e).
    + exists []. split; [|constructor].
      unfold ClientGen.perform, ClientGen.call. rewrite snd_run_fmap.
      now rewrite (run_InsertOne drv m ctx data d Hconv).
  - destruct (jsonToBsonM filter) as [d [e|]] eqn:Hconv.
    + exists []. split; [|constructor]. now apply (Hconv_err filter d e).
    + exists []. split; [|constructor].
      rewrite (perform_lookup drv m ctx _ d) by (simpl; now rewrite Hconv).
      reflexivity.
  - exists []. split; [|constructor].
    now rewrite (perform_lookup drv m ctx _ (filterByID objectID)).
  - destruct (jsonToBsonM filterJSON) as [d [e|]] eqn:Hconv.
    + exists []. split; [|constructor]. now apply (Hconv_err filterJSON d e).
    + rewrite (perform_find_many drv m ctx _ d) by (simpl; now rewrite Hconv).
      apply findManyRun_calls.
  - rewrite perform_find_many_bson. apply findManyRun_calls.
  - destruct (jsonToBsonM filter) as [d [e|]] eqn:Hconv.
    + exists []. split; [|constructor]. now apply (Hconv_err filter d e).
    + exists []. split; [|constructor]. apply Hsummary; [reflexivity|].
      simpl. unfold converted. now rewrite Hconv.
  - destruct (jsonToBsonM filter) as [d [e|]] eqn:Hconv.
    + exists []. split; [|constructor]. now apply (Hconv_err filter d e).
    + exists []. split; [|constructor]. apply Hsummary; [reflexivity|].
      simpl. unfold converted. now rewrite Hconv.
  - exists []. split; [|constructor]. now apply Hsummary.
  - exists []. split; [|constructor]. now apply Hsummary.
  - destruct (jsonToBsonM filter) as [d [e|]] eqn:Hconv.
    + exists []. split; [|constructor]. now apply (Hconv_err filter d e).
    + exists []. split; [|constructor]. apply Hsummary; [reflexivity|].
      simpl. unfold converted. now rewrite Hconv.
Qed.

Lemma operationOf_shape m ctx req c :
  operationOf m ctx req = Some c ->
  Mongo.is_operation c = true
  /\ callContext c = Some (localContext m ctx)
  /\ callCollection c = Some (collectionFor m).
Proof.
  destruct req; simpl; unfold converted;
    try (destruct (jsonToBsonM _) as [d [e|]]; simpl; [discriminate|]);
    intros [= <-]; repeat split.
Qed.

Lemma filter_cursorCalls ctxLocal calls :
  Forall (cursorCall ctxLocal) calls -> filter Mongo.is_operation calls = [].
Proof.
  induction 1 as [|c calls [-> | ->] _ IH]; simpl; auto.
Qed.

(** ** Failures of the driver, for every request *)

(** C3. Every method whose text converts, or that takes none, dispatches
    the operation of its request; when the driver fails that operation,
    the method returns an error that is the error of the driver or wraps
    it, and the operation has been dispatched once: nothing is retried. *)
Theorem driver_failure_is_returned (drv : Mongo.Driver) (m : ClientGen.Client)
        (ctx : Context) (req : ClientGen.Request) (c : Mongo.Call)
        (cause : error) :
  operationOf m ctx req = Some c ->
  failure drv c = Some cause ->
  exists resp e,
    fst (ClientGen.perform drv m ctx req) = Return resp
    /\ ClientGen.responseError resp = Some e
    /\ StoreOperationFailed cause e
    /\ operations (snd (ClientGen.perform drv m ctx req)) = [c].
Proof.
  intros Hop Hfail.
  apply dispatched_failure_is_returned; [|exact Hfail].
  destruct (perform_calls drv m ctx req) as (calls & Hcalls & Hcursor).
  unfold operations. rewrite Hcalls, Hop.
  destruct (operationOf_shape m ctx req c Hop) as (Hisop & _).
  simpl. rewrite Hisop. now left.
Qed.

Lemma driver_failure_is_returned_witness :
  exists resp e,
    fst (ClientGen.perform Samples.unreachable Samples.sampleClient
           Samples.caller (ClientGen.ReqUpdateOne (Some []) (Some [])))
    = Return resp
    /\ ClientGen.responseError resp = Some e
    /\ StoreOperationFailed Samples.refused e
    /\ operations
         (snd (ClientGen.perform Samples.unreachable Samples.sampleClient
                 Samples.caller (ClientGen.ReqUpdateOne (Some []) (Some []))))
       = [Mongo.UpdateOne Samples.sampleCollection Samples.callerLocal
            (Some []) (Some [])].
Proof.
  apply (driver_failure_is_returned Samples.unreachable Samples.sampleClient
           Samples.caller (ClientGen.ReqUpdateOne (Some []) (Some []))
           (Mongo.UpdateOne Samples.sampleCollection Samples.callerLocal
              (Some []) (Some []))
           Samples.refused).
  - reflexivity.
  - reflexivity.
Defined.

(** ** One operation for each request *)

(** X12.  Whatever the driver answers, a method dispatches the operation of its
    request, once, and no other operation: the method of the collection
    that its name says, on the configured collection, with the document
    its text converted to.  It dispatches none when the text does not
    convert. *)
Theorem one_operation_per_request (drv : Mongo.Driver) (m : ClientGen.Client)
        (ctx : Context) (req : ClientGen.Request) :
  operations (snd (ClientGen.perform drv m ctx req))
  = match operationOf m ctx req with
    | Some c => [c]
    | None => []
    end.
Proof.
  destruct (perform_calls drv m ctx req) as (calls & Hcalls & Hcursor).
  unfold operations. rewrite Hcalls.
  destruct (operationOf m ctx req) as [c|] eqn:Hop; [|reflexivity].
  destruct (operationOf_shape m ctx req c Hop) as (Hisop & _).
  simpl. rewrite Hisop. now rewrite (filter_cursorCalls _ _ Hcursor).
Qed.

(** ** The context and the collection of every call *)

(** X13.  Every call a method makes of the driver, the calls that walk and close
    a cursor included, is handed the context the method derived, never the
    context of the caller; and every operation is made on the configured
    collection of the configured database. *)
Theorem every_call_uses_derived_context (drv : Mongo.Driver)
        (m : ClientGen.Client) (ctx : Context) (req : ClientGen.Request) :
  Forall (fun c =>
            callContext c = Some (localContext m ctx)
            /\ (Mongo.is_operation c = true ->
                callCollection c = Some (collectionFor m)))
         (driverCalls (snd (ClientGen.perform drv m ctx req))).
Proof.
  destruct (perform_calls drv m ctx req) as (calls & Hcalls & Hcursor).
  rewrite Hcalls.
  destruct (operationOf m ctx req) as [c|] eqn:Hop; [|constructor].
  destruct (operationOf_shape m ctx req c Hop) as (_ & Hctx & Hcoll).
  constructor; [now split|].
  eapply Forall_impl; [|exact Hcursor].
  intros c' [-> | ->]; split; try reflexivity; discriminate.
Qed.

(** ** Deletes and updates *)

(** X14.  DeleteOne, DeleteAll, UpdateByID, UpdateOne and UpdateMany, once their
    text has converted, return what the driver answered as it is: its
    error, and its result as an [any] that is never nil, not even when the
    driver returned its error with a nil result. *)
Theorem summary_is_passed_on (drv : Mongo.Driver) (m : ClientGen.Client)
        (ctx : Context) (req : ClientGen.Request) (c : Mongo.Call) :
  returnsSummary req = true ->
  operationOf m ctx req = Some c ->
  exists a err,
    summary drv c = Some (a, err)
    /\ fst (ClientGen.perform drv m ctx req) = Return (ClientGen.RespAny a err)
    /\ a <> any_nil.
Proof.
  intros Hreq Hop.
  destruct (perform_summary drv m ctx req c Hreq Hop)
    as (a & err & Hsum & Hnil & Hrun).
  exists a, err. rewrite Hrun. auto.
Qed.

Lemma summary_is_passed_on_witness :
  fst (ClientGen.perform Samples.unreachable Samples.sampleClient Samples.caller
         (ClientGen.ReqUpdateByID 5 (Some [])))
  = Return (ClientGen.RespAny (any_UpdateResult None) (Some Samples.refused)).
Proof.
  destruct (summary_is_passed_on Samples.unreachable Samples.sampleClient
              Samples.caller (ClientGen.ReqUpdateByID 5 (Some []))
              _ eq_refl eq_refl)
    as (a & err & Hsum & Hrun & _).
  rewrite Hrun. injection Hsum as <- <-. reflexivity.
Defined.

(** ** What comes with an error *)

Lemma walked_error items cursorErr :
  forall result e,
    snd (walked items cursorErr result) = Some e ->
    fst (walked items cursorErr result) = [].
Proof.
  induction items as [|[doc|e'] items IH]; intros result e; simpl.
  - destruct cursorErr; [reflexivity | discriminate].
  - apply IH.
  - reflexivity.
Qed.

(** X15.  InsertOne, FindOne, FindByID and the finds return nothing with an
    error: the zero identifier, a nil [any], no document. *)
Theorem error_comes_alone (drv : Mongo.Driver) (m : ClientGen.Client)
        (ctx : Context) (req : ClientGen.Request) (resp : ClientGen.Response)
        (e : error) :
  returnsSummary req = false ->
  fst (ClientGen.perform drv m ctx req) = Return resp ->
  ClientGen.responseError resp = Some e ->
  ClientGen.carriesNothing resp = true.
Proof.
  assert (Hconv_err : forall data d e',
             ClientGen.payload req = Some data ->
             jsonToBsonM data = (d, Some e') ->
             fst (ClientGen.perform drv m ctx req) = Return resp ->
             ClientGen.carriesNothing resp = true).
  { intros data d e' Hp Hconv.
    destruct (perform_conversion_error drv m ctx req data d e' Hp Hconv)
      as (resp' & Hrun & _ & Hzero).
    rewrite Hrun. now intros [= <-]. }
  assert (Hlookup : forall f, lookupFilter req = Some f ->
             fst (ClientGen.perform drv m ctx req) = Return resp ->
             ClientGen.responseError resp = Some e ->
             ClientGen.carriesNothing resp = true).
  { intros f Hf. rewrite (perform_lookup drv m ctx req f Hf). cbv [fst].
    destruct (Mongo.doFindOne drv _ _ f); intros [= <-]; simpl;
      [discriminate | reflexivity | reflexivity]. }
  assert (Hmany : forall f, manyFilter req = Some f ->
             fst (ClientGen.perform drv m ctx req) = Return resp ->
             ClientGen.responseError resp = Some e ->
             ClientGen.carriesNothing resp = true).
  { intros f Hf. rewrite (perform_find_many drv m ctx req f Hf).
    unfold findManyRun.
    destruct (Mongo.doFind drv _ _ f) as [[cur|] [e'|]]; cbv [fst];
      try discriminate; try (intros [= <-]; reflexivity).
    intros [= <-]. unfold ClientGen.respMany. simpl. intros Herr.
    now rewrite (walked_error _ _ _ _ Herr). }
  intros Hreq. destruct req; try discriminate.
  - destruct (jsonToBsonM data) as [d [e'|]] eqn:Hconv;
      [intros H _; now apply (Hconv_err data d e')|].
    unfold ClientGen.perform, ClientGen.call. unfold run, fmap, bind.
    generalize (run_InsertOne drv m ctx data d Hconv). unfold run.
    destruct (ClientGen.InsertOne drv m ctx data (mkState [] [])) as [r st].
    intros [= -> _].
    destruct (Mongo.doInsertOne drv _ _ d) as [[result|] [e'|]]; simpl;
      try (intros [= <-]; simpl; try discriminate; reflexivity).
    destruct (Mongo.InsertedID result); simpl; try discriminate.
    intros [= <-]. discriminate.
  - destruct (jsonToBsonM filter) as [d [e'|]] eqn:Hconv;
      [intros H _; now apply (Hconv_err filter d e')|].
    apply (Hlookup d). simpl. now rewrite Hconv.
  - now apply (Hlookup (filterByID objectID)).
  - destruct (jsonToBsonM filterJSON) as [d [e'|]] eqn:Hconv;
      [intros H _; now apply (Hconv_err filterJSON d e')|].
    apply (Hmany d). simpl. now rewrite Hconv.
  - now apply (Hmany filterBSON).
Qed.

Lemma error_comes_alone_witness :
  ClientGen.carriesNothing
    (ClientGen.RespID NilObjectID (Some Samples.refused)) = true.
Proof.
  apply (error_comes_alone Samples.unreachable Samples.sampleClient
           Samples.caller (ClientGen.ReqInsertOne john) _ Samples.refused).
  - reflexivity.
  - vm_compute. reflexivity.
  - reflexivity.
Defined.

(* ================================================================== *)
(** * Walking a cursor *)
(* ================================================================== *)

(** X16.  A find whose documents all decode walks the cursor to its end: it
    calls Next once more than there are documents and then closes the
    cursor.  If the cursor ends without error, the find returns the
    documents, all of them, in the order of the cursor, and no error; if
    the cursor ends with an error, it returns that error, wrapped, and
    none of the documents. *)
Theorem find_returns_all_in_order (drv : Mongo.Driver) (m : ClientGen.Client)
        (ctx : Context) (req : ClientGen.Request) (f : bsonM)
        (cur : Mongo.Cursor) (docs : list bsonM) :
  manyFilter req = Some f ->
  Mongo.doFind drv (collectionFor m) (localContext m ctx) f = (Some cur, None) ->
  Mongo.Items cur = map Mongo.Decodable docs ->
  fst (ClientGen.perform drv m ctx req)
  = Return match Mongo.CursorErr cur with
           | None => ClientGen.RespMany docs None
           | Some e =>
               ClientGen.RespMany [] (Some (withStack e "cursor error"))
           end
  /\ driverCalls (snd (ClientGen.perform drv m ctx req))
     = Mongo.Find (collectionFor m) (localContext m ctx) f
       :: repeat (Mongo.CursorNext (localContext m ctx)) (S (List.length docs))
       ++ [Mongo.CursorClose (localContext m ctx)].
Proof.
  intros Hf Hfind Hitems.
  rewrite (perform_find_many drv m ctx req f Hf). unfold findManyRun.
  rewrite Hfind, Hitems. cbv [fst snd]. split.
  - rewrite walked_decodable. now destruct (Mongo.CursorErr cur).
  - rewrite !driverCalls_app, driverCalls_nexts, steps_decodable. reflexivity.
Qed.

Lemma find_returns_all_in_order_witness :
  fst (ClientGen.perform
         (Samples.finding
            (Mongo.mkCursor
               [Mongo.Decodable (Some [("Name"%string, VString "mary")]);
                Mongo.Decodable (Some [("Name"%string, VString "john")])] None))
         Samples.sampleClient Samples.caller
         (ClientGen.ReqFindManyFilterBSON (Some [])))
  = Return (ClientGen.RespMany
              [Some [("Name"%string, VString "mary")];
               Some [("Name"%string, VString "john")]] None).
Proof.
  apply (find_returns_all_in_order _ _ _ _ (Some [])
           (Mongo.mkCursor
              [Mongo.Decodable (Some [("Name"%string, VString "mary")]);
               Mongo.Decodable (Some [("Name"%string, VString "john")])] None)
           [Some [("Name"%string, VString "mary")];
            Some [("Name"%string, VString "john")]]); reflexivity.
Defined.

(** X17.  A find stops at the first document that fails to decode: it has called
    Next for the documents before it and for it, and for none of those
    after it; it closes the cursor all the same. *)
Theorem decode_failure_stops_the_walk (drv : Mongo.Driver)
        (m : ClientGen.Client) (ctx : Context) (req : ClientGen.Request)
        (f : bsonM) (cur : Mongo.Cursor) (before : list bsonM)
        (cause : error) (after : list Mongo.Item) :
  manyFilter req = Some f ->
  Mongo.doFind drv (collectionFor m) (localContext m ctx) f = (Some cur, None) ->
  Mongo.Items cur
  = map Mongo.Decodable before ++ Mongo.Undecodable cause :: after ->
  driverCalls (snd (ClientGen.perform drv m ctx req))
  = Mongo.Find (collectionFor m) (localContext m ctx) f
    :: repeat (Mongo.CursorNext (localContext m ctx)) (S (List.length before))
    ++ [Mongo.CursorClose (localContext m ctx)].
Proof.
  intros Hf Hfind Hitems.
  rewrite (perform_find_many drv m ctx req f Hf). unfold findManyRun.
  rewrite Hfind, Hitems. cbv [snd].
  rewrite !driverCalls_app, driverCalls_nexts, steps_undecodable. reflexivity.
Qed.

Lemma decode_failure_stops_the_walk_witness :
  driverCalls
    (snd (ClientGen.perform
            (Samples.finding
               (Mongo.mkCursor
                  [Mongo.Decodable (Some []);
                   Mongo.Undecodable (DriverError "unexpected end of document");
                   Mongo.Decodable (Some []);
                   Mongo.Decodable (Some [])] None))
            Samples.sampleClient Samples.caller
            (ClientGen.ReqFindManyFilterBSON (Some []))))
  = [Mongo.Find Samples.sampleCollection Samples.callerLocal (Some []);
     Mongo.CursorNext Samples.callerLocal;
     Mongo.CursorNext Samples.callerLocal;
     Mongo.CursorClose Samples.callerLocal].
Proof.
  apply (decode_failure_stops_the_walk _ Samples.sampleClient Samples.caller
           _ (Some [])
           (Mongo.mkCursor
              [Mongo.Decodable (Some []);
               Mongo.Undecodable (DriverError "unexpected end of document");
               Mongo.Decodable (Some []);
               Mongo.Decodable (Some [])] None)
           [Some []] (DriverError "unexpected end of document")
           [Mongo.Decodable (Some []); Mongo.Decodable (Some [])]);
    reflexivity.
Defined.

(** X18.  A find closes the cursor it was given, once, as the last call it makes
    of the driver, however the walk ended; when Find returned an error it
    walks and closes nothing. *)
Theorem cursor_is_closed_once (drv : Mongo.Driver) (m : ClientGen.Client)
        (ctx : Context) (req : ClientGen.Request) (f : bsonM) :
  manyFilter req = Some f ->
  match Mongo.doFind drv (collectionFor m) (localContext m ctx) f with
  | (Some cur, None) =>
      exists n,
        (1 <= n <= S (List.length (Mongo.Items cur)))%nat
        /\ driverCalls (snd (ClientGen.perform drv m ctx req))
           = Mongo.Find (collectionFor m) (localContext m ctx) f
             :: repeat (Mongo.CursorNext (localContext m ctx)) n
             ++ [Mongo.CursorClose (localContext m ctx)]
  | _ =>
      driverCalls (snd (ClientGen.perform drv m ctx req))
      = [Mongo.Find (collectionFor m) (localContext m ctx) f]
  end.
Proof.
  intros Hf. rewrite (perform_find_many drv m ctx req f Hf). unfold findManyRun.
  destruct (Mongo.doFind drv _ _ f) as [[cur|] [e|]]; try reflexivity.
  exists (steps (Mongo.Items cur)). split; [apply steps_bounds|].
  cbv [snd]. rewrite !driverCalls_app, driverCalls_nexts. reflexivity.
Qed.

Lemma cursor_is_closed_once_witness :
  driverCalls
    (snd (ClientGen.perform Samples.unreachable Samples.sampleClient
            Samples.caller (ClientGen.ReqFindManyFilterJSON (Samples.text "{}"))))
  = [Mongo.Find Samples.sampleCollection Samples.callerLocal (Some [])].
Proof.
  apply (cursor_is_closed_once Samples.unreachable Samples.sampleClient
           Samples.caller
           (ClientGen.ReqFindManyFilterJSON (Samples.text "{}")) (Some [])).
  reflexivity.
Defined.

(* ================================================================== *)
(** * Identifiers and texts *)
(* ================================================================== *)

Lemma map_set_holds_none k v (m : gomap) :
  holdsObjectID v = false ->
  existsb (fun kv => holdsObjectID (snd kv)) m = false ->
  existsb (fun kv => holdsObjectID (snd kv)) (map_set k v m) = false.
Proof.
  intros Hv. induction m as [|[k' v'] m IH]; simpl.
  - now rewrite Hv.
  - intros H. apply orb_false_iff in H as [Hv' Hm].
    destruct (String.compare k k'); simpl.
    + now rewrite Hv, Hm.
    + now rewrite Hv, Hv', Hm.
    + now rewrite Hv', (IH Hm).
Qed.

Lemma store_pairs_holds_none (kvs : list (string * goval)) :
  Forall (fun kv => holdsObjectID (snd kv) = false) kvs ->
  forall m,
    existsb (fun kv => holdsObjectID (snd kv)) m = false ->
    existsb (fun kv => holdsObjectID (snd kv)) (JSON.store_pairs kvs m) = false.
Proof.
  unfold JSON.store_pairs.
  induction 1 as [|[k v] kvs Hv _ IH]; intros m Hm; simpl; [exact Hm|].
  apply IH. now apply map_set_holds_none.
Qed.

(** What a text decodes to holds no ObjectID, at any depth. *)
Lemma valueInterface_holds_none (j : JSON.json) :
  holdsObjectID (fst (JSON.valueInterface j)) = false.
Proof.
  induction j as [| | | |elems IH|fields IH] using RoundTrip.json_induction;
    try reflexivity.
  - simpl. now destruct (JSON.ParseFloat n).
  - simpl. rewrite map_map.
    induction IH as [|j elems Hj _ IHl]; [reflexivity|].
    simpl. now rewrite Hj.
  - simpl. apply store_pairs_holds_none; [|reflexivity].
    rewrite map_map. simpl.
    induction IH as [|[k j] fields Hj _ IHl]; constructor; auto.
Qed.

Lemma converted_holds_none (data : JSON.bytes) (d : bsonM) :
  converted data = Some d -> documentHoldsObjectID d = false.
Proof.
  unfold converted, jsonToBsonM, JSON.Unmarshal.
  destruct (JSON.parse data) as [[| | | | |fields]|]; try discriminate.
  - now intros [= <-].
  - destruct (JSON.savedError _); [discriminate|]. intros [= <-].
    exact (valueInterface_holds_none (JSON.JObject fields)).
Qed.

(** X19.  The document or filter that a method converts from a JSON text
    and sends holds no ObjectID, at any depth: through a text, a document
    cannot be named by an ObjectID. *)
Theorem json_text_sends_no_ObjectID (drv : Mongo.Driver) (m : ClientGen.Client)
        (ctx : Context) (req : ClientGen.Request) (data : JSON.bytes) :
  ClientGen.payload req = Some data ->
  Forall (fun c => exists d,
              carried c = Some d /\ documentHoldsObjectID d = false)
         (operations (snd (ClientGen.perform drv m ctx req))).
Proof.
  intros Hp.
  destruct (perform_calls drv m ctx req) as (calls & Hcalls & Hcursor).
  assert (Hops : operations (snd (ClientGen.perform drv m ctx req))
                 = match operationOf m ctx req with
                   | Some c => [c]
                   | None => []
                   end).
  { unfold operations. rewrite Hcalls.
    destruct (operationOf m ctx req) as [c|] eqn:Hop; [|reflexivity].
    destruct (operationOf_shape m ctx req c Hop) as (Hisop & _).
    simpl. rewrite Hisop. now rewrite (filter_cursorCalls _ _ Hcursor). }
  rewrite Hops. clear Hops Hcalls Hcursor calls.
  destruct req; simpl in Hp; try discriminate; simpl;
    (destruct (converted _) as [d|] eqn:Hd; simpl; [|constructor]);
    (constructor; [|constructor]);
    exists d; (split; [reflexivity|]); exact (converted_holds_none _ d Hd).
Qed.

Lemma json_text_sends_no_ObjectID_witness :
  Forall (fun c => exists d,
              carried c = Some d /\ documentHoldsObjectID d = false)
         [Mongo.DeleteOne Samples.sampleCollection Samples.callerLocal
            (Some [("_id"%string, VString "5d678d799139918d230cfd41")])].
Proof.
  apply (json_text_sends_no_ObjectID (Samples.emptyStore VNil)
           Samples.sampleClient Samples.caller
           (ClientGen.ReqDeleteOne
              (Samples.text "{'_id':'5d678d799139918d230cfd41'}")) _ eq_refl).
Defined.

(* ================================================================== *)
(** * The constructor, step by step *)
(* ================================================================== *)

(** X20.  NewMongo stops at the first step that fails and returns its error
    as it is, with no client: after a Connect that failed it does not
    ping, after a Ping that failed it builds no client; either way it
    cancels the context it derived. *)
Theorem NewMongo_stops_at_first_failure (drv : Mongo.Driver)
        (config : ClientGen.Cfg) (e : error) :
  let ctx := dialContext (ClientGen.SecondsTimeoutExecution config) in
  let url := ClientGen.URL config in
  (snd (Mongo.doConnect drv ctx url) = Some e ->
   run (ClientGen.NewMongo drv (Some config))
   = (Return (None, Some e),
      [EvWithTimeout Background (seconds (ClientGen.SecondsTimeoutExecution config));
       EvDriver (Mongo.Connect ctx url);
       EvCancel ctx]))
  /\ (forall instance,
         Mongo.doConnect drv ctx url = (Some instance, None) ->
         Mongo.doPing drv instance ctx = Some e ->
         run (ClientGen.NewMongo drv (Some config))
         = (Return (None, Some e),
            [EvWithTimeout Background
               (seconds (ClientGen.SecondsTimeoutExecution config));
             EvDriver (Mongo.Connect ctx url);
             EvDriver (Mongo.Ping ctx);
             EvCancel ctx])).
Proof.
  cbv zeta. split.
  - run_constructor.
    destruct (Mongo.doConnect drv _ _) as [instance [e'|]]; simpl;
      [|discriminate].
    now intros [= ->].
  - intros instance Hconnect Hping. run_constructor.
    unfold dialContext in *. rewrite Hconnect. simpl. now rewrite Hping.
Qed.

Lemma NewMongo_stops_at_first_failure_witness :
  fst (run (ClientGen.NewMongo Samples.unreachable (Some Samples.sampleCfg)))
  = Return (None, Some Samples.refused).
Proof.
  rewrite (proj1 (NewMongo_stops_at_first_failure Samples.unreachable
                    Samples.sampleCfg Samples.refused) eq_refl).
  reflexivity.
Defined.
